(** * HalfTruths: the bias-analysis pipeline

    A shallow embedding of the Python sources, module by module, followed
    by the properties proved of it.

    - [PyStr]         the [str] operations the sources use, over code points
    - [Py]            dynamically typed values, exceptions, outcomes
    - [Provider]      provider handles, requests, and code that sends them
    - [JsonLite]      a decoder to run the model on concrete responses
    - [Detector]      [src/agents/detector.py]
    - [Rewriter]      [src/agents/rewriter.py]
    - [Explainer]     [src/agents/explainer.py]
    - [Orchestrator]  [src/agents/orchestrator.py]
    - [ModelFactory]  [src/services/model_factory.py]
    - [NewsDb]        [src/database/news_db.py]
    - [PyOps]         subscripts, iteration and [len] on values
    - [Main]          [src/main.py]
    - [NewsClient]    [src/services/news_client.py]
    - [Clients]       [src/services/gemini_client.py],
                      [src/services/claude_client.py]

    Conventions.
    - A [str] is the list of its code points, so [length] is [len]; text is
      well formed, so that encoding it never fails.
    - A function that can raise returns an [Outcome]; [try]/[except] is a
      handler on outcomes.  [print] is left out.
    - What the program does not decide is a parameter: [json.loads], the
      MD5 digest, the answers of the providers, the environment variables,
      the availability of the backends, the clock of the database.
    - The database is the list of its rows.  Of the failures of the engine
      only the [UNIQUE] constraint is modelled. *)

From Stdlib Require Import ZArith QArith Ascii String List.
From stdpp Require Import gmap strings list sorting.

Set Warnings "-register-all".

Local Open Scope Z_scope.

(* ===================================================================== *)
(** ** Python strings *)
(* ===================================================================== *)

Module PyStr.

(** A [str] value: its sequence of Unicode code points. *)
Definition pystr : Type := list N.

(** A literal of the sources, written as a Rocq string. *)
Definition py (s : string) : pystr :=
  (fun a => Ascii.N_of_ascii a) <$> list_ascii_of_string s.

(** A literal that holds double quotes, written with an apostrophe in
    the place of each: [dq "{'a': 1}"] is the text of seven characters
    that starts with a brace and a double quote. *)
Definition dq (s : string) : pystr :=
  (fun c => if (c =? 39)%N then 34%N else c) <$> py s.

(** [str.isspace] on one character; [strip()] and [split()] without
    arguments use the same table (CPython's [_PyUnicode_IsWhitespace]). *)
Definition is_space (c : N) : bool :=
  ((9 <=? c) && (c <=? 13) || (28 <=? c) && (c <=? 32)
   || (c =? 133) || (c =? 160) || (c =? 5760)
   || (8192 <=? c) && (c <=? 8202)
   || (c =? 8232) || (c =? 8233) || (c =? 8239) || (c =? 8287)
   || (c =? 12288))%N.

(** [s.lstrip()] *)
Fixpoint lstrip (s : pystr) : pystr :=
  match s with
  | c :: s' => if is_space c then lstrip s' else s
  | [] => []
  end.

(** [s.rstrip()] *)
Definition rstrip (s : pystr) : pystr := rev (lstrip (rev s)).

(** [s.strip()] *)
Definition strip (s : pystr) : pystr := rstrip (lstrip s).

(** [s.startswith(p)] *)
Fixpoint startswith (p s : pystr) : bool :=
  match p, s with
  | [], _ => true
  | a :: p', b :: s' => (a =? b)%N && startswith p' s'
  | _ :: _, [] => false
  end.

(** [s.endswith(p)] *)
Definition endswith (p s : pystr) : bool := startswith (rev p) (rev s).

(** [p in s] for two strings: [p] occurs as a contiguous run of [s]. *)
Fixpoint contains (p s : pystr) : bool :=
  startswith p s || match s with [] => false | _ :: s' => contains p s' end.

(** [s.find(c)] for a one-character pattern: first index, or -1. *)
Fixpoint find (c : N) (s : pystr) : Z :=
  match s with
  | [] => -1
  | x :: s' =>
      if (x =? c)%N then 0
      else let r := find c s' in if r =? -1 then -1 else r + 1
  end.

(** [s.rfind(c)] for a one-character pattern: last index, or -1. *)
Definition rfind (c : N) (s : pystr) : Z :=
  let r := find c (rev s) in
  if r =? -1 then -1 else Z.of_nat (length s) - 1 - r.

(** [s[i:j]] for indices that are not negative. *)
Definition slice (s : pystr) (i j : Z) : pystr :=
  take (Z.to_nat (j - i)) (drop (Z.to_nat i) s).

(** [s.replace(c, '')] for a one-character pattern. *)
Definition remove_char (c : N) (s : pystr) : pystr :=
  List.filter (fun x => negb (x =? c)%N) s.

(** [s.split()]: the maximal runs of characters that are not whitespace.
    [w] is the run being read, last character first. *)
Fixpoint split_go (w s : pystr) : list pystr :=
  match s with
  | [] => match w with [] => [] | _ => [rev w] end
  | c :: s' =>
      if is_space c
      then match w with [] => split_go [] s' | _ => rev w :: split_go [] s' end
      else split_go (c :: w) s'
  end.

Definition split (s : pystr) : list pystr := split_go [] s.

(** [a == b] on strings. *)
Definition eqb (a b : pystr) : bool := bool_decide (a = b).

End PyStr.

Export PyStr.

(* ===================================================================== *)
(** ** src/agents/orchestrator.py: rewrite quality *)
(* ===================================================================== *)

Module Quality.

(** The three strings [_assess_rewrite_quality] can return. *)
Inductive RewriteQuality := no_change | moderate_change | significant_change.

(** [original_words * 0.5]: the product of an [int] and the float one half.
    It is exact for any count below 2^53, and Python compares an [int]
    with a [float] by value, so the test is one on rationals. *)
Definition half_of (words : Z) : Q := (inject_Z words * (1 # 2))%Q.

Definition exceeds (delta : Z) (bound : Q) : bool :=
  match (bound ?= inject_Z delta)%Q with Lt => true | _ => false end.

Definition _assess_rewrite_quality (original rewritten : pystr) : RewriteQuality :=
  if PyStr.eqb original rewritten then no_change
  else
    let original_words := Z.of_nat (length (split original)) in
    let rewritten_words := Z.of_nat (length (split rewritten)) in
    if exceeds (Z.abs (original_words - rewritten_words)) (half_of original_words)
    then significant_change
    else moderate_change.

End Quality.

(* ===================================================================== *)
(** ** Python values, exceptions, outcomes *)
(* ===================================================================== *)

Module Py.

(** The values [json.loads] can build, which are also the values the
    agents pass around.  A [float] is given by its rational value; the
    infinities and NaN are left out. *)
Inductive PyVal :=
| PyNone
| PyBool (b : bool)
| PyInt (z : Z)
| PyFloat (q : Q)
| PyStr (s : pystr)
| PyList (l : list PyVal)
| PyDict (d : gmap pystr PyVal).

(** Exception classes met in the sources; every one derives from
    [Exception].  [SqliteError] is [sqlite3.Error] with its subclasses;
    [ProviderError] stands for whatever a provider SDK raises (transport,
    authentication, rate limit). *)
Inductive exn :=
| JSONDecodeError
| RecursionError
| TypeError
| AttributeError
| KeyError
| ValueError (msg : string)
| RuntimeError (msg : string)
| OverflowError
| SqliteError (msg : string)
| ProviderError (code : N).

(** What running a piece of code ends in. *)
Inductive Outcome (A : Type) :=
| Returned (a : A)
| Raised (e : exn).
Arguments Returned {A} a.
Arguments Raised {A} e.

(** Sequencing: an exception skips the rest. *)
Definition obind {A B} (m : Outcome A) (k : A -> Outcome B) : Outcome B :=
  match m with
  | Returned a => k a
  | Raised e => Raised e
  end.

(** [try: m except Exception as e: h e] *)
Definition try_except {A} (m : Outcome A) (h : exn -> Outcome A) : Outcome A :=
  match m with
  | Returned a => Returned a
  | Raised e => h e
  end.

(** [bool(v)], as used by [if v:] and [not v]. *)
Definition truthy (v : PyVal) : bool :=
  match v with
  | PyNone => false
  | PyBool b => b
  | PyInt z => negb (z =? 0)
  | PyFloat q => negb (Qeq_bool q 0)
  | PyStr s => match s with [] => false | _ => true end
  | PyList l => match l with [] => false | _ => true end
  | PyDict d => negb (bool_decide (d = ∅))
  end.

(** [key in v] for a string [key].  A dict is asked for the key, a list
    for an equal element, a string for the substring; anything else is
    not a container. *)
Definition py_in (key : pystr) (v : PyVal) : Outcome bool :=
  match v with
  | PyDict d => Returned (bool_decide (is_Some (d !! key)))
  | PyList l =>
      Returned (existsb (fun x => match x with
                                  | PyStr s => PyStr.eqb s key
                                  | _ => false
                                  end) l)
  | PyStr s => Returned (contains key s)
  | _ => Raised TypeError
  end.

(** [all(field in v for field in fields)]: stops at the first [False],
    and at the first exception. *)
Fixpoint py_all_in (fields : list pystr) (v : PyVal) : Outcome bool :=
  match fields with
  | [] => Returned true
  | f :: fs =>
      obind (py_in f v) (fun b => if b then py_all_in fs v else Returned false)
  end.

(** [v.get(key, default)]: only a dict has the method. *)
Definition py_get (v : PyVal) (key : pystr) (default : PyVal) : Outcome PyVal :=
  match v with
  | PyDict d => Returned (match d !! key with Some x => x | None => default end)
  | _ => Raised AttributeError
  end.

(** A dict whose keys are the field names of the sources and whose
    values are text: an article, a result to store. *)
Abbreviation TextDict := (gmap string pystr).

(** [d.get(key, default)] *)
Definition get (d : TextDict) (key : string) (default : pystr) : pystr :=
  match d !! key with Some v => v | None => default end.

(** [d[key]] *)
Definition item (d : TextDict) (key : string) : Outcome pystr :=
  match d !! key with Some v => Returned v | None => Raised KeyError end.

(** The number a value stands for in an ordering comparison with an
    [int]: [bool] is a subclass of [int]. *)
Definition as_number (v : PyVal) : option Q :=
  match v with
  | PyBool b => Some (inject_Z (if b then 1 else 0))
  | PyInt z => Some (inject_Z z)
  | PyFloat q => Some q
  | _ => None
  end.

(** [v > n] and [v < n] for an [int] literal [n]. *)
Definition py_gt (v : PyVal) (n : Z) : Outcome bool :=
  match as_number v with
  | Some q => Returned (match (q ?= inject_Z n)%Q with Gt => true | _ => false end)
  | None => Raised TypeError
  end.

Definition py_lt (v : PyVal) (n : Z) : Outcome bool :=
  match as_number v with
  | Some q => Returned (match (q ?= inject_Z n)%Q with Lt => true | _ => false end)
  | None => Raised TypeError
  end.

End Py.

Export Py.

(* ===================================================================== *)
(** ** Providers and provider calls *)
(* ===================================================================== *)

Module Provider.

(** [class ProviderType(Enum)] of [src/services/model_factory.py]. *)
Inductive ProviderType := GEMINI | GROQ | CLAUDE.

#[global] Instance ProviderType_eq_dec : EqDecision ProviderType.
Proof. solve_decision. Defined.

(** What [ModelFactory.get_model] returns: [(client, model_name,
    provider)].  The client is the SDK object of the backend named by
    [provider], bound to the key of the environment; it carries nothing
    else the agents read. *)
Record Handle := {
  model_name : pystr;
  provider : ProviderType
}.

#[global] Instance Handle_eq_dec : EqDecision Handle.
Proof. solve_decision. Defined.

(** The prompts of the four stages, by what they are built from. *)
Inductive Prompt :=
| BiasAnalysisPrompt (article_text : pystr)
| RewritePrompt (original_text : pystr) (bias_analysis : PyVal)
| TitlePrompt (original_title : pystr) (bias_analysis : PyVal)
| ExplainPrompt (bias_analysis : PyVal).

(** One request sent to a backend. *)
Record Call := {
  call_provider : ProviderType;
  call_model : pystr;
  call_prompt : Prompt
}.

(** The three SDKs, each by what the agents read off its response:
    - Groq:   [chat.completions.create(...).choices[0].message.content],
              which may be [None];
    - Gemini: [generate_content(prompt).text];
    - Claude: [messages.create(...).content[0].text].
    An exception of the SDK, or of reading the response, is [Raised]. *)
Record Backends := {
  groq_chat : pystr -> Prompt -> Outcome (option pystr);
  gemini_generate : pystr -> Prompt -> Outcome pystr;
  claude_messages : pystr -> Prompt -> Outcome pystr
}.

(** Code that talks to a provider: the requests it sent, in order, and
    how it ended. *)
Definition Eff (A : Type) : Type := list Call * Outcome A.

Definition eret {A} (a : A) : Eff A := ([], Returned a).

Definition lift {A} (o : Outcome A) : Eff A := ([], o).

Definition ebind {A B} (m : Eff A) (k : A -> Eff B) : Eff B :=
  match m with
  | (sent, Returned a) => let '(sent', o) := k a in (sent ++ sent', o)
  | (sent, Raised e) => (sent, Raised e)
  end.

(** [try: m except Exception as e: h e] *)
Definition etry {A} (m : Eff A) (h : exn -> Eff A) : Eff A :=
  match m with
  | (sent, Returned a) => (sent, Returned a)
  | (sent, Raised e) => let '(sent', o) := h e in (sent ++ sent', o)
  end.

Definition calls {A} (m : Eff A) : list Call := fst m.
Definition outcome {A} (m : Eff A) : Outcome A := snd m.

Declare Scope eff_scope.
Delimit Scope eff_scope with eff.
Notation "x <~ m ;; k" := (ebind m (fun x => k))
  (at level 100, m at next level, right associativity) : eff_scope.

Section Request.
Variable B : Backends.

Definition request {A} (p : ProviderType) (model : pystr) (prompt : Prompt)
    (reply : Outcome A) : Eff A :=
  ([{| call_provider := p; call_model := model; call_prompt := prompt |}], reply).

Definition ask_groq (h : Handle) (prompt : Prompt) : Eff (option pystr) :=
  request GROQ (model_name h) prompt (groq_chat B (model_name h) prompt).

Definition ask_gemini (h : Handle) (prompt : Prompt) : Eff pystr :=
  request GEMINI (model_name h) prompt (gemini_generate B (model_name h) prompt).

Definition ask_claude (h : Handle) (prompt : Prompt) : Eff pystr :=
  request CLAUDE (model_name h) prompt (claude_messages B (model_name h) prompt).
End Request.

End Provider.

Export Provider.

(* ===================================================================== *)
(** ** A decoder to run the model on concrete texts *)
(* ===================================================================== *)

Module JsonLite.

(** [json.loads] belongs to Python's standard library, and the agents are
    modelled over any decoder.  To evaluate them on a concrete response a
    decoder is needed: this one reads JSON with integer numbers and the
    one-letter escapes, and rejects every other text, also the few
    ([1.5], a [\u] escape, [NaN]) that [json.loads] accepts. *)

Definition is_json_ws (c : N) : bool :=
  ((c =? 32) || (c =? 9) || (c =? 10) || (c =? 13))%N.

Fixpoint skip_ws (s : pystr) : pystr :=
  match s with
  | c :: s' => if is_json_ws c then skip_ws s' else s
  | [] => []
  end.

Definition is_digit (c : N) : bool := ((48 <=? c) && (c <=? 57))%N.

Fixpoint digits (acc : Z) (s : pystr) : Z * pystr :=
  match s with
  | c :: s' => if is_digit c then digits (10 * acc + (Z.of_N c - 48)) s' else (acc, s)
  | [] => (acc, [])
  end.

(** An integer: [0], or a digit from 1 to 9 and more digits; a fraction
    or an exponent after it is refused. *)
Definition number (s : pystr) : option (Z * pystr) :=
  match s with
  | 48%N :: s' => Some (0, s')
  | c :: _ => if is_digit c then Some (digits 0 s) else None
  | [] => None
  end.

Definition no_fraction (s : pystr) : bool :=
  match s with
  | c :: _ => negb ((c =? 46) || (c =? 101) || (c =? 69))%N
  | [] => true
  end.

Definition escape (c : N) : option N :=
  (if c =? 34 then Some 34 else if c =? 92 then Some 92
   else if c =? 47 then Some 47 else if c =? 98 then Some 8
   else if c =? 102 then Some 12 else if c =? 110 then Some 10
   else if c =? 114 then Some 13 else if c =? 116 then Some 9
   else None)%N.

(** The characters of a string up to its closing quote; [acc] holds them
    last first. *)
Fixpoint string_body (acc : pystr) (s : pystr) : option (pystr * pystr) :=
  match s with
  | [] => None
  | 34%N :: s' => Some (rev acc, s')
  | 92%N :: c :: s' =>
      match escape c with
      | Some x => string_body (x :: acc) s'
      | None => None
      end
  | c :: s' => if (c <? 32)%N then None else string_body (c :: acc) s'
  end.

Definition literal (word : string) (v : PyVal) (s : pystr) : option (PyVal * pystr) :=
  if startswith (py word) s then Some (v, drop (length (py word)) s) else None.

Section Containers.
(** The decoder of one value, for the elements of a container. *)
Variable value : pystr -> option (PyVal * pystr).

(** After [\[] and a first element: [, element]* [\]]. *)
Fixpoint elements (k : nat) (acc : list PyVal) (s : pystr) : option (PyVal * pystr) :=
  match k with
  | O => None
  | S k =>
      match skip_ws s with
      | 93%N :: r => Some (PyList (rev acc), r)
      | 44%N :: r =>
          match value r with
          | Some (v, r') => elements k (v :: acc) r'
          | None => None
          end
      | _ => None
      end
  end.

Definition member (s : pystr) : option (pystr * PyVal * pystr) :=
  match skip_ws s with
  | 34%N :: r =>
      match string_body [] r with
      | Some (key, r1) =>
          match skip_ws r1 with
          | 58%N :: r2 =>
              match value r2 with
              | Some (v, r3) => Some (key, v, r3)
              | None => None
              end
          | _ => None
          end
      | None => None
      end
  | _ => None
  end.

(** After [{] and a first member: [, member]* [}].  A key met again
    replaces the earlier value. *)
Fixpoint members (k : nat) (acc : gmap pystr PyVal) (s : pystr) : option (PyVal * pystr) :=
  match k with
  | O => None
  | S k =>
      match skip_ws s with
      | 125%N :: r => Some (PyDict acc, r)
      | 44%N :: r =>
          match member r with
          | Some (key, v, r') => members k (<[key := v]> acc) r'
          | None => None
          end
      | _ => None
      end
  end.
End Containers.

Fixpoint value (fuel : nat) (s : pystr) : option (PyVal * pystr) :=
  match fuel with
  | O => None
  | S fuel =>
      match skip_ws s with
      | 123%N :: r =>
          match skip_ws r with
          | 125%N :: r' => Some (PyDict ∅, r')
          | _ =>
              match member (value fuel) r with
              | Some (key, v, r') => members (value fuel) (length r') (<[key := v]> ∅) r'
              | None => None
              end
          end
      | 91%N :: r =>
          match skip_ws r with
          | 93%N :: r' => Some (PyList [], r')
          | _ =>
              match value fuel r with
              | Some (v, r') => elements (value fuel) (length r') [v] r'
              | None => None
              end
          end
      | 34%N :: r =>
          match string_body [] r with
          | Some (str, r') => Some (PyStr str, r')
          | None => None
          end
      | 45%N :: r =>
          match number r with
          | Some (z, r') => if no_fraction r' then Some (PyInt (- z), r') else None
          | None => None
          end
      | c :: r =>
          if is_digit c then
            match number (c :: r) with
            | Some (z, r') => if no_fraction r' then Some (PyInt z, r') else None
            | None => None
            end
          else if (c =? 116)%N then literal "true" (PyBool true) (c :: r)
          else if (c =? 102)%N then literal "false" (PyBool false) (c :: r)
          else if (c =? 110)%N then literal "null" PyNone (c :: r)
          else None
      | [] => None
      end
  end.

Definition json_loads (s : pystr) : Outcome PyVal :=
  match value (S (length s)) s with
  | Some (v, rest) =>
      match skip_ws rest with
      | [] => Returned v
      | _ => Raised JSONDecodeError
      end
  | None => Raised JSONDecodeError
  end.

End JsonLite.

(* ===================================================================== *)
(** ** src/agents/detector.py *)
(* ===================================================================== *)

Module Detector.

Local Open Scope eff_scope.

Definition emotional_bias_score : pystr := py "emotional_bias_score".
Definition framing_bias_score : pystr := py "framing_bias_score".
Definition omission_bias_score : pystr := py "omission_bias_score".
Definition overall_bias_score : pystr := py "overall_bias_score".
Definition biased_phrases : pystr := py "biased_phrases".
Definition summary : pystr := py "summary".

Definition fallback_summary : pystr :=
  py "Bias analysis unavailable - using fallback response".

Definition _get_fallback_response : PyVal :=
  PyDict (<[emotional_bias_score := PyInt 50]>
          (<[framing_bias_score := PyInt 50]>
           (<[omission_bias_score := PyInt 50]>
            (<[overall_bias_score := PyInt 50]>
             (<[biased_phrases := PyList []]>
              (<[summary := PyStr fallback_summary]> ∅)))))).

(** [required] of [_extract_json]. *)
Definition required : list pystr :=
  [emotional_bias_score; framing_bias_score; overall_bias_score].

Section WithDecoder.
(** The cleaning of [_extract_json]: strip, drop the code fences, strip. *)
Definition clean_response (text : pystr) : pystr :=
  let cleaned := strip text in
  let cleaned := if startswith (py "```json") cleaned then drop 7 cleaned else cleaned in
  let cleaned := if startswith (py "```") cleaned then drop 3 cleaned else cleaned in
  let cleaned := if endswith (py "```") cleaned
                 then take (length cleaned - 3) cleaned else cleaned in
  strip cleaned.

(** [cleaned[start:end]], from the first opening brace (code point
    123) to the last closing brace (125); nothing when either is
    missing. *)
Definition json_object_text (cleaned : pystr) : option pystr :=
  let start := find 123 cleaned in
  let end_ := rfind 125 cleaned + 1 in
  if (start =? -1) || (end_ =? 0) then None
  else Some (slice cleaned start end_).

(** [json.loads], of the standard library: the value decoded, or the
    exception raised ([JSONDecodeError], or [RecursionError] on a text
    nested too deep). *)
Variable json_loads : pystr -> Outcome PyVal.

(** The body of the [try] of [_extract_json]. *)
Definition extract_json_try (text : pystr) : Outcome PyVal :=
  let cleaned := clean_response text in
  match json_object_text cleaned with
  | None => Returned _get_fallback_response
  | Some json_str =>
      obind (json_loads json_str) (fun result =>
      obind (py_all_in required result) (fun ok =>
      if ok then Returned result else Returned _get_fallback_response))
  end.

(** [text] is [None] when the caller has no text to give. *)
Definition _extract_json (text : option pystr) : Outcome PyVal :=
  match text with
  | None | Some [] => Returned _get_fallback_response
  | Some text =>
      try_except (extract_json_try text)
        (fun e => match e with
                  | JSONDecodeError => Returned _get_fallback_response
                  | _ => Returned _get_fallback_response
                  end)
  end.

Section WithBackends.
Variable B : Backends.

Definition _analyze_chat_completion (self : Handle) (prompt : Prompt) : Eff PyVal :=
  result_text <~ ask_groq B self prompt ;;
  match result_text with
  | None => eret _get_fallback_response
  | Some t => lift (_extract_json (Some t))
  end.

Definition _analyze_gemini (self : Handle) (prompt : Prompt) : Eff PyVal :=
  text <~ ask_gemini B self prompt ;;
  lift (_extract_json (Some text)).

Definition _analyze_claude (self : Handle) (prompt : Prompt) : Eff PyVal :=
  result_text <~ ask_claude B self prompt ;;
  lift (_extract_json (Some result_text)).

Definition _create_bias_analysis_prompt (article_text : pystr) : Prompt :=
  BiasAnalysisPrompt article_text.

Definition detect_biases (self : Handle) (article_text : pystr) : Eff PyVal :=
  if match article_text with [] => true | _ => false end
     || (Z.of_nat (length (strip article_text)) <? 10)
  then eret _get_fallback_response
  else
    let prompt := _create_bias_analysis_prompt article_text in
    etry (match provider self with
          | GROQ => _analyze_chat_completion self prompt
          | GEMINI => _analyze_gemini self prompt
          | CLAUDE => _analyze_claude self prompt
          end)
         (fun _ => eret _get_fallback_response).
End WithBackends.
End WithDecoder.

End Detector.

(* ===================================================================== *)
(** ** src/agents/rewriter.py *)
(* ===================================================================== *)

Module Rewriter.

Local Open Scope eff_scope.
Import Detector.

(** [content or original]: the reply of Groq when it has text, the
    original otherwise ([None] and [''] are both false). *)
Definition content_or (content : option pystr) (original : pystr) : pystr :=
  match content with
  | None | Some [] => original
  | Some t => t
  end.

(** [v[:10]], then [for phrase in ...]: the items the loop visits.  A
    list gives its first ten elements and a string its first ten
    characters; a dict cannot be sliced ([TypeError]; [KeyError] from
    Python 3.12 on), and a number cannot be subscripted. *)
Definition first_ten (v : PyVal) : Outcome (list PyVal) :=
  match v with
  | PyList l => Returned (take 10 l)
  | PyStr s => Returned ((fun c => PyStr [c]) <$> take 10 s)
  | _ => Raised TypeError
  end.

(** The three [phrase.get(...)] of the loop body. *)
Fixpoint phrase_hints (phrases : list PyVal) : Outcome unit :=
  match phrases with
  | [] => Returned tt
  | phrase :: rest =>
      obind (py_get phrase (py "suggested_replacement") (PyStr (py "neutral language")))
        (fun _ =>
      obind (py_get phrase (py "text") (PyStr [])) (fun _ =>
      obind (py_get phrase (py "bias_type") (PyStr (py "unknown"))) (fun _ =>
      phrase_hints rest)))
  end.

Definition _create_rewrite_prompt (original_text : pystr) (bias_analysis : PyVal)
    : Outcome Prompt :=
  obind (py_get bias_analysis biased_phrases (PyList [])) (fun phrases =>
  obind (if truthy phrases
         then obind (first_ten phrases) phrase_hints
         else Returned tt) (fun _ =>
  Returned (RewritePrompt original_text bias_analysis))).

Section WithBackends.
Variable B : Backends.

Definition rewrite_neutral (self : Handle) (original_text : pystr)
    (bias_analysis : PyVal) : Eff pystr :=
  prompt <~ lift (_create_rewrite_prompt original_text bias_analysis) ;;
  etry (match provider self with
        | GROQ =>
            content <~ ask_groq B self prompt ;;
            eret (content_or content original_text)
        | GEMINI => ask_gemini B self prompt
        | CLAUDE => ask_claude B self prompt
        end)
       (fun _ => eret original_text).

(** [neutral_title.strip()] with every double quote (code point 34)
    removed by [replace]. *)
Definition clean_title (neutral_title : pystr) : pystr :=
  remove_char 34 (strip neutral_title).

(** [clean_title if 10 < len(clean_title) < 120 else original_title] *)
Definition checked_title (neutral_title original_title : pystr) : pystr :=
  let clean := clean_title neutral_title in
  let n := Z.of_nat (length clean) in
  if (10 <? n) && (n <? 120) then clean else original_title.

Definition rewrite_title_neutral (self : Handle) (original_title : pystr)
    (bias_analysis : PyVal) : Eff pystr :=
  score <~ lift (py_get bias_analysis overall_bias_score (PyInt 0)) ;;
  low <~ lift (py_lt score 20) ;;
  if low then eret original_title
  else
    (* the prompt reads two more scores with [.get], on what is a dict *)
    let prompt := TitlePrompt original_title bias_analysis in
    etry (neutral_title <~
            match provider self with
            | GROQ =>
                content <~ ask_groq B self prompt ;;
                eret (content_or content original_title)
            | GEMINI => ask_gemini B self prompt
            | CLAUDE => ask_claude B self prompt
            end ;;
          eret (checked_title neutral_title original_title))
         (fun _ => eret original_title).
End WithBackends.

End Rewriter.

(* ===================================================================== *)
(** ** src/agents/explainer.py *)
(* ===================================================================== *)

Module Explainer.

Local Open Scope eff_scope.
Import Detector.

Section WithBackends.
Variable B : Backends.

Definition explain_biases (self : Handle) (bias_analysis : PyVal) : Eff pystr :=
  _ <~ lift (py_get bias_analysis summary (PyStr (py "No analysis available"))) ;;
  let prompt := ExplainPrompt bias_analysis in
  etry (match provider self with
        | GROQ =>
            content <~ ask_groq B self prompt ;;
            eret (Rewriter.content_or content (py "Unable to generate explanation."))
        | GEMINI => ask_gemini B self prompt
        | CLAUDE => ask_claude B self prompt
        end)
       (fun _ => eret (py "Unable to generate explanation at this time.")).
End WithBackends.

End Explainer.

(* ===================================================================== *)
(** ** src/agents/orchestrator.py *)
(* ===================================================================== *)

Module Orchestrator.

Local Open Scope eff_scope.
Import Detector Quality.

(** The three agents of a [BiasAnalysisOrchestrator], each by the handle
    its constructor stored.  The semaphore bounds how many articles are
    in flight; it has no part in what a run returns. *)
Record Agents := {
  detector : Handle;
  rewriter : Handle;
  explainer : Handle
}.

(** The dict [analyze_article] returns, key by key. *)
Record AnalysisResult := {
  original_text : pystr;
  original_title : pystr;
  neutral_version : pystr;
  neutral_title : pystr;
  analysis : PyVal;
  explanation : pystr;
  source : pystr;
  rewrite_quality : RewriteQuality
}.

(** An element of the list [analyze_multiple_articles] returns: the dict
    of a run, or [{"error": str(e)}] for the exception [e] it raised. *)
Inductive Slot :=
| Result (r : AnalysisResult)
| ErrorRecord (error : pystr).

Section WithEnvironment.
Variable json_loads : pystr -> Outcome PyVal.
Variable B : Backends.

(** Lines 21 to 24 of [analyze_article]: the title stage. *)
Definition title_stage (self : Agents) (title : pystr) (bias_analysis : PyVal)
    : Eff pystr :=
  match title with
  | [] => eret title
  | _ =>
      score <~ lift (py_get bias_analysis overall_bias_score (PyInt 0)) ;;
      high <~ lift (py_gt score 20) ;;
      if high
      then Rewriter.rewrite_title_neutral B (rewriter self) title bias_analysis
      else eret title
  end.

Definition analyze_article (self : Agents) (article_text title src : pystr)
    : Eff AnalysisResult :=
  bias_analysis <~ detect_biases json_loads B (detector self) article_text ;;
  neutral_text <~ Rewriter.rewrite_neutral B (rewriter self) article_text bias_analysis ;;
  new_title <~ title_stage self title bias_analysis ;;
  explained <~ Explainer.explain_biases B (explainer self) bias_analysis ;;
  eret {| original_text := article_text;
          original_title := title;
          neutral_version := neutral_text;
          neutral_title := new_title;
          analysis := bias_analysis;
          explanation := explained;
          source := src;
          rewrite_quality := _assess_rewrite_quality article_text neutral_text |}.

End WithEnvironment.

(** [await asyncio.gather( *tasks, return_exceptions=True)]: every task
    runs to its end whatever the others do, and the list pairs each task,
    in the order given, with the value it returned or the exception it
    raised.  The requests are logged task by task; runs in flight
    together interleave them. *)
Definition gather {A} (tasks : list (Eff A)) : Eff (list (Outcome A)) :=
  (concat (calls <$> tasks), Returned (outcome <$> tasks)).

Section Batch.
Variable json_loads : pystr -> Outcome PyVal.
(** [world i] is how the backends answer the requests of the run
    started for the article at position [i]: two runs may get different
    answers to the same request. *)
Variable world : nat -> Backends.
(** [str(e)] of an exception. *)
Variable exn_str : exn -> pystr.

(** The first loop of [analyze_multiple_articles]. *)
Fixpoint make_tasks (self : Agents) (tasks : list (Eff AnalysisResult))
    (articles : list TextDict) : list (Eff AnalysisResult) :=
  match articles with
  | [] => tasks
  | article :: rest =>
      let task := analyze_article json_loads (world (length tasks)) self
                    (get article "body" [])
                    (get article "title" [])
                    (get article "source" (py "unknown")) in
      make_tasks self (tasks ++ [task]) rest
  end.

(** The second loop. *)
Fixpoint process_results (processed_results : list Slot)
    (results : list (Outcome AnalysisResult)) : list Slot :=
  match results with
  | [] => processed_results
  | result :: rest =>
      match result with
      | Raised e => process_results (processed_results ++ [ErrorRecord (exn_str e)]) rest
      | Returned r => process_results (processed_results ++ [Result r]) rest
      end
  end.

Definition analyze_multiple_articles (self : Agents) (articles : list TextDict)
    : Eff (list Slot) :=
  let tasks := make_tasks self [] articles in
  results <~ gather tasks ;;
  eret (process_results [] results).
End Batch.

End Orchestrator.

(* ===================================================================== *)
(** ** src/services/model_factory.py *)
(* ===================================================================== *)

Module ModelFactory.

Definition GEMINI_MODELS : list pystr :=
  [py "models/gemini-2.0-flash"; py "models/gemini-2.0-flash-001";
   py "models/gemini-flash-latest"; py "models/gemini-2.0-flash-lite";
   py "models/gemini-1.5-flash-latest"].

Definition GROQ_MODELS : list pystr :=
  [py "llama-3.1-70b-versatile"; py "llama-3.1-8b-instant";
   py "llama-3.1-405b-reasoning"].

Definition CLAUDE_MODELS : list pystr :=
  [py "claude-3-5-sonnet-20241022"; py "claude-3-opus-20240229";
   py "claude-3-sonnet-20240229"].

(** What a selection depends on outside the program.
    [getenv] is [os.getenv].  [probe n p m] tells whether the trial
    request to model [m] of backend [p] comes back with content, when it
    is the [n]-th trial request the process sends: availability may
    change from one request to the next. *)
Record Environment := {
  getenv : string -> option pystr;
  probe : nat -> ProviderType -> pystr -> bool
}.

(** What a selection changes: the trial requests sent so far, and the
    calls of [get_model] made so far. *)
Record World := {
  trials : nat;
  selections : nat
}.

(** Code that selects: from a world to an outcome and a world. *)
Definition Sel (A : Type) : Type := World -> Outcome A * World.

Definition sbind {A B} (m : Sel A) (k : A -> Sel B) : Sel B :=
  fun w => match m w with
           | (Returned a, w') => k a w'
           | (Raised e, w') => (Raised e, w')
           end.

Definition sret {A} (a : A) : Sel A := fun w => (Returned a, w).

Section WithEnvironment.
Variable env : Environment.

(** One trial request. *)
Definition trial (p : ProviderType) (model : pystr) : World -> bool * World :=
  fun w => (probe env (trials w) p model,
            {| trials := S (trials w); selections := selections w |}).

(** [for model_name in models: try: ... return ... except: continue],
    then the [raise RuntimeError] after the loop. *)
Fixpoint first_live (p : ProviderType) (models : list pystr) (failure : string)
    : Sel Handle :=
  match models with
  | [] => fun w => (Raised (RuntimeError failure), w)
  | model :: rest =>
      fun w =>
        let '(live, w') := trial p model w in
        if live then (Returned {| model_name := model; provider := p |}, w')
        else first_live p rest failure w'
  end.

(** [api_key = os.getenv(name)], [if not api_key: raise ValueError]. *)
Definition with_key (name : string) (missing : string) (k : Sel Handle) : Sel Handle :=
  match getenv env name with
  | None | Some [] => fun w => (Raised (ValueError missing), w)
  | Some _ => k
  end.

Definition get_gemini_model : Sel Handle :=
  with_key "GEMINI_API_KEY" "GEMINI_API_KEY environment variable is required"
    (first_live GEMINI GEMINI_MODELS "No compatible Gemini model found").

Definition get_groq_client : Sel Handle :=
  with_key "GROQ_API_KEY" "GROQ_API_KEY environment variable is required"
    (first_live GROQ GROQ_MODELS "No compatible Groq model found").

Definition get_claude_client : Sel Handle :=
  with_key "ANTHROPIC_API_KEY" "ANTHROPIC_API_KEY environment variable is required"
    (first_live CLAUDE CLAUDE_MODELS "No compatible Claude model found").

(** [try: return m except Exception: pass], then [next]. *)
Definition or_else (m next : Sel Handle) : Sel Handle :=
  fun w => match m w with
           | (Returned h, w') => (Returned h, w')
           | (Raised _, w') => next w'
           end.

Definition get_model : Sel Handle :=
  fun w =>
    or_else get_groq_client
      (or_else get_gemini_model
         (or_else get_claude_client
            (fun w => (Raised (RuntimeError "No AI models available"), w))))
      {| trials := trials w; selections := S (selections w) |}.

(** [BiasDetector.__init__], [ArticleRewriter.__init__] and
    [BiasExplainer.__init__] are the same line:
    [self.client, self.model_name, self.provider = ModelFactory.get_model()]. *)
Definition BiasDetector : Sel Handle := get_model.
Definition ArticleRewriter : Sel Handle := get_model.
Definition BiasExplainer : Sel Handle := get_model.

(** [BiasAnalysisOrchestrator.__init__]; [asyncio.Semaphore] refuses a
    negative bound. *)
Definition BiasAnalysisOrchestrator (max_concurrent : Z) : Sel Orchestrator.Agents :=
  sbind BiasDetector (fun d =>
  sbind ArticleRewriter (fun r =>
  sbind BiasExplainer (fun e =>
  if max_concurrent <? 0
  then fun w => (Raised (ValueError "Semaphore initial value must be >= 0"), w)
  else sret {| Orchestrator.detector := d;
               Orchestrator.rewriter := r;
               Orchestrator.explainer := e |}))).
End WithEnvironment.

End ModelFactory.

(* ===================================================================== *)
(** ** src/database/news_db.py *)
(* ===================================================================== *)

Module NewsDb.

(** A row of [data_news].  The columns [add_news] always fills with text
    are text; [bias] and [rewritten_article] are [NULL] ([None]) until
    [add_bias] fills them.  [created_at] is the second at which the row
    was inserted ([DEFAULT CURRENT_TIMESTAMP]). *)
Record Row := {
  id : Z;
  title : pystr;
  source : pystr;
  date : pystr;
  url : pystr;
  body : pystr;
  category : pystr;
  bias : option pystr;
  rewritten_article : option pystr;
  content_hash : pystr;
  created_at : Z
}.

(** The database file: the table in rowid order, and the largest rowid
    [AUTOINCREMENT] has given out. *)
Record Database := {
  data_news : list Row;
  sqlite_sequence : Z
}.

(** [SELECT id FROM data_news WHERE content_hash = ?], [fetchone()]. *)
Definition select_id_by_hash (db : Database) (h : pystr) : option Z :=
  id <$> head (List.filter (fun r => PyStr.eqb (content_hash r) h) (data_news db)).

Definition next_rowid (db : Database) : Z :=
  1 + foldr Z.max (sqlite_sequence db) (id <$> data_news db).

(** [INSERT INTO data_news (...) VALUES (...)]: refused by the [UNIQUE]
    constraint when the hash is already stored. *)
Definition insert (db : Database) (article : TextDict) (h : pystr) (now : Z)
    : Outcome Database :=
  if existsb (fun r => PyStr.eqb (content_hash r) h) (data_news db)
  then Raised (SqliteError "UNIQUE constraint failed: data_news.content_hash")
  else
    let rowid := next_rowid db in
    Returned
      {| data_news := data_news db ++
           [{| id := rowid;
               title := get article "title" [];
               source := get article "source" [];
               date := get article "date" [];
               url := get article "url" [];
               body := get article "body" [];
               category := get article "category" [];
               bias := None;
               rewritten_article := None;
               content_hash := h;
               created_at := now |}];
         sqlite_sequence := rowid |}.

Section WithDigest.
(** [hashlib.md5(content.encode()).hexdigest()] *)
Variable md5_hexdigest : pystr -> pystr.

Definition _generate_content_hash (article : TextDict) : pystr :=
  let content := get article "title" [] ++ get article "body" [] in
  md5_hexdigest content.

(** The loop of [add_news].  [clock k] is [CURRENT_TIMESTAMP] when the
    [k]-th article of the batch is reached. *)
Fixpoint add_news_loop (clock : nat -> Z) (k : nat) (data : list TextDict)
    (db : Database) (actually_added duplicates_found : Z) : Database * Z * Z :=
  match data with
  | [] => (db, actually_added, duplicates_found)
  | article :: rest =>
      let content_hash := _generate_content_hash article in
      match select_id_by_hash db content_hash with
      | Some existing =>
          add_news_loop clock (S k) rest db actually_added (duplicates_found + 1)
      | None =>
          match insert db article content_hash (clock k) with
          | Returned db' =>
              add_news_loop clock (S k) rest db' (actually_added + 1) duplicates_found
          | Raised _ =>
              (* except sqlite3.Error: continue *)
              add_news_loop clock (S k) rest db actually_added duplicates_found
          end
      end
  end.

(** [add_news(data)]: the count returned, and the database after the
    commit. *)
Definition add_news (clock : nat -> Z) (db : Database) (data : list TextDict)
    : Z * Database :=
  let '(db', actually_added, _) := add_news_loop clock 0 data db 0 0 in
  (actually_added, db').
End WithDigest.

(** [ORDER BY created_at DESC].  SQL leaves the order of rows with equal
    [created_at] to the engine; here they stay in rowid order. *)
Fixpoint insert_desc (r : Row) (sorted : list Row) : list Row :=
  match sorted with
  | [] => [r]
  | x :: rest =>
      if created_at x <=? created_at r then r :: sorted
      else x :: insert_desc r rest
  end.

Definition order_by_created_at_desc (rows : list Row) : list Row :=
  foldr insert_desc [] rows.

(** [LIMIT ?]: a negative value means no limit. *)
Definition sql_limit (limit : Z) (rows : list Row) : list Row :=
  if limit <? 0 then rows else take (Z.to_nat limit) rows.

(** A Python [int] binds to an SQLite [INTEGER] only when it fits 64
    signed bits. *)
Definition fits_int64 (n : Z) : bool :=
  (- 2 ^ 63 <=? n) && (n <? 2 ^ 63).

(** The rows the [SELECT] of [prepare_data_for_llm] picks, before it
    projects them on [title, body]. *)
Definition selected_rows (limit : Z) (processed_only : bool) (db : Database)
    : list Row :=
  let candidates :=
    if processed_only
    then List.filter (fun r => match bias r with None => true | Some _ => false end)
           (data_news db)
    else data_news db in
  sql_limit limit (order_by_created_at_desc candidates).

(** [{"title": row[0], "body": row[1]}] *)
Definition to_article (r : Row) : TextDict :=
  <["title" := title r]> (<["body" := body r]> ∅).

(** [prepare_data_for_llm(limit, processed_only)].  Binding a limit that
    does not fit raises [OverflowError], which is no [sqlite3.Error] and
    leaves the function.  The query itself does not fail here, so the
    branch [except sqlite3.Error], which returns the empty list, is not
    reached. *)
Definition prepare_data_for_llm (limit : Z) (processed_only : bool) (db : Database)
    : Outcome (list TextDict) :=
  if fits_int64 limit
  then Returned (to_article <$> selected_rows limit processed_only db)
  else Raised OverflowError.

(** [UPDATE data_news SET bias = ?, rewritten_article = ? WHERE title = ?] *)
Definition update_bias (new_bias new_rewrite key : pystr) (rows : list Row) : list Row :=
  (fun r =>
     if PyStr.eqb (title r) key
     then {| id := id r; title := title r; source := source r; date := date r;
             url := url r; body := body r; category := category r;
             bias := Some new_bias;
             rewritten_article := Some new_rewrite;
             content_hash := content_hash r; created_at := created_at r |}
     else r) <$> rows.

(** The loop of [add_bias], inside the transaction. *)
Fixpoint add_bias_loop (llm_data : list TextDict) (rows : list Row)
    : Outcome (list Row) :=
  match llm_data with
  | [] => Returned rows
  | data :: rest =>
      obind (item data "bias") (fun b =>
      obind (item data "rewritten_article") (fun rw =>
      obind (item data "title") (fun t =>
      add_bias_loop rest (update_bias b rw t rows))))
  end.

(** [add_bias(llm_data)]: how the call ends, and the database it leaves.
    The commit follows the loop; an exception that is not an
    [sqlite3.Error] leaves the function through [finally], where closing
    the connection drops the uncommitted updates. *)
Definition add_bias (llm_data : list TextDict) (db : Database)
    : Outcome unit * Database :=
  match add_bias_loop llm_data (data_news db) with
  | Returned rows =>
      (Returned tt, {| data_news := rows; sqlite_sequence := sqlite_sequence db |})
  | Raised (SqliteError m) => (Returned tt, db)
  | Raised e => (Raised e, db)
  end.

(** [get_article_stats()]: [(total, processed, unique_content)]. *)
Definition get_article_stats (db : Database) : Z * Z * Z :=
  let total := Z.of_nat (length (data_news db)) in
  let processed :=
    Z.of_nat (length (List.filter (fun r => match bias r with
                                            | Some _ => true
                                            | None => false
                                            end) (data_news db))) in
  let unique_content :=
    Z.of_nat (length (remove_dups (content_hash <$> data_news db))) in
  (total, processed, unique_content).

(** [get_connection_to_news_db()]: [CREATE TABLE IF NOT EXISTS].  [file]
    is the database file when there is one; a new file gets the empty
    table. *)
Definition get_connection_to_news_db (file : option Database) : Database :=
  match file with
  | Some db => db
  | None => {| data_news := []; sqlite_sequence := 0 |}
  end.

(** [clear_processed_articles()]:
    [DELETE FROM data_news WHERE bias IS NOT NULL], then [cur.rowcount].
    A deletion leaves the [AUTOINCREMENT] counter where it is. *)
Definition clear_processed_articles (db : Database) : Z * Database :=
  let deleted :=
    List.filter (fun r => match bias r with Some _ => true | None => false end)
      (data_news db) in
  let kept :=
    List.filter (fun r => match bias r with Some _ => false | None => true end)
      (data_news db) in
  (Z.of_nat (length deleted),
   {| data_news := kept; sqlite_sequence := sqlite_sequence db |}).

End NewsDb.

(* ===================================================================== *)
(** ** More operations on Python values *)
(* ===================================================================== *)

Module PyOps.

(** [v[key]] for a string [key]: a dict gives the value or raises
    [KeyError]; a list and a string take no string as index, and nothing
    else can be subscripted. *)
Definition py_item (v : PyVal) (key : pystr) : Outcome PyVal :=
  match v with
  | PyDict d => match d !! key with Some x => Returned x | None => Raised KeyError end
  | _ => Raised TypeError
  end.

(** [for x in v]: the items the loop visits.  A list gives its elements,
    a string its characters, a dict its keys (here in the order of the
    map, not in the order they were put in); nothing else is iterable. *)
Definition py_iter (v : PyVal) : Outcome (list PyVal) :=
  match v with
  | PyList l => Returned l
  | PyStr s => Returned ((fun c => PyStr [c]) <$> s)
  | PyDict d => Returned ((fun kv => PyStr kv.1) <$> map_to_list d)
  | _ => Raised TypeError
  end.

(** [len(v)]: of the values here, a string, a list and a dict have a
    length. *)
Definition py_len (v : PyVal) : Outcome Z :=
  match v with
  | PyStr s => Returned (Z.of_nat (length s))
  | PyList l => Returned (Z.of_nat (length l))
  | PyDict d => Returned (Z.of_nat (size d))
  | _ => Raised TypeError
  end.

(** [a or b] *)
Definition py_or (a : PyVal) (b : Outcome PyVal) : Outcome PyVal :=
  if truthy a then Returned a else b.

End PyOps.

(* ===================================================================== *)
(** ** src/main.py *)
(* ===================================================================== *)

Module Main.

Import Detector Orchestrator NewsDb PyOps.

(** The loop of [_verify_llm_results]: of a result that is no error
    record it reads the overall score of the analysis, to print whether
    it is the fallback. *)
Fixpoint verify_loop (analysis_results : list Slot) : Outcome unit :=
  match analysis_results with
  | [] => Returned tt
  | ErrorRecord _ :: rest => verify_loop rest
  | Result result :: rest =>
      obind (py_get (analysis result) overall_bias_score (PyInt 0)) (fun _ =>
      verify_loop rest)
  end.

Definition _verify_llm_results (analysis_results : list Slot) : Outcome (list Slot) :=
  obind (verify_loop analysis_results) (fun _ => Returned analysis_results).

(** The loop of [_display_summary] over the results that are no error
    records: it reads the scores of the analysis, and the number of
    biased phrases when there are some. *)
Fixpoint display_loop (successful_analyses : list Slot) : Outcome unit :=
  match successful_analyses with
  | [] => Returned tt
  | ErrorRecord _ :: rest => display_loop rest
  | Result result :: rest =>
      obind (py_get (analysis result) overall_bias_score (PyInt 0)) (fun _ =>
      obind (py_get (analysis result) biased_phrases (PyList [])) (fun phrases =>
      obind (if truthy phrases then py_len phrases else Returned 0) (fun _ =>
      display_loop rest)))
  end.

Definition _display_summary (analysis_results : list Slot) : Outcome unit :=
  display_loop analysis_results.

Section WithStr.
(** [str(analysis)]: the text Python writes for a value. *)
Variable py_str : PyVal -> pystr.

(** [original_articles[i]["title"] if i < len(original_articles) else
    "Unknown"] *)
Definition title_at (original_articles : list TextDict) (i : nat) : Outcome pystr :=
  match original_articles !! i with
  | Some article => item article "title"
  | None => Returned (py "Unknown")
  end.

(** The loop of [_format_results_for_db]; [i] is the index
    [enumerate] gives.  The dict of a run is not empty and has no key
    ["error"]; an error record has that key. *)
Fixpoint format_loop (i : nat) (analysis_results : list Slot)
    (original_articles : list TextDict) (db_results : list TextDict)
    : Outcome (list TextDict) :=
  match analysis_results with
  | [] => Returned db_results
  | ErrorRecord _ :: rest =>
      format_loop (S i) rest original_articles db_results
  | Result result :: rest =>
      obind (title_at original_articles i) (fun original_title =>
      if negb (truthy (analysis result))
         || match neutral_version result with [] => true | _ => false end
      then format_loop (S i) rest original_articles db_results
      else
        let bias_string :=
          if truthy (analysis result) then py_str (analysis result) else py "{}" in
        format_loop (S i) rest original_articles
          (db_results ++
             [<["title" := original_title]>
                (<["bias" := bias_string]>
                   (<["rewritten_article" := neutral_version result]> ∅))]))
  end.

Definition _format_results_for_db (analysis_results : list Slot)
    (original_articles : list TextDict) : Outcome (list TextDict) :=
  format_loop 0 analysis_results original_articles [].

(** Code of the pipeline: it reads and writes the database, sends
    requests, and returns or raises. *)
Definition Step (A : Type) : Type := Database -> list Call * Outcome A * Database.

Definition step_ret {A} (a : A) : Step A := fun db => ([], Returned a, db).

Definition step_bind {A R} (m : Step A) (k : A -> Step R) : Step R :=
  fun db =>
    match m db with
    | (sent, Returned a, db') =>
        let '(sent', o, db'') := k a db' in (sent ++ sent', o, db'')
    | (sent, Raised e, db') => (sent, Raised e, db')
    end.

(** A call that changes the database and returns. *)
Definition writes {A} (f : Database -> A * Database) : Step A :=
  fun db => let '(a, db') := f db in ([], Returned a, db').

(** A call that reads the database. *)
Definition reads {A} (f : Database -> Outcome A) : Step A :=
  fun db => ([], f db, db).

(** Code that touches neither the database nor a provider. *)
Definition pure {A} (o : Outcome A) : Step A := fun db => ([], o, db).

(** Code that talks to the providers. *)
Definition asks {A} (m : Eff A) : Step A := fun db => (calls m, outcome m, db).

Declare Scope step_scope.
Delimit Scope step_scope with step.
Notation "x <~ m ;; k" := (step_bind m (fun x => k))
  (at level 100, m at next level, right associativity) : step_scope.

Local Open Scope step_scope.

(** [for article in articles: print(article['title'][:60])] *)
Fixpoint print_titles (articles : list TextDict) : Outcome unit :=
  match articles with
  | [] => Returned tt
  | article :: rest => obind (item article "title") (fun _ => print_titles rest)
  end.

Section Pipeline.
Variable md5_hexdigest : pystr -> pystr.
Variable clock : nat -> Z.
Variable json_loads : pystr -> Outcome PyVal.
Variable world : nat -> Backends.
Variable exn_str : exn -> pystr.
(** [self.orchestrator], built by [__init__]. *)
Variable orchestrator : Agents.
(** How [self.news_client.fetch_articles(query, article_count)]
    ends.  The articles are dicts of texts, as [add_news] takes
    them. *)
Variable fetched : Outcome (list TextDict).

(** The body of the [try] of [run_full_pipeline]; [None] is the
    value of the early returns. *)
Definition run_full_pipeline_try (article_count : Z) : Step (option (list Slot)) :=
  _ <~ writes clear_processed_articles ;;
  articles <~ pure fetched ;;
  match articles with
  | [] => step_ret None
  | _ =>
      _ <~ pure (print_titles articles) ;;
      added_count <~ writes (fun db => add_news md5_hexdigest clock db articles) ;;
      if added_count =? 0 then step_ret None
      else
        llm_articles <~ reads (prepare_data_for_llm article_count true) ;;
        match llm_articles with
        | [] => step_ret None
        | _ =>
            analysis_results <~
              asks (analyze_multiple_articles json_loads world exn_str
                      orchestrator llm_articles) ;;
            valid_results <~ pure (_verify_llm_results analysis_results) ;;
            db_ready_results <~
              pure (_format_results_for_db valid_results llm_articles) ;;
            _ <~ match db_ready_results with
                 | [] => step_ret tt
                 | _ => fun db => let '(o, db') := add_bias db_ready_results db in
                                  ([], o, db')
                 end ;;
            _ <~ pure (_display_summary valid_results) ;;
            _ <~ reads (fun db => Returned (get_article_stats db)) ;;
            step_ret (Some valid_results)
        end
  end.

(** [run_full_pipeline(query, article_count)] on the database file:
    the requests sent, the value returned ([None] when the body
    raised), the database left. *)
Definition run_full_pipeline (file : option Database) (article_count : Z)
    : list Call * option (list Slot) * Database :=
  match run_full_pipeline_try article_count (get_connection_to_news_db file) with
  | (sent, Returned results, db) => (sent, results, db)
  | (sent, Raised _, db) => (sent, None, db)
  end.
End Pipeline.
End WithStr.

End Main.

(* ===================================================================== *)
(** ** src/services/news_client.py *)
(* ===================================================================== *)

Module NewsClient.

Import PyOps.

(** [s.split(sep)[0]] for a one-character separator: what comes before
    its first occurrence, or all of [s]. *)
Fixpoint first_part (sep : N) (s : pystr) : pystr :=
  match s with
  | [] => []
  | c :: s' => if (c =? sep)%N then [] else c :: first_part sep s'
  end.

(** [s.split(sep)[-1]]: what comes after its last occurrence, or all of
    [s]. *)
Definition last_part (sep : N) (s : pystr) : pystr :=
  rev (first_part sep (rev s)).

(** [v.split(sep)[0]], on a value: only a string has the method. *)
Definition split_first (sep : N) (v : PyVal) : Outcome pystr :=
  match v with
  | PyStr s => Returned (first_part sep s)
  | _ => Raised AttributeError
  end.

(** The two keys [__init__] reads with [os.getenv]. *)
Record Keys := {
  newsapi_ai_key : option pystr;
  newsapi_key : option pystr
}.

(** [not key] *)
Definition missing (key : option pystr) : bool :=
  match key with
  | None | Some [] => true
  | Some _ => false
  end.

(** [self.newsapi_ai_key or self.newsapi_key] *)
Definition either_key (self : Keys) : option pystr :=
  if missing (newsapi_ai_key self) then newsapi_key self else newsapi_ai_key self.

(** The requests the client sends, each by the fields of its payload the
    caller decides. *)
Inductive Request :=
| PostGetArticles (keyword : option pystr) (articlesCount : Z) (apiKey : option pystr)
| GetEverything (q : pystr) (pageSize : Z) (apiKey : option pystr)
| PostCategorize (text : pystr) (apiKey : option pystr).

(** A response: its status code, and what [response.json()] gives. *)
Record Response := {
  status_code : Z;
  json : Outcome PyVal
}.

(** Code that sends requests: those it sent, in order, and how it
    ended. *)
Definition Net (A : Type) : Type := list Request * Outcome A.

Definition nret {A} (a : A) : Net A := ([], Returned a).

Definition nlift {A} (o : Outcome A) : Net A := ([], o).

Definition nbind {A R} (m : Net A) (k : A -> Net R) : Net R :=
  match m with
  | (sent, Returned a) => let '(sent', o) := k a in (sent ++ sent', o)
  | (sent, Raised e) => (sent, Raised e)
  end.

(** [try: m except Exception: h] *)
Definition ntry {A} (m : Net A) (h : Net A) : Net A :=
  match m with
  | (sent, Returned a) => (sent, Returned a)
  | (sent, Raised _) => let '(sent', o) := h in (sent ++ sent', o)
  end.

Declare Scope net_scope.
Delimit Scope net_scope with net.
Notation "x <~ m ;; k" := (nbind m (fun x => k))
  (at level 100, m at next level, right associativity) : net_scope.

Local Open Scope net_scope.

Definition Uncategorized : pystr := py "Uncategorized".

(** The dict of an article, as the three fetches build it. *)
Definition article_dict (title source : PyVal) (date : pystr) (url body : PyVal)
    (category : pystr) : PyVal :=
  PyDict (<[py "title" := title]>
          (<[py "source" := source]>
           (<[py "date" := PyStr date]>
            (<[py "url" := url]>
             (<[py "body" := body]>
              (<[py "category" := PyStr category]> ∅)))))).

Section WithNetwork.
(** How a request ends: with a response, or with the exception of the
    HTTP library (no connection, a timeout). *)
Variable network : Request -> Outcome Response.

(** [sorted(v, key=lambda x: x["score"], reverse=True)[0]], built-ins
    of Python: the element, or the exception raised (an element without
    a score, scores that do not compare). *)
Variable highest_score : PyVal -> Outcome PyVal.

(** [datetime.now().strftime("%Y-%m-%d")] *)
Variable today : pystr.

Variable self : Keys.

Definition send (r : Request) : Net Response := ([r], network r).

(** [response.raise_for_status()]: an [HTTPError] for a status from
    400 to 599, here a [ProviderError] with the status. *)
Definition raise_for_status (response : Response) : Outcome unit :=
  if (400 <=? status_code response) && (status_code response <? 600)
  then Raised (ProviderError (Z.to_N (status_code response)))
  else Returned tt.

(** The body of the [try] of [_categorize_article]; [None] when the
    [if] is not taken, and the function goes on to its last line. *)
Definition categorize_try (text : pystr) : Net (option pystr) :=
  response <~ send (PostCategorize (take 5000 text) (either_key self)) ;;
  _ <~ nlift (raise_for_status response) ;;
  data <~ nlift (json response) ;;
  has <~ nlift (py_in (py "categories") data) ;;
  if has then
    categories <~ nlift (py_item data (py "categories")) ;;
    if truthy categories then
      top <~ nlift (highest_score categories) ;;
      label <~ nlift (py_item top (py "label")) ;;
      match label with
      | PyStr s => nret (Some (last_part 47 s))
      | _ => nlift (Raised AttributeError)
      end
    else nret None
  else nret None.

(** [_categorize_article(text)].  The guard calls [text.strip()]
    outside the [try]: a value that is true as a condition and is no
    string raises there. *)
Definition _categorize_article (text : PyVal) : Net pystr :=
  if negb (truthy text) then nret Uncategorized
  else
    match text with
    | PyStr s =>
        if Z.of_nat (length (strip s)) <? 50 then nret Uncategorized
        else
          label <~ ntry (categorize_try s) (nret None) ;;
          match label with
          | Some l => nret l
          | None => nret Uncategorized
          end
    | _ => nlift (Raised AttributeError)
    end.





(** The loop of [_fetch_newsapi]. *)
Fixpoint newsapi_loop (articles_data : list PyVal) (articles : list PyVal)
    : Net (list PyVal) :=
  match articles_data with
  | [] => nret articles
  | article :: rest =>
      first <~ nlift (py_get article (py "content") (PyStr [])) ;;
      content <~ nlift (py_or first (py_get article (py "description") (PyStr []))) ;;
      n <~ nlift (py_len content) ;;
      if n <? 100 then newsapi_loop rest articles
      else
        category <~ _categorize_article content ;;
        title <~ nlift (py_get article (py "title") (PyStr [])) ;;
        source <~ nlift (py_get article (py "source") (PyDict ∅)) ;;
        source_name <~ nlift (py_get source (py "name") (PyStr [])) ;;
        date <~ nlift (py_get article (py "publishedAt") (PyStr [])) ;;
        day <~ nlift (split_first 84 date) ;;
        url <~ nlift (py_get article (py "url") (PyStr [])) ;;
        newsapi_loop rest
          (articles ++ [article_dict title source_name day url content category])
  end.

Definition _fetch_newsapi (query : pystr) (count : Z) : Net (list PyVal) :=
  if missing (newsapi_key self) then nret []
  else
    ntry (response <~ send (GetEverything query count (newsapi_key self)) ;;
          if status_code response =? 200 then
            data <~ nlift (json response) ;;
            found <~ nlift (py_get data (py "articles") (PyList [])) ;;
            articles_data <~ nlift (py_iter found) ;;
            newsapi_loop articles_data []
          else nret [])
         (nret []).


End WithNetwork.

End NewsClient.

(* ===================================================================== *)
(** ** src/services/gemini_client.py, src/services/claude_client.py *)
(* ===================================================================== *)

Module Clients.

Import Detector.

Local Open Scope eff_scope.

(** [s.replace(old, new)] for a pattern that is not empty: the
    occurrences of [old] from left to right, none overlapping another.
    [skip] counts the characters of an occurrence still to pass. *)
Fixpoint replace_go (old new : pystr) (skip : nat) (s : pystr) : pystr :=
  match s with
  | [] => []
  | c :: s' =>
      match skip with
      | S k => replace_go old new k s'
      | O =>
          if startswith old s
          then new ++ replace_go old new (length old - 1) s'
          else c :: replace_go old new 0 s'
      end
  end.

Definition replace (old new s : pystr) : pystr := replace_go old new 0 s.

(** What an attribute of an instance holds: the SDK object of a
    selection, a model name, a provider type. *)
Inductive Attribute :=
| Client (h : Handle)
| ModelName (name : pystr)
| Provider (p : ProviderType).

(** An instance of [GeminiClient] or of [ClaudeClient]: its attributes
    by name.  Beside its methods neither class has an attribute of its
    own, and neither defines [__getattr__]. *)
Definition Instance : Type := gmap string Attribute.

(** [self.client, self.model_name, self.provider = ...], for the handle
    [ModelFactory.get_model()] returned. *)
Definition assign (h : Handle) : Instance :=
  <["client" := Client h]>
    (<["model_name" := ModelName (model_name h)]>
       (<["provider" := Provider (provider h)]> ∅)).

(** [__init__] of both classes. *)
Definition __init__ (env : ModelFactory.Environment) : ModelFactory.Sel Instance :=
  ModelFactory.sbind (ModelFactory.get_model env) (fun h =>
  ModelFactory.sret (assign h)).

(** [self.<name>] *)
Definition getattr (self : Instance) (name : string) : Outcome Attribute :=
  match self !! name with
  | Some a => Returned a
  | None => Raised AttributeError
  end.

(** [_get_fallback_response] of both classes. *)
Definition _get_fallback_response : PyVal :=
  PyDict (<[emotional_bias_score := PyInt 50]>
          (<[framing_bias_score := PyInt 50]>
           (<[omission_bias_score := PyInt 50]>
            (<[overall_bias_score := PyInt 50]>
             (<[biased_phrases := PyList []]>
              (<[summary := PyStr (py "Analysis unavailable")]> ∅)))))).

(** [_validate_response] of both classes. *)
Definition _validate_response (response : PyVal) : Outcome bool :=
  py_all_in [emotional_bias_score; framing_bias_score; omission_bias_score;
             overall_bias_score] response.

(** The guard of both [analyze_bias]. *)
Definition too_short (article_text : pystr) : bool :=
  match article_text with [] => true | _ => false end
  || (Z.of_nat (length (strip article_text)) <? 10).

Section WithDecoder.
Variable json_loads : pystr -> Outcome PyVal.
Variable B : Backends.

(** [GeminiClient._extract_json] *)
Definition gemini_extract_json (text : pystr) : Outcome PyVal :=
  try_except
    (let cleaned :=
       strip (replace (py "```") [] (replace (py "```json") [] (strip text))) in
     let start := find 123 cleaned in
     let end_ := rfind 125 cleaned + 1 in
     if (start =? -1) || (end_ =? 0) then Returned _get_fallback_response
     else json_loads (slice cleaned start end_))
    (fun _ => Returned _get_fallback_response).

(** [ClaudeClient._extract_json] *)
Definition claude_extract_json (text : pystr) : Outcome PyVal :=
  try_except
    (let start := find 123 text in
     let end_ := rfind 125 text + 1 in
     if negb (start =? -1) && negb (end_ =? 0)
     then json_loads (slice text start end_)
     else Returned _get_fallback_response)
    (fun _ => Returned _get_fallback_response).

(** [model.generate_content(prompt).text]: the model object of Gemini
    has the method, no other value has. *)
Definition generate_content (model : Attribute) (prompt : Prompt) : Eff pystr :=
  match model with
  | Client h =>
      match provider h with
      | GEMINI => ask_gemini B h prompt
      | _ => lift (Raised AttributeError)
      end
  | _ => lift (Raised AttributeError)
  end.

(** [client.messages.create]: the client of Anthropic has the
    attribute [messages], no other value has. *)
Definition messages_create (client : Attribute) : Outcome Handle :=
  match client with
  | Client h =>
      match provider h with
      | CLAUDE => Returned h
      | _ => Raised AttributeError
      end
  | _ => Raised AttributeError
  end.

(** What follows the answer in both [analyze_bias]. *)
Definition validated (result : PyVal) : Eff PyVal :=
  ok <~ lift (_validate_response result) ;;
  if ok then eret result else eret _get_fallback_response.

(** [GeminiClient.analyze_bias].  The prompt is the text
    [_create_bias_analysis_prompt] builds around the article. *)
Definition gemini_analyze_bias (self : Instance) (article_text : pystr) : Eff PyVal :=
  if too_short article_text then eret _get_fallback_response
  else
    let prompt := BiasAnalysisPrompt article_text in
    etry (model <~ lift (getattr self "model") ;;
          text <~ generate_content model prompt ;;
          result <~ lift (gemini_extract_json text) ;;
          validated result)
         (fun _ => eret _get_fallback_response).

(** [ClaudeClient.analyze_bias]: the call evaluates
    [self.client.messages.create] and then its arguments, of which
    [self.model] is the first. *)
Definition claude_analyze_bias (self : Instance) (article_text : pystr) : Eff PyVal :=
  if too_short article_text then eret _get_fallback_response
  else
    let prompt := BiasAnalysisPrompt article_text in
    etry (client <~ lift (getattr self "client") ;;
          create <~ lift (messages_create client) ;;
          model <~ lift (getattr self "model") ;;
          result_text <~
            match model with
            | ModelName name =>
                ask_claude B {| model_name := name; provider := CLAUDE |} prompt
            | _ => lift (Raised TypeError)
            end ;;
          result <~ lift (claude_extract_json result_text) ;;
          validated result)
         (fun _ => eret _get_fallback_response).
End WithDecoder.

End Clients.

(* ===================================================================== *)
(** * Properties *)
(* ===================================================================== *)

(** ** Strings *)

Module PyStrFacts.

Lemma eqb_eq (a b : pystr) : PyStr.eqb a b = true <-> a = b.
Proof. unfold PyStr.eqb. apply bool_decide_eq_true. Qed.

Lemma eqb_neq (a b : pystr) : PyStr.eqb a b = false <-> a <> b.
Proof. unfold PyStr.eqb. apply bool_decide_eq_false. Qed.

End PyStrFacts.

(** ** Sequencing *)

Module EffFacts.

Lemma ebind_lift_returned {A R} (a : A) (k : A -> Eff R) :
  ebind (lift (Returned a)) k = k a.
Proof. unfold ebind, lift. by destruct (k a). Qed.

End EffFacts.

(** ** Searching a string *)

Module FindFacts.

Lemma find_range (c : N) (s : list N) : -1 <= find c s < Z.of_nat (length s).
Proof.
  induction s as [| x s IH]; simpl; [lia |].
  destruct (x =? c)%N; [lia |].
  destruct (find c s =? -1) eqn:E; lia.
Qed.

(** [find] answers -1 exactly when the character does not occur. *)
Lemma find_none (c : N) (s : list N) : find c s = -1 <-> c ∉ s.
Proof.
  induction s as [| x s IH]; simpl.
  - split; [intros _; apply not_elem_of_nil | done].
  - rewrite not_elem_of_cons.
    destruct (N.eqb_spec x c) as [-> | Hne].
    + split; [lia | intros [? _]; congruence].
    + pose proof (find_range c s).
      destruct (find c s =? -1) eqn:E.
      * apply Z.eqb_eq in E. split; [| done].
        intros _. split; [congruence | by apply IH].
      * apply Z.eqb_neq in E. split; [lia |].
        intros [_ Hs]. apply IH in Hs. congruence.
Qed.

(** Otherwise it answers the first position of the character. *)
Lemma find_first (c : N) (s : list N) (i : nat) :
  find c s = Z.of_nat i -> s !! i = Some c /\ c ∉ take i s.
Proof.
  revert i. induction s as [| x s IH]; intros i; simpl.
  - lia.
  - destruct (N.eqb_spec x c) as [-> | Hne].
    + intros Hi. assert (i = 0%nat) as -> by lia.
      split; [done | apply not_elem_of_nil].
    + pose proof (find_range c s).
      destruct (find c s =? -1) eqn:E; [lia |].
      intros Hi. destruct i as [| i]; [lia |].
      destruct (IH i) as [Hl Hn]; [lia |].
      split; [done |]. simpl. rewrite not_elem_of_cons. split; [congruence | done].
Qed.

Lemma rev_reverse (s : list N) : rev s = reverse s.
Proof. unfold reverse. apply rev_alt. Qed.

Lemma rfind_range (c : N) (s : list N) : -1 <= rfind c s < Z.of_nat (length s).
Proof.
  unfold rfind. pose proof (find_range c (rev s)) as H.
  rewrite rev_reverse, length_reverse in H. rewrite rev_reverse.
  destruct (find c (reverse s) =? -1) eqn:E; [lia |].
  apply Z.eqb_neq in E. lia.
Qed.

Lemma rfind_none (c : N) (s : list N) : rfind c s = -1 <-> c ∉ s.
Proof.
  unfold rfind. pose proof (find_range c (rev s)) as H.
  rewrite rev_reverse, length_reverse in H. rewrite rev_reverse.
  rewrite <- (elem_of_reverse c s), <- find_none.
  destruct (find c (reverse s) =? -1) eqn:E.
  - apply Z.eqb_eq in E. by split.
  - apply Z.eqb_neq in E. split; lia.
Qed.

(** [rfind] answers the last position of the character. *)
Lemma rfind_last (c : N) (s : list N) (j : nat) :
  rfind c s = Z.of_nat j -> s !! j = Some c /\ c ∉ drop (S j) s.
Proof.
  unfold rfind. pose proof (find_range c (rev s)) as H.
  rewrite rev_reverse, length_reverse in H. rewrite rev_reverse.
  destruct (find c (reverse s) =? -1) eqn:E; [lia |].
  intros Hj.
  destruct (find_first c (reverse s) (length s - 1 - j)) as [Hl Hn]; [lia |].
  split.
  - rewrite reverse_lookup in Hl by lia.
    by replace (length s - S (length s - 1 - j))%nat with j in Hl by lia.
  - intros Hin. apply Hn.
    rewrite take_reverse, elem_of_reverse.
    by replace (length s - (length s - 1 - j))%nat with (S j) by lia.
Qed.

(** A slice between two positions in order: the characters from the first
    to the one before the second. *)
Lemma slice_lookup (s : list N) (i j k : nat) :
  (k < j - i)%nat ->
  (slice s (Z.of_nat i) (Z.of_nat j) : list N) !! k = s !! (i + k)%nat.
Proof.
  intros Hk. unfold slice.
  rewrite lookup_take_lt by lia.
  rewrite lookup_drop. f_equal. lia.
Qed.

End FindFacts.

(** ** Stripping and splitting *)

Module StripFacts.

Definition whitespace (c : N) : Prop := is_space c = true.




Lemma split_go_words (w s : list N) :
  Forall (fun c => ~ whitespace c) w ->
  Forall (fun word => word <> [] /\ Forall (fun c => ~ whitespace c) word) (split_go w s).
Proof.
  revert w. induction s as [| c s IH]; intros w Hw; simpl.
  - destruct w as [| x w]; [constructor |].
    constructor; [| constructor]. split.
    + intros E. apply (f_equal (@length N)) in E.
      rewrite length_rev in E. done.
    + rewrite FindFacts.rev_reverse. by apply Forall_reverse.
  - destruct (is_space c) eqn:Hc.
    + destruct w as [| x w]; [by apply IH |].
      constructor; [| by apply IH]. split.
      * intros E. apply (f_equal (@length N)) in E.
        rewrite length_rev in E. done.
      * rewrite FindFacts.rev_reverse. by apply Forall_reverse.
    + apply IH. constructor; [| done]. unfold whitespace. congruence.
Qed.

(** The words [split] returns are not empty and hold no whitespace. *)
Lemma split_words (s : list N) :
  Forall (fun word => word <> [] /\ Forall (fun c => ~ whitespace c) word) (split s).
Proof. apply split_go_words. constructor. Qed.

End StripFacts.

(** ** Rewrite quality *)

Module QualityFacts.

Import Quality PyStrFacts.

(** The test on rationals is the test [words < 2 * delta] on integers. *)
Lemma exceeds_half (delta words : Z) :
  exceeds delta (half_of words) = true <-> words < 2 * delta.
Proof.
  unfold exceeds, half_of, Qcompare, Qmult, inject_Z; simpl.
  change (Z.pos (1 * 2)) with 2.
  destruct (Z.compare_spec (words * 1 * 1) (delta * 2));
    split; intros; try reflexivity; try discriminate; lia.
Qed.

Lemma exceeds_Qlt (delta words : Z) :
  exceeds delta (half_of words) = true <->
  (inject_Z words * (1 # 2) < inject_Z delta)%Q.
Proof.
  rewrite exceeds_half.
  unfold Qlt, Qmult, inject_Z; simpl. lia.
Qed.

(** C5.  [_assess_rewrite_quality] answers [no_change] exactly on two equal
    texts; on two different texts it answers [significant_change] exactly
    when the distance between the two word counts exceeds half the word
    count of the original, and [moderate_change] otherwise.  So 100 words
    rewritten in 40 are a significant change, and 100 words rewritten in
    80 a moderate one. *)
Theorem assess_rewrite_quality_classifies (original rewritten : pystr) :
  let ow := Z.of_nat (length (split original)) in
  let rw := Z.of_nat (length (split rewritten)) in
  let verdict := _assess_rewrite_quality original rewritten in
  let exceeding := (inject_Z ow * (1 # 2) < inject_Z (Z.abs (ow - rw)))%Q in
  (verdict = no_change <-> original = rewritten) /\
  (verdict = significant_change <-> original <> rewritten /\ exceeding) /\
  (verdict = moderate_change <-> original <> rewritten /\ ~ exceeding) /\
  (ow = 100 -> rw = 40 -> verdict = significant_change) /\
  (ow = 100 -> rw = 80 -> verdict = moderate_change).
Proof.
  intros ow rw verdict exceeding.
  assert (Hex : exceeds (Z.abs (ow - rw)) (half_of ow) = true <-> exceeding)
    by apply exceeds_Qlt.
  assert (Hcases :
    (original = rewritten /\ verdict = no_change) \/
    (original <> rewritten /\ exceeding /\ verdict = significant_change) \/
    (original <> rewritten /\ ~ exceeding /\ verdict = moderate_change)).
  { subst verdict. unfold _assess_rewrite_quality.
    destruct (PyStr.eqb original rewritten) eqn:He.
    - left. split; [by apply eqb_eq | done].
    - apply eqb_neq in He. right. fold ow rw.
      destruct (exceeds (Z.abs (ow - rw)) (half_of ow)) eqn:Hx.
      + left. repeat split; [done | by apply Hex].
      + right. repeat split; [done |].
        intros Hq. apply Hex in Hq. congruence. }
  assert (Hlt : exceeding <-> ow < 2 * Z.abs (ow - rw)).
  { rewrite <- Hex. apply exceeds_half. }
  assert (Hsame : original = rewritten -> ow = rw) by (intros ->; done).
  clearbody verdict exceeding ow rw.
  destruct Hcases as [[Heq Hv] | [(Hn & Hx & Hv) | (Hn & Hnx & Hv)]];
    rewrite Hv; split_and!; try (split; intros); try done;
    try tauto; try (exfalso; tauto);
    intros Ho Hr; exfalso;
    [ specialize (Hsame Heq) | specialize (Hsame Heq)
    | apply Hlt in Hx | apply Hnx, Hlt ]; lia.
Qed.

(** A text of [n] words. *)
Definition words (n : nat) : pystr := concat (replicate n (py "word ")).

Lemma assess_rewrite_quality_classifies_witness :
  _assess_rewrite_quality (words 100) (words 40) = significant_change /\
  _assess_rewrite_quality (words 100) (words 80) = moderate_change.
Proof.
  split.
  - apply (assess_rewrite_quality_classifies (words 100) (words 40));
      vm_compute; reflexivity.
  - apply (assess_rewrite_quality_classifies (words 100) (words 80));
      vm_compute; reflexivity.
Defined.

End QualityFacts.

(** ** The response normalizer and the detector *)

Module DetectorFacts.

Import Detector FindFacts.

(** The fallback marker, as a reader of the result sees it. *)
Definition fallback_marker (v : PyVal) : Prop :=
  exists d : gmap pystr PyVal,
    v = PyDict d /\
    d !! emotional_bias_score = Some (PyInt 50) /\
    d !! framing_bias_score = Some (PyInt 50) /\
    d !! omission_bias_score = Some (PyInt 50) /\
    d !! overall_bias_score = Some (PyInt 50) /\
    d !! biased_phrases = Some (PyList []) /\
    d !! summary
      = Some (PyStr (py "Bias analysis unavailable - using fallback response")) /\
    size d = 6%nat.

Lemma fallback_response_is_marker : fallback_marker _get_fallback_response.
Proof.
  unfold fallback_marker, _get_fallback_response.
  eexists. split; [reflexivity |].
  repeat split; vm_compute; reflexivity.
Qed.

(** The text handed to [json.loads] runs from the first opening brace of
    the cleaned response to its last closing brace (and is empty when the
    latter comes first). *)
Lemma json_object_text_span (cleaned s : list N) :
  json_object_text cleaned = Some s ->
  exists i j : nat,
    cleaned !! i = Some 123%N /\ (123%N ∉ take i cleaned) /\
    cleaned !! j = Some 125%N /\ (125%N ∉ drop (S j) cleaned) /\
    s = take (S j - i) (drop i cleaned).
Proof.
  unfold json_object_text, slice.
  pose proof (find_range 123 cleaned) as Hf.
  pose proof (rfind_range 125 cleaned) as Hr.
  destruct (find 123 cleaned =? -1) eqn:E1; [done |].
  destruct (rfind 125 cleaned + 1 =? 0) eqn:E2; [done |].
  apply Z.eqb_neq in E1, E2. simpl. intros [= <-].
  exists (Z.to_nat (find 123 cleaned)), (Z.to_nat (rfind 125 cleaned)).
  destruct (find_first 123 cleaned (Z.to_nat (find 123 cleaned))) as [? ?]; [lia |].
  destruct (rfind_last 125 cleaned (Z.to_nat (rfind 125 cleaned))) as [? ?]; [lia |].
  split_and!; try done.
  f_equal. lia.
Qed.

(** A key is missing from a dict: the scan of the required fields says no. *)
Lemma py_all_in_missing (fields : list pystr) (d : gmap pystr PyVal) (f : pystr) :
  f ∈ fields -> d !! f = None -> py_all_in fields (PyDict d) = Returned false.
Proof.
  induction fields as [| g fields IH]; intros Hin Hf.
  - by apply elem_of_nil in Hin.
  - cbn [py_all_in py_in obind]. case_bool_decide as Hg.
    + apply elem_of_cons in Hin as [-> | Hin]; [| by apply IH].
      destruct Hg as [v Hv]. congruence.
    + done.
Qed.

Section Normalizer.
Variable json_loads : pystr -> Outcome PyVal.

Local Abbreviation normalize := (_extract_json json_loads).

(** What [_extract_json] returns, by cases on the text. *)
Lemma extract_json_cases (text : pystr) :
  normalize (Some text) =
  Returned
    match json_object_text (clean_response text) with
    | None => _get_fallback_response
    | Some s =>
        match json_loads s with
        | Raised _ => _get_fallback_response
        | Returned result =>
            match py_all_in required result with
            | Returned true => result
            | _ => _get_fallback_response
            end
        end
    end.
Proof.
  destruct text as [| c text].
  - vm_compute. reflexivity.
  - unfold _extract_json, extract_json_try.
    destruct (json_object_text _) as [s |]; [| done].
    destruct (json_loads s) as [result | e]; cbn [obind try_except].
    + destruct (py_all_in required result) as [[|] | e'];
        cbn [obind try_except]; try done.
      by destruct e'.
    + by destruct e.
Qed.

(** The three required fields are keys of a dict: the scan says yes. *)
Lemma py_all_in_present (fields : list pystr) (d : gmap pystr PyVal) :
  (forall f, f ∈ fields -> is_Some (d !! f)) ->
  py_all_in fields (PyDict d) = Returned true.
Proof.
  induction fields as [| g fields IH]; intros Hall; [done |].
  cbn [py_all_in py_in obind].
  rewrite bool_decide_eq_true_2 by (apply Hall; by left).
  apply IH. intros f Hf. apply Hall. by right.
Qed.

(** C1.  On every text, and on no text at all, [_extract_json] returns:
    it raises nothing.  What it returns is the value [json.loads] decoded
    from the slice between the first opening and the last closing brace,
    when that value holds the three required fields, and the fallback
    marker otherwise.  So a slice that decodes to an object with the
    three required fields is returned as decoded.  The result is the
    fallback marker whenever decoding the slice raises, whenever the
    decoded object lacks a required field, whenever the scan of the
    fields does not say yes, whenever the text has no brace to slice
    at, and when there is no text.  The marker has the four scores at
    50, no phrase, and the fixed summary. *)
Theorem extract_json_total (text : option pystr) :
  (normalize text = Returned _get_fallback_response \/
   exists t s result,
     text = Some t /\
     json_object_text (clean_response t) = Some s /\
     json_loads s = Returned result /\
     py_all_in required result = Returned true /\
     normalize text = Returned result) /\
  (forall t s d,
     text = Some t ->
     json_object_text (clean_response t) = Some s ->
     json_loads s = Returned (PyDict d) ->
     (forall f, f ∈ required -> is_Some (d !! f)) ->
     normalize text = Returned (PyDict d)) /\
  (forall t s result,
     text = Some t ->
     json_object_text (clean_response t) = Some s ->
     json_loads s = Returned result ->
     py_all_in required result = Returned true ->
     normalize text = Returned result) /\
  (forall t s e,
     text = Some t ->
     json_object_text (clean_response t) = Some s ->
     json_loads s = Raised e ->
     normalize text = Returned _get_fallback_response) /\
  (forall t s d f,
     text = Some t ->
     json_object_text (clean_response t) = Some s ->
     json_loads s = Returned (PyDict d) ->
     f ∈ required -> d !! f = None ->
     normalize text = Returned _get_fallback_response) /\
  (forall t s result,
     text = Some t ->
     json_object_text (clean_response t) = Some s ->
     json_loads s = Returned result ->
     py_all_in required result <> Returned true ->
     normalize text = Returned _get_fallback_response) /\
  (forall t,
     text = Some t ->
     json_object_text (clean_response t) = None ->
     normalize text = Returned _get_fallback_response) /\
  (text = None -> normalize text = Returned _get_fallback_response) /\
  fallback_marker _get_fallback_response.
Proof.
  split_and!.
  - destruct text as [t |]; [| by left].
    rewrite extract_json_cases.
    destruct (json_object_text _) as [s |] eqn:Hs; [| by left].
    destruct (json_loads s) as [result | e] eqn:Hl; [| by left].
    destruct (py_all_in required result) as [[|] | e] eqn:Hall;
      [| by left | by left].
    right. by exists t, s, result.
  - intros t s d -> Hs Hl Hall.
    by rewrite extract_json_cases, Hs, Hl, (py_all_in_present _ _ Hall).
  - intros t s result -> Hs Hl Hall.
    by rewrite extract_json_cases, Hs, Hl, Hall.
  - intros t s e -> Hs Hl. by rewrite extract_json_cases, Hs, Hl.
  - intros t s d f -> Hs Hl Hf Hnone.
    rewrite extract_json_cases, Hs, Hl.
    by rewrite (py_all_in_missing _ _ _ Hf Hnone).
  - intros t s result -> Hs Hl Hall.
    rewrite extract_json_cases, Hs, Hl.
    by destruct (py_all_in required result) as [[|] | e].
  - intros t -> Hs. by rewrite extract_json_cases, Hs.
  - by intros ->.
  - apply fallback_response_is_marker.
Qed.

(** C6, as the code has it.  When the slice decodes to a value that
    holds the three required fields, [_extract_json] returns that value
    as it is, and raises nothing: an optional field the payload lacks
    is still lacking in the result. *)
Theorem extract_json_returns_parsed (text s : pystr) (result : PyVal) :
  json_object_text (clean_response text) = Some s ->
  json_loads s = Returned result ->
  py_all_in required result = Returned true ->
  normalize (Some text) = Returned result /\
  (forall d key, result = PyDict d -> d !! key = None ->
     exists d', normalize (Some text) = Returned (PyDict d') /\ d' !! key = None).
Proof.
  intros Hs Hl Hall.
  assert (Hn : normalize (Some text) = Returned result)
    by (by rewrite extract_json_cases, Hs, Hl, Hall).
  split; [done |].
  intros d key -> Hkey. exists d. by rewrite Hn.
Qed.

Section Guard.
Variable B : Backends.

(** C10.  On an article text that is empty, or that has fewer than 10
    characters once stripped, [detect_biases] returns the fallback
    marker and sends no request to the provider. *)
Theorem detect_biases_short_input (self : Handle) (article_text : pystr) :
  article_text = [] \/ (length (strip article_text) < 10)%nat ->
  detect_biases json_loads B self article_text
    = ([], Returned _get_fallback_response) /\
  fallback_marker _get_fallback_response.
Proof.
  intros Hshort. split; [| apply fallback_response_is_marker].
  unfold detect_biases.
  destruct Hshort as [-> | Hlen]; [done |].
  replace (Z.of_nat (length (strip article_text)) <? 10) with true
    by (symmetry; apply Z.ltb_lt; lia).
  by rewrite orb_true_r.
Qed.
End Guard.
End Normalizer.

(** A response with the three required fields and nothing else. *)
Definition scores_only : pystr :=
  dq "{'emotional_bias_score': 10, 'framing_bias_score': 20, 'overall_bias_score': 30}".

(** A response that is not JSON between its braces. *)
Definition malformed : pystr :=
  dq "```json {'emotional_bias_score': 10, 'framing_bias_score': } ```".

(** A response without the overall score. *)
Definition no_overall : pystr :=
  dq "Here it is: {'emotional_bias_score': 10, 'framing_bias_score': 20} Done.".

Lemma extract_json_total_witness :
  _extract_json JsonLite.json_loads (Some malformed) = Returned _get_fallback_response /\
  _extract_json JsonLite.json_loads (Some no_overall) = Returned _get_fallback_response /\
  exists d : gmap pystr PyVal,
    _extract_json JsonLite.json_loads (Some scores_only) = Returned (PyDict d) /\
    d !! emotional_bias_score = Some (PyInt 10) /\
    d !! framing_bias_score = Some (PyInt 20) /\
    d !! overall_bias_score = Some (PyInt 30).
Proof.
  split_and!.
  - destruct (extract_json_total JsonLite.json_loads (Some malformed))
      as (_ & _ & _ & Hraises & _).
    eapply Hraises; [reflexivity | vm_compute; reflexivity | vm_compute; reflexivity].
  - destruct (extract_json_total JsonLite.json_loads (Some no_overall))
      as (_ & _ & _ & _ & Hmissing & _).
    eapply (Hmissing _ _ _ overall_bias_score);
      [ reflexivity | vm_compute; reflexivity | vm_compute; reflexivity
      | unfold required; rewrite !elem_of_cons; right; right; by left
      | vm_compute; reflexivity ].
  - destruct (extract_json_total JsonLite.json_loads (Some scores_only))
      as (_ & Hparsed & _).
    eexists. split.
    + eapply (Hparsed scores_only scores_only);
        [reflexivity | vm_compute; reflexivity | vm_compute; reflexivity |].
      intros f Hf. unfold required in Hf.
      rewrite !elem_of_cons in Hf.
      destruct Hf as [-> | [-> | [-> | Hf]]];
        [vm_compute; by eexists .. | by apply elem_of_nil in Hf].
    + split_and!; vm_compute; reflexivity.
Defined.

(** C6 as stated fails.  The response holds the three required scores and
    decodes; the result holds those three keys and no other: the omission
    score is not 0 but missing, and so are the phrase list and the
    summary. *)
Lemma extract_json_fills_no_default :
  exists d : gmap pystr PyVal,
    json_object_text (clean_response scores_only) = Some scores_only /\
    JsonLite.json_loads scores_only = Returned (PyDict d) /\
    py_all_in required (PyDict d) = Returned true /\
    _extract_json JsonLite.json_loads (Some scores_only) = Returned (PyDict d) /\
    d !! omission_bias_score = None /\
    d !! biased_phrases = None /\
    d !! summary = None /\
    d !! omission_bias_score <> Some (PyInt 0).
Proof.
  eexists. split_and!; try (vm_compute; reflexivity).
  vm_compute. discriminate.
Qed.

Lemma extract_json_returns_parsed_witness :
  exists d : gmap pystr PyVal,
    _extract_json JsonLite.json_loads (Some scores_only) = Returned (PyDict d) /\
    d !! overall_bias_score = Some (PyInt 30).
Proof.
  eexists. split.
  - apply (extract_json_returns_parsed JsonLite.json_loads scores_only scores_only);
      vm_compute; reflexivity.
  - vm_compute. reflexivity.
Defined.

(** Backends that are never reached. *)
Definition unreachable : Backends :=
  {| groq_chat := fun _ _ => Raised (ProviderError 503);
     gemini_generate := fun _ _ => Raised (ProviderError 503);
     claude_messages := fun _ _ => Raised (ProviderError 503) |}.

Definition on_gemini : Handle :=
  {| model_name := py "models/gemini-2.0-flash"; provider := GEMINI |}.

Lemma detect_biases_short_input_witness :
  detect_biases JsonLite.json_loads unreachable on_gemini (py "  Too short ")
  = ([], Returned _get_fallback_response).
Proof.
  apply (detect_biases_short_input JsonLite.json_loads unreachable on_gemini
           (py "  Too short ")).
  right. vm_compute. lia.
Defined.

End DetectorFacts.

(** ** The title stage *)

Module RewriterFacts.

Import Detector Rewriter Orchestrator EffFacts.

Lemma py_gt_int (score n : Z) : py_gt (PyInt score) n = Returned (n <? score).
Proof.
  unfold py_gt, as_number, Qcompare, inject_Z; simpl.
  rewrite !Z.mul_1_r, Z.ltb_antisym, Z.leb_compare.
  by destruct (score ?= n).
Qed.

Lemma py_lt_int (score n : Z) : py_lt (PyInt score) n = Returned (score <? n).
Proof.
  unfold py_lt, as_number, Qcompare, inject_Z; simpl.
  rewrite !Z.mul_1_r. unfold Z.ltb.
  by destruct (score ?= n).
Qed.

(** What the backend of a handle answers to a prompt. *)
Definition reply (B : Backends) (h : Handle) (prompt : Prompt) : Outcome (option pystr) :=
  match provider h with
  | GROQ => groq_chat B (model_name h) prompt
  | GEMINI => obind (gemini_generate B (model_name h) prompt) (fun t => Returned (Some t))
  | CLAUDE => obind (claude_messages B (model_name h) prompt) (fun t => Returned (Some t))
  end.

(** The one request of a title rewrite. *)
Definition title_request (h : Handle) (title : pystr) (bias_analysis : PyVal) : Call :=
  {| call_provider := provider h;
     call_model := model_name h;
     call_prompt := TitlePrompt title bias_analysis |}.

(** The text a title rewrite cleans and checks: the answer, or the
    original title when Groq answers without content. *)
Definition answer_or_title (h : Handle) (answer : option pystr) (title : pystr) : pystr :=
  match provider h, answer with
  | GROQ, (None | Some []) => title
  | _, Some t => t
  | _, None => title
  end.

(** The comparisons of a score with an [int], for any number. *)
Lemma py_gt_number (v : PyVal) (q : Q) (n : Z) :
  as_number v = Some q ->
  ((inject_Z n < q)%Q -> py_gt v n = Returned true) /\
  ((q <= inject_Z n)%Q -> py_gt v n = Returned false).
Proof.
  intros Hq. unfold py_gt. rewrite Hq. split.
  - intros Hlt. by rewrite (proj1 (Qgt_alt _ _) Hlt).
  - intros Hle. pose proof (proj1 (Qle_alt _ _) Hle) as Hno.
    destruct (q ?= inject_Z n)%Q; [done | done | by destruct Hno].
Qed.

Lemma py_lt_number (v : PyVal) (q : Q) (n : Z) :
  as_number v = Some q ->
  ((q < inject_Z n)%Q -> py_lt v n = Returned true) /\
  ((inject_Z n <= q)%Q -> py_lt v n = Returned false).
Proof.
  intros Hq. unfold py_lt. rewrite Hq. split.
  - intros Hlt. by rewrite (proj1 (Qlt_alt _ _) Hlt).
  - intros Hle. pose proof (proj1 (Qge_alt _ _) Hle) as Hno.
    destruct (q ?= inject_Z n)%Q; [done | by destruct Hno | done].
Qed.

Section Title.
Variable B : Backends.

(** Past its guard, [rewrite_title_neutral] sends one request and checks
    the answer. *)
Lemma rewrite_title_neutral_sends (h : Handle) (title : pystr)
    (bias_analysis score : PyVal) (q : Q) :
  py_get bias_analysis overall_bias_score (PyInt 0) = Returned score ->
  as_number score = Some q ->
  (20 <= q)%Q ->
  rewrite_title_neutral B h title bias_analysis =
  ([title_request h title bias_analysis],
   Returned match reply B h (TitlePrompt title bias_analysis) with
            | Returned (Some t) =>
                checked_title (answer_or_title h (Some t) title) title
            | Returned None =>
                match provider h with
                | GROQ => checked_title title title
                | _ => title
                end
            | Raised _ => title
            end).
Proof.
  intros Hget Hq Hscore.
  unfold rewrite_title_neutral. rewrite Hget, ebind_lift_returned.
  rewrite (proj2 (py_lt_number score q 20 Hq) Hscore), ebind_lift_returned.
  unfold reply, title_request, answer_or_title, ask_groq, ask_gemini,
    ask_claude, request.
  destruct h as [model [ | | ]]; cbn [provider model_name].
  - destruct (gemini_generate B model _) as [t | e]; reflexivity.
  - destruct (groq_chat B model _) as [[[| c t] |] | e]; reflexivity.
  - destruct (claude_messages B model _) as [t | e]; reflexivity.
Qed.

(** Below its guard it returns the title and sends nothing. *)
Lemma rewrite_title_neutral_skips (h : Handle) (title : pystr)
    (bias_analysis score : PyVal) (q : Q) :
  py_get bias_analysis overall_bias_score (PyInt 0) = Returned score ->
  as_number score = Some q ->
  (q < 20)%Q ->
  rewrite_title_neutral B h title bias_analysis = ([], Returned title).
Proof.
  intros Hget Hq Hscore.
  unfold rewrite_title_neutral. rewrite Hget, ebind_lift_returned.
  by rewrite (proj1 (py_lt_number score q 20 Hq) Hscore), ebind_lift_returned.
Qed.

(** With a title and a score above 20 the stage of the pipeline is the
    call of the rewriter. *)
Lemma title_stage_calls (self : Agents) (title : pystr)
    (bias_analysis score : PyVal) (q : Q) :
  py_get bias_analysis overall_bias_score (PyInt 0) = Returned score ->
  as_number score = Some q ->
  (20 < q)%Q -> title <> [] ->
  title_stage B self title bias_analysis
  = rewrite_title_neutral B (rewriter self) title bias_analysis.
Proof.
  intros Hget Hq Hhigh Hne. unfold title_stage.
  destruct title as [| c title]; [done |].
  rewrite Hget, ebind_lift_returned.
  rewrite (proj1 (py_gt_number score q 20 Hq) Hhigh), ebind_lift_returned.
  by destruct (rewrite_title_neutral B (rewriter self) (c :: title) bias_analysis).
Qed.

(** C4, as the code has it.  Take an analysis whose overall score is a
    number: an integer, a boolean or a float, or no score at all, which
    reads as 0.  With a score of 20 or less, or with an empty title,
    the title stage of the pipeline returns the original title and
    sends no request.  [rewrite_title_neutral] itself does so with a
    score below 20 only: called with a score of 20 or more it sends
    exactly one request, to the backend of the rewriter.  With a score
    above 20 and a title that is not empty the stage is that call.
    When the answer to the request is a text [t] (not empty, for Groq),
    the result is [t] stripped and without double quotes if that has
    more than 10 and fewer than 120 characters, and the original title
    otherwise.  When the request raises, the result is the original
    title. *)
Theorem title_stage_gating (self : Agents) (title : pystr)
    (bias_analysis score : PyVal) (q : Q) :
  py_get bias_analysis overall_bias_score (PyInt 0) = Returned score ->
  as_number score = Some q ->
  let run := title_stage B self title bias_analysis in
  let direct := rewrite_title_neutral B (rewriter self) title bias_analysis in
  let request := title_request (rewriter self) title bias_analysis in
  let answer := reply B (rewriter self) (TitlePrompt title bias_analysis) in
  ((q <= 20)%Q \/ title = [] -> run = ([], Returned title)) /\
  ((q < 20)%Q -> direct = ([], Returned title)) /\
  ((20 <= q)%Q ->
     calls direct = [request] /\
     (forall t, answer = Returned (Some t) ->
        t <> [] \/ provider (rewriter self) <> GROQ ->
        let clean := clean_title t in
        ((10 < length clean < 120)%nat -> outcome direct = Returned clean) /\
        (~ (10 < length clean < 120)%nat -> outcome direct = Returned title)) /\
     (forall e, answer = Raised e -> outcome direct = Returned title)) /\
  ((20 < q)%Q -> title <> [] ->
     run = direct /\
     calls run = [request] /\
     (forall t, answer = Returned (Some t) ->
        t <> [] \/ provider (rewriter self) <> GROQ ->
        let clean := clean_title t in
        ((10 < length clean < 120)%nat -> outcome run = Returned clean) /\
        (~ (10 < length clean < 120)%nat -> outcome run = Returned title)) /\
     (forall e, answer = Raised e -> outcome run = Returned title)).
Proof.
  intros Hget Hq run direct request answer.
  assert (Hsends : (20 <= q)%Q ->
     calls direct = [request] /\
     (forall t, answer = Returned (Some t) ->
        t <> [] \/ provider (rewriter self) <> GROQ ->
        let clean := clean_title t in
        ((10 < length clean < 120)%nat -> outcome direct = Returned clean) /\
        (~ (10 < length clean < 120)%nat -> outcome direct = Returned title)) /\
     (forall e, answer = Raised e -> outcome direct = Returned title)).
  { intros Hhigh.
    pose proof (rewrite_title_neutral_sends (rewriter self) title bias_analysis
                  score q Hget Hq Hhigh) as Hrun.
    fold direct answer request in Hrun.
    clearbody direct answer request. subst direct.
    cbn [calls outcome fst snd]. split_and!.
    - done.
    - intros t -> Hgroq.
      assert (Ha : answer_or_title (rewriter self) (Some t) title = t).
      { unfold answer_or_title.
        destruct (provider (rewriter self)), t; try done.
        by destruct Hgroq. }
      rewrite Ha. unfold checked_title.
      split; intros Hlen.
      + replace (10 <? Z.of_nat (length (clean_title t))) with true by lia.
        by replace (Z.of_nat (length (clean_title t)) <? 120) with true by lia.
      + destruct (10 <? Z.of_nat (length (clean_title t))) eqn:H10;
          destruct (Z.of_nat (length (clean_title t)) <? 120) eqn:H120;
          try done.
        destruct Hlen. lia.
    - by intros e ->. }
  split_and!.
  - intros [Hlow | ->]; [| done]. subst run. unfold title_stage.
    destruct title as [| c title]; [done |].
    rewrite Hget, ebind_lift_returned.
    by rewrite (proj2 (py_gt_number score q 20 Hq) Hlow), ebind_lift_returned.
  - intros Hlow. by apply (rewrite_title_neutral_skips _ _ _ score q).
  - exact Hsends.
  - intros Hhigh Hne.
    assert (Hsame : run = direct)
      by (by apply (title_stage_calls _ _ _ score q)).
    split; [done |]. rewrite Hsame. apply Hsends. by apply Qlt_le_weak.
Qed.
End Title.

(** A run on Groq where the model answers with the empty text. *)
Definition blank : Backends :=
  {| groq_chat := fun _ _ => Returned (Some []);
     gemini_generate := fun _ _ => Raised (ProviderError 503);
     claude_messages := fun _ _ => Raised (ProviderError 503) |}.

(** A run on Groq where the model answers with a headline. *)
Definition answering : Backends :=
  {| groq_chat := fun _ _ => Returned (Some (dq " 'Senate votes on the budget bill' "));
     gemini_generate := fun _ _ => Raised (ProviderError 503);
     claude_messages := fun _ _ => Raised (ProviderError 503) |}.

Definition on_groq : Handle :=
  {| model_name := py "llama-3.1-8b-instant"; provider := GROQ |}.

Definition all_on_groq : Agents :=
  {| detector := on_groq; rewriter := on_groq; explainer := on_groq |}.

Definition quoted_title : pystr := dq "Senator calls the bill 'a disaster'".

Definition scored (score : Z) : PyVal := PyDict {[ overall_bias_score := PyInt score ]}.

(** An analysis whose overall score is a float. *)
Definition scored_float (score : Q) : PyVal :=
  PyDict {[ overall_bias_score := PyFloat score ]}.

(** C4 as stated fails, for the operation and for the stage.  With a
    score of exactly 20, which is 20 or less, [rewrite_title_neutral]
    sends a request and returns the title of the provider, not the
    original: its guard is [score < 20].  And with a score of 75, which
    exceeds 20, the title stage of the pipeline sends no request when the
    title is empty, where the operation called with the same arguments
    sends one: the stage asks for a title first. *)
Lemma title_gates_disagree :
  calls (rewrite_title_neutral answering on_groq quoted_title (scored 20))
    = [title_request on_groq quoted_title (scored 20)] /\
  outcome (rewrite_title_neutral answering on_groq quoted_title (scored 20))
    = Returned (py "Senate votes on the budget bill") /\
  py "Senate votes on the budget bill" <> quoted_title /\
  title_stage answering all_on_groq quoted_title (scored 20)
    = ([], Returned quoted_title) /\
  title_stage answering all_on_groq [] (scored 75) = ([], Returned []) /\
  rewrite_title_neutral answering on_groq [] (scored 75)
    = ([title_request on_groq [] (scored 75)],
       Returned (py "Senate votes on the budget bill")).
Proof. split_and!; vm_compute; try reflexivity. discriminate. Qed.

(** When Groq answers without content, the original title takes the
    place of the answer and is cleaned like an answer: what comes back
    is the title without its double quotes, where the other ways out of
    the function give the title as it is.  The statement of the
    title stage above leaves this path out. *)
Remark title_rewrite_cleans_original :
  groq_chat blank (model_name on_groq) (TitlePrompt quoted_title (scored 75))
    = Returned (Some []) /\
  length (clean_title []) = 0%nat /\
  title_stage blank all_on_groq quoted_title (scored 75)
    = ([title_request on_groq quoted_title (scored 75)],
       Returned (py "Senator calls the bill a disaster")) /\
  rewrite_title_neutral blank on_groq quoted_title (scored 75)
    = ([title_request on_groq quoted_title (scored 75)],
       Returned (py "Senator calls the bill a disaster")) /\
  py "Senator calls the bill a disaster" <> quoted_title.
Proof. split_and!; vm_compute; try reflexivity. discriminate. Qed.

Lemma title_stage_gating_witness :
  title_stage answering all_on_groq quoted_title (scored 20)
    = ([], Returned quoted_title) /\
  title_stage answering all_on_groq quoted_title (scored_float (31 # 2))
    = ([], Returned quoted_title) /\
  outcome (title_stage answering all_on_groq quoted_title (scored_float (145 # 2)))
    = Returned (py "Senate votes on the budget bill") /\
  calls (rewrite_title_neutral answering on_groq quoted_title (scored 20))
    = [title_request on_groq quoted_title (scored 20)].
Proof.
  split_and!.
  - destruct (title_stage_gating answering all_on_groq quoted_title (scored 20)
                (PyInt 20) (inject_Z 20) eq_refl eq_refl) as (Hlow & _).
    apply Hlow. left. by vm_compute.
  - destruct (title_stage_gating answering all_on_groq quoted_title
                (scored_float (31 # 2)) (PyFloat (31 # 2)) (31 # 2)
                eq_refl eq_refl) as (Hlow & _).
    apply Hlow. left. by vm_compute.
  - destruct (title_stage_gating answering all_on_groq quoted_title
                (scored_float (145 # 2)) (PyFloat (145 # 2)) (145 # 2)
                eq_refl eq_refl) as (_ & _ & _ & Hhigh).
    destruct Hhigh as (_ & _ & Htext & _); [by vm_compute | discriminate |].
    apply (Htext (dq " 'Senate votes on the budget bill' "));
      [reflexivity | left; discriminate | vm_compute; lia].
  - destruct (title_stage_gating answering all_on_groq quoted_title (scored 20)
                (PyInt 20) (inject_Z 20) eq_refl eq_refl) as (_ & _ & Hdirect & _).
    destruct Hdirect as (Hcalls & _); [by vm_compute | exact Hcalls].
Defined.

End RewriterFacts.

(** ** The batch *)

Module OrchestratorFacts.

Import Detector Orchestrator EffFacts.

Section Batch.
Variable json_loads : pystr -> Outcome PyVal.
Variable world : nat -> Backends.
Variable exn_str : exn -> pystr.
Variable self : Agents.

(** The run of the pipeline on the article at position [i]. *)
Definition pipeline (i : nat) (article : TextDict) : Eff AnalysisResult :=
  analyze_article json_loads (world i) self
    (get article "body" []) (get article "title" [])
    (get article "source" (py "unknown")).

(** The element of the output for one outcome. *)
Definition slot_of (o : Outcome AnalysisResult) : Slot :=
  match o with
  | Returned r => Result r
  | Raised e => ErrorRecord (exn_str e)
  end.

Lemma make_tasks_app (tasks : list (Eff AnalysisResult)) (articles : list TextDict) :
  make_tasks json_loads world self tasks articles
  = tasks ++ imap (fun i => pipeline (length tasks + i)) articles.
Proof.
  revert tasks. induction articles as [| a articles IH]; intros tasks; simpl.
  - by rewrite app_nil_r.
  - rewrite IH, <- app_assoc, length_app. simpl.
    rewrite Nat.add_0_r. do 2 f_equal.
    apply imap_ext. intros i x _. simpl. f_equal. lia.
Qed.

Lemma process_results_app (done_ : list Slot) (results : list (Outcome AnalysisResult)) :
  process_results exn_str done_ results = done_ ++ (slot_of <$> results).
Proof.
  revert done_. induction results as [| [r | e] results IH]; intros done_; simpl.
  - by rewrite app_nil_r.
  - rewrite IH, <- app_assoc. done.
  - rewrite IH, <- app_assoc. done.
Qed.

(** The batch returns one slot per article, in the order of the articles. *)
Lemma analyze_multiple_articles_imap (articles : list TextDict) :
  outcome (analyze_multiple_articles json_loads world exn_str self articles)
  = Returned (imap (fun i a => slot_of (outcome (pipeline i a))) articles).
Proof.
  unfold analyze_multiple_articles, gather.
  rewrite make_tasks_app. cbn [app ebind eret outcome snd length Nat.add].
  rewrite process_results_app. cbn [app].
  by rewrite <- list_fmap_compose, fmap_imap.
Qed.

(** C2.  [analyze_multiple_articles] returns a list as long as its input.
    The element at position [i] comes from the run of the pipeline on
    the article at position [i]: the error record of its exception when
    the run raised, its result when it returned.  Putting any other
    article at position [i] changes no other position. *)
Theorem analyze_multiple_articles_isolates (articles : list TextDict) :
  exists slots,
    outcome (analyze_multiple_articles json_loads world exn_str self articles)
      = Returned slots /\
    length slots = length articles /\
    (forall i a e,
       articles !! i = Some a -> outcome (pipeline i a) = Raised e ->
       slots !! i = Some (ErrorRecord (exn_str e))) /\
    (forall i a r,
       articles !! i = Some a -> outcome (pipeline i a) = Returned r ->
       slots !! i = Some (Result r)) /\
    (forall i other slots',
       outcome (analyze_multiple_articles json_loads world exn_str self
                  (<[i := other]> articles)) = Returned slots' ->
       length slots' = length slots /\
       forall j, j <> i -> slots' !! j = slots !! j).
Proof.
  eexists. split; [apply analyze_multiple_articles_imap |].
  split_and!.
  - by rewrite length_imap.
  - intros i a e Hi He. rewrite list_lookup_imap, Hi. simpl. by rewrite He.
  - intros i a r Hi Hr. rewrite list_lookup_imap, Hi. simpl. by rewrite Hr.
  - intros i other slots'. rewrite analyze_multiple_articles_imap.
    intros [= <-]. split.
    + by rewrite !length_imap, length_insert.
    + intros j Hj. by rewrite !list_lookup_imap, list_lookup_insert_ne.
Qed.
End Batch.

(** A run on Groq.  The detection of an article that speaks of tariffs
    comes back with a word where the overall score should be; the other
    detections come back well formed. *)
Definition scripted : Backends :=
  {| groq_chat := fun _ prompt =>
       Returned (Some
         match prompt with
         | BiasAnalysisPrompt text =>
             if contains (py "tariff") text
             then dq "{'emotional_bias_score': 70, 'framing_bias_score': 60, 'overall_bias_score': 'high'}"
             else dq "{'emotional_bias_score': 5, 'framing_bias_score': 5, 'overall_bias_score': 5}"
         | RewritePrompt _ _ => py "The council met on Tuesday and voted."
         | TitlePrompt _ _ => py "Council votes on Tuesday"
         | ExplainPrompt _ => py "The wording was mostly neutral."
         end);
     gemini_generate := fun _ _ => Raised (ProviderError 503);
     claude_messages := fun _ _ => Raised (ProviderError 503) |}.

Definition article (title body : string) : TextDict :=
  <["title" := py title]> (<["body" := py body]> ∅).

Definition batch : list TextDict :=
  [article "Council meets" "The council met on Tuesday and it voted.";
   article "Tariff shock" "A brutal tariff war is about to wreck the economy.";
   article "Rain expected" "Rain is expected over the weekend in the north."].

Definition class_name (e : exn) : pystr :=
  match e with
  | TypeError => py "TypeError"
  | AttributeError => py "AttributeError"
  | _ => py "Exception"
  end.

Lemma analyze_multiple_articles_isolates_witness :
  exists slots,
    outcome (analyze_multiple_articles JsonLite.json_loads (fun _ => scripted)
               class_name RewriterFacts.all_on_groq batch) = Returned slots /\
    length slots = 3%nat /\
    slots !! 1%nat = Some (ErrorRecord (py "TypeError")).
Proof.
  destruct (analyze_multiple_articles_isolates JsonLite.json_loads
              (fun _ => scripted) class_name RewriterFacts.all_on_groq batch)
    as (slots & Hrun & Hlen & Hraised & _).
  exists slots. split_and!; [exact Hrun | exact Hlen |].
  apply (Hraised 1%nat _ TypeError eq_refl).
  vm_compute. reflexivity.
Defined.

End OrchestratorFacts.

(** ** Provider selection *)

Module ModelFactoryFacts.

Import ModelFactory Orchestrator.

(** Availability that does not change from one trial request to the next. *)
Definition steady (env : Environment) : Prop :=
  forall n m p model, probe env n p model = probe env m p model.

Section Selection.
Variable env : Environment.

Lemma first_live_selections p models failure w :
  selections (snd (first_live env p models failure w)) = selections w.
Proof.
  revert w. induction models as [| model models IH]; intros w; simpl; [done |].
  destruct (probe env (trials w) p model); simpl; [done |].
  by rewrite IH.
Qed.

Lemma with_key_selections name missing k w :
  (forall w, selections (snd (k w)) = selections w) ->
  selections (snd (with_key env name missing k w)) = selections w.
Proof.
  intros Hk. unfold with_key.
  destruct (getenv env name) as [[| c key] |]; simpl; auto.
Qed.

Lemma or_else_selections m next w :
  (forall w, selections (snd (m w)) = selections w) ->
  (forall w, selections (snd (next w)) = selections w) ->
  selections (snd (or_else m next w)) = selections w.
Proof.
  intros Hm Hn. unfold or_else. specialize (Hm w).
  destruct (m w) as [[h | e] w']; simpl in *; [done |].
  by rewrite Hn.
Qed.

(** A call of [get_model] counts as one selection, however it ends. *)
Lemma get_model_selections w :
  selections (snd (get_model env w)) = S (selections w).
Proof.
  unfold get_model, get_groq_client, get_gemini_model, get_claude_client.
  rewrite or_else_selections; [done | |].
  - intros w0. apply with_key_selections, first_live_selections.
  - intros w0. apply or_else_selections.
    + intros w1. apply with_key_selections, first_live_selections.
    + intros w1. apply or_else_selections; [| done].
      intros w2. apply with_key_selections, first_live_selections.
Qed.

Section Steady.
Hypothesis Hsteady : steady env.

Lemma first_live_steady p models failure w w' :
  fst (first_live env p models failure w) = fst (first_live env p models failure w').
Proof.
  revert w w'. induction models as [| model models IH]; intros w w'; simpl; [done |].
  rewrite (Hsteady (trials w) (trials w') p model).
  destruct (probe env (trials w') p model); simpl; [done |].
  apply IH.
Qed.

Lemma with_key_steady name missing k w w' :
  (forall w w', fst (k w) = fst (k w')) ->
  fst (with_key env name missing k w) = fst (with_key env name missing k w').
Proof.
  intros Hk. unfold with_key.
  destruct (getenv env name) as [[| c key] |]; simpl; auto.
Qed.

Lemma or_else_steady m next w w' :
  (forall w w', fst (m w) = fst (m w')) ->
  (forall w w', fst (next w) = fst (next w')) ->
  fst (or_else m next w) = fst (or_else m next w').
Proof.
  intros Hm Hn. unfold or_else. specialize (Hm w w').
  destruct (m w) as [[h | e] w1], (m w') as [[h' | e'] w1'];
    simpl in *; try congruence.
  apply Hn.
Qed.

(** With steady availability a selection ends the same way whenever
    it is made. *)
Lemma get_model_steady w w' :
  fst (get_model env w) = fst (get_model env w').
Proof.
  unfold get_model, get_groq_client, get_gemini_model, get_claude_client.
  apply or_else_steady.
  - intros. apply with_key_steady. intros. apply first_live_steady.
  - intros. apply or_else_steady.
    + intros. apply with_key_steady. intros. apply first_live_steady.
    + intros. apply or_else_steady; [| done].
      intros. apply with_key_steady. intros. apply first_live_steady.
Qed.
End Steady.

(** C8, as the code has it.  Building an orchestrator selects a provider
    three times, once in the constructor of each agent, one call of
    [get_model] after the other: the detector, the rewriter and the
    explainer each hold the handle of their own selection.  The three
    handles are one and the same when the availability of the backends
    does not change between the selections. *)
Theorem orchestrator_selects_per_agent (max_concurrent : Z) (w : World)
    (agents : Agents) (w' : World) :
  BiasAnalysisOrchestrator env max_concurrent w = (Returned agents, w') ->
  selections w' = (selections w + 3)%nat /\
  (exists w1 w2,
     get_model env w = (Returned (detector agents), w1) /\
     get_model env w1 = (Returned (rewriter agents), w2) /\
     get_model env w2 = (Returned (explainer agents), w')) /\
  (steady env ->
     detector agents = rewriter agents /\ rewriter agents = explainer agents).
Proof.
  unfold BiasAnalysisOrchestrator, BiasDetector, ArticleRewriter, BiasExplainer,
    sbind, sret.
  pose proof (get_model_selections w) as S1.
  destruct (get_model env w) as [[d | ?] w1] eqn:H1; [| discriminate].
  pose proof (get_model_selections w1) as S2.
  destruct (get_model env w1) as [[r | ?] w2] eqn:H2; [| discriminate].
  pose proof (get_model_selections w2) as S3.
  destruct (get_model env w2) as [[e | ?] w3] eqn:H3; [| discriminate].
  destruct (max_concurrent <? 0); [discriminate |].
  intros [= <- <-]. simpl in *. split_and!.
  - lia.
  - by exists w1, w2.
  - intros Hsteady.
    pose proof (get_model_steady Hsteady w w1) as E1.
    pose proof (get_model_steady Hsteady w1 w2) as E2.
    rewrite H1, H2 in E1. rewrite H2, H3 in E2. simpl in *.
    split; congruence.
Qed.
End Selection.

Definition fresh : World := {| trials := 0; selections := 0 |}.

Definition keys (name : string) : option pystr :=
  if String.eqb name "GROQ_API_KEY" then Some (py "gsk-1")
  else if String.eqb name "GEMINI_API_KEY" then Some (py "AIza-1")
  else None.

(** Groq does not answer the first three trial requests and answers from
    then on; Gemini answers throughout. *)
Definition recovering : Environment :=
  {| getenv := keys;
     probe := fun n p _ =>
       match p with
       | GROQ => (3 <=? n)%nat
       | GEMINI => true
       | CLAUDE => false
       end |}.

(** Groq answers every trial request. *)
Definition stable : Environment :=
  {| getenv := keys;
     probe := fun _ p _ => match p with GROQ => true | _ => false end |}.

(** C8 as stated fails.  One construction of the orchestrator makes three
    selections, not one, and the agents need not end with the same
    handle: here the detector talks to Gemini, the rewriter and the
    explainer to Groq. *)
Lemma provider_selected_by_each_agent :
  BiasAnalysisOrchestrator recovering 3 fresh
  = (Returned
       {| detector := {| model_name := py "models/gemini-2.0-flash"; provider := GEMINI |};
          rewriter := {| model_name := py "llama-3.1-70b-versatile"; provider := GROQ |};
          explainer := {| model_name := py "llama-3.1-70b-versatile"; provider := GROQ |} |},
     {| trials := 6; selections := 3 |}) /\
  selections (snd (BiasAnalysisOrchestrator stable 3 fresh)) = 3%nat.
Proof. split; vm_compute; reflexivity. Qed.

Lemma orchestrator_selects_per_agent_witness :
  exists agents w',
    BiasAnalysisOrchestrator stable 3 fresh = (Returned agents, w') /\
    selections w' = 3%nat /\
    detector agents = rewriter agents /\ rewriter agents = explainer agents.
Proof.
  eexists _, _. split; [vm_compute; reflexivity |].
  match goal with
  | |- selections ?w' = _ /\ detector ?a = _ /\ _ =>
      destruct (orchestrator_selects_per_agent stable 3 fresh a w' eq_refl)
        as (Hthree & _ & Hsame)
  end.
  split; [exact Hthree |].
  apply Hsame. intros n m p model. reflexivity.
Defined.

End ModelFactoryFacts.

(** ** The article store *)

Module NewsDbFacts.

Import NewsDb PyStrFacts.

(** *** Write-back *)

(** The columns [add_bias] has no business with. *)
Definition frame (r : Row) : Z * pystr * pystr * pystr * pystr * pystr * pystr * pystr * Z :=
  (id r, title r, source r, date r, url r, body r, category r, content_hash r,
   created_at r).

(** A result with the three keys [add_bias] reads. *)
Definition well_formed (d : TextDict) : Prop :=
  is_Some (d !! "bias") /\ is_Some (d !! "rewritten_article") /\ is_Some (d !! "title").

(** The analysis and the rewrite the results hold for a title: those of
    the last result with that title. *)
Fixpoint written (llm_data : list TextDict) (key : pystr) : option (pystr * pystr) :=
  match llm_data with
  | [] => None
  | d :: rest =>
      match written rest key with
      | Some w => Some w
      | None =>
          if bool_decide (d !! "title" = Some key)
          then Some (get d "bias" [], get d "rewritten_article" [])
          else None
      end
  end.

(** A row once the results are written. *)
Definition row_after (llm_data : list TextDict) (r : Row) : Row :=
  match written llm_data (title r) with
  | Some (b, rw) =>
      {| id := id r; title := title r; source := source r; date := date r;
         url := url r; body := body r; category := category r;
         bias := Some b; rewritten_article := Some rw;
         content_hash := content_hash r; created_at := created_at r |}
  | None => r
  end.

Lemma written_none (llm_data : list TextDict) (key : pystr) :
  (forall d, d ∈ llm_data -> d !! "title" <> Some key) ->
  written llm_data key = None.
Proof.
  induction llm_data as [| d rest IH]; intros Hno; simpl; [done |].
  rewrite IH by (intros; apply Hno; by right).
  rewrite bool_decide_eq_false_2; [done |]. apply Hno. by left.
Qed.

Lemma written_some (llm_data : list TextDict) (key : pystr) (d : TextDict) :
  d ∈ llm_data -> d !! "title" = Some key -> is_Some (written llm_data key).
Proof.
  induction llm_data as [| d' rest IH]; intros Hin Hd; simpl.
  - by apply elem_of_nil in Hin.
  - destruct (written rest key) as [w |] eqn:Hw; [eauto |].
    apply elem_of_cons in Hin as [<- | Hin].
    + rewrite bool_decide_eq_true_2; eauto.
    + destruct (IH Hin Hd) as [? ?]. congruence.
Qed.

Lemma update_bias_frame b rw key rows :
  frame <$> update_bias b rw key rows = frame <$> rows.
Proof.
  unfold update_bias. rewrite <- list_fmap_compose. apply list_fmap_ext.
  intros i r _. simpl. by destruct (PyStr.eqb (title r) key).
Qed.

Lemma add_bias_loop_frame llm_data rows rows' :
  add_bias_loop llm_data rows = Returned rows' -> frame <$> rows' = frame <$> rows.
Proof.
  revert rows. induction llm_data as [| d rest IH]; intros rows; simpl.
  - by intros [= ->].
  - destruct (item d "bias") as [b |]; [| done].
    destruct (item d "rewritten_article") as [rw |]; [| done].
    destruct (item d "title") as [t |]; [| done]. simpl.
    intros H. by rewrite (IH _ H), update_bias_frame.
Qed.

(** With every result well formed the loop runs to its end, and writes to
    each row what the results hold for its title. *)
Lemma add_bias_loop_written llm_data rows :
  Forall well_formed llm_data ->
  add_bias_loop llm_data rows = Returned (row_after llm_data <$> rows).
Proof.
  revert rows. induction llm_data as [| d rest IH]; intros rows Hwf; simpl.
  - f_equal. unfold row_after. simpl. by rewrite list_fmap_id.
  - apply Forall_cons in Hwf as [([b Hb] & [rw Hrw] & [t Ht]) Hwf].
    unfold item. rewrite Hb, Hrw, Ht. simpl.
    rewrite (IH _ Hwf). f_equal.
    unfold update_bias. rewrite <- list_fmap_compose. apply list_fmap_ext.
    intros i r _. simpl. unfold row_after; simpl.
    destruct (PyStr.eqb (title r) t) eqn:Heq; simpl.
    + apply eqb_eq in Heq. subst t.
      destruct (written rest (title r)) as [[b' rw'] |]; [done |].
      rewrite bool_decide_eq_true_2 by done.
      unfold get. by rewrite Hb, Hrw.
    + apply eqb_neq in Heq.
      destruct (written rest (title r)) as [[b' rw'] |]; [done |].
      rewrite bool_decide_eq_false_2; [done |]. congruence.
Qed.

(** C9.  [add_bias] changes no column but [bias] and [rewritten_article]:
    it leaves as many rows, each with its id, title, source, date, url,
    body, category, content hash and creation time.  A row whose title is
    the title of no result is left as it was.  When every result has its
    three keys, each row whose title is the title of a result gets the
    analysis and the rewrite of the last result with that title, so that
    two rows with one title get the same two values. *)
Theorem add_bias_frame (llm_data : list TextDict) (db : Database) :
  let db' := snd (add_bias llm_data db) in
  frame <$> data_news db' = frame <$> data_news db /\
  sqlite_sequence db' = sqlite_sequence db /\
  (forall i r,
     data_news db !! i = Some r ->
     (forall d, d ∈ llm_data -> d !! "title" <> Some (title r)) ->
     data_news db' !! i = Some r) /\
  (Forall well_formed llm_data ->
     fst (add_bias llm_data db) = Returned tt /\
     (forall i r d,
        data_news db !! i = Some r ->
        d ∈ llm_data -> d !! "title" = Some (title r) ->
        exists r' b rw,
          data_news db' !! i = Some r' /\
          written llm_data (title r) = Some (b, rw) /\
          bias r' = Some b /\ rewritten_article r' = Some rw) /\
     (forall i j r1 r2 d,
        data_news db' !! i = Some r1 -> data_news db' !! j = Some r2 ->
        title r1 = title r2 ->
        d ∈ llm_data -> d !! "title" = Some (title r1) ->
        bias r1 = bias r2 /\ rewritten_article r1 = rewritten_article r2)).
Proof.
  intros db'. subst db'. unfold add_bias.
  split_and!.
  - destruct (add_bias_loop _ _) as [rows | e] eqn:Hloop; simpl.
    + by apply add_bias_loop_frame in Hloop.
    + by destruct e.
  - destruct (add_bias_loop _ _) as [rows | e]; simpl; [done | by destruct e].
  - intros i r Hi Hno.
    destruct (add_bias_loop _ _) as [rows | e] eqn:Hloop; simpl;
      [| by destruct e].
    assert (Hsame : forall data rs rs',
              (forall d, d ∈ data -> d !! "title" <> Some (title r)) ->
              add_bias_loop data rs = Returned rs' ->
              rs !! i = Some r -> rs' !! i = Some r).
    { clear. induction data as [| d rest IH]; intros rs rs' Hno; simpl.
      - by intros [= ->].
      - destruct (item d "bias") as [b |]; [| done].
        destruct (item d "rewritten_article") as [rw |]; [| done].
        destruct (item d "title") as [t |] eqn:Ht; [| done]. simpl.
        intros Hloop Hi. apply (IH _ _ (fun d' H => Hno d' (proj2 (elem_of_cons _ _ _) (or_intror H))) Hloop).
        unfold update_bias. rewrite list_lookup_fmap, Hi. simpl.
        rewrite (proj2 (eqb_neq _ _)); [done |].
        intros Heq. subst t. apply (Hno d); [by left |].
        unfold item in Ht. destruct (d !! "title"); congruence. }
    by apply (Hsame llm_data (data_news db)).
  - intros Hwf. rewrite (add_bias_loop_written _ _ Hwf). simpl. split_and!.
    + done.
    + intros i r d Hi Hd Ht.
      destruct (written_some _ _ _ Hd Ht) as [[b rw] Hw].
      exists (row_after llm_data r), b, rw.
      rewrite list_lookup_fmap, Hi. simpl. unfold row_after. rewrite !Hw.
      by split_and!.
    + intros i j r1 r2 d H1 H2 Htitle Hd Ht.
      rewrite list_lookup_fmap in H1, H2.
      destruct (data_news db !! i) as [o1 |]; [| done].
      destruct (data_news db !! j) as [o2 |]; [| done].
      simpl in H1, H2. injection H1 as <-. injection H2 as <-.
      assert (T1 : forall r, title (row_after llm_data r) = title r).
      { intros r. unfold row_after. by destruct (written _ _) as [[? ?] |]. }
      rewrite !T1 in *.
      destruct (written_some _ _ _ Hd Ht) as [[b rw] Hw].
      unfold row_after. rewrite <- Htitle, Hw. done.
Qed.

(** *** Selection *)

(** A row not analysed yet: [bias IS NULL]. *)
Definition unprocessed (r : Row) : bool :=
  match bias r with None => true | Some _ => false end.

(** [a] was inserted no earlier than [b]. *)
Definition newer_first (a b : Row) : Prop := created_at b <= created_at a.

Lemma insert_desc_perm (r : Row) (l : list Row) : insert_desc r l ≡ₚ r :: l.
Proof.
  induction l as [| x l IH]; simpl; [done |].
  destruct (created_at x <=? created_at r); [done |].
  by rewrite IH, Permutation_swap.
Qed.

Lemma insert_desc_sorted (r : Row) (l : list Row) :
  StronglySorted newer_first l -> StronglySorted newer_first (insert_desc r l).
Proof.
  induction l as [| x l IH]; intros Hs; simpl.
  - by repeat constructor.
  - apply StronglySorted_cons in Hs as [Hx Hs].
    destruct (created_at x <=? created_at r) eqn:Hle.
    + apply Z.leb_le in Hle. apply StronglySorted_cons. split.
      * constructor; [done |].
        eapply Forall_impl; [exact Hx |]. unfold newer_first. intros; simpl in *. lia.
      * by apply StronglySorted_cons.
    + apply Z.leb_gt in Hle. apply StronglySorted_cons. split; [| by apply IH].
      rewrite insert_desc_perm. constructor; [unfold newer_first; lia | done].
Qed.

Lemma order_by_perm (rows : list Row) : order_by_created_at_desc rows ≡ₚ rows.
Proof.
  induction rows as [| r rows IH]; simpl; [done |].
  by rewrite insert_desc_perm, IH.
Qed.

Lemma order_by_sorted (rows : list Row) :
  StronglySorted newer_first (order_by_created_at_desc rows).
Proof.
  induction rows as [| r rows IH]; simpl; [constructor |].
  by apply insert_desc_sorted.
Qed.

(** C7, as the code has it.  For a limit from 0 to 2^63 - 1,
    [prepare_data_for_llm(limit, processed_only=True)] returns the titles
    and bodies of at most [limit] rows.  Every one of these rows is a row
    of the table whose [bias] is [NULL].  They come newest first by
    [created_at], and they head the list of all such rows in that order:
    no row left out is newer than a row returned. *)
Theorem prepare_data_for_llm_unprocessed (limit : Z) (db : Database) :
  0 <= limit < 2 ^ 63 ->
  let rows := selected_rows limit true db in
  prepare_data_for_llm limit true db = Returned (to_article <$> rows) /\
  Z.of_nat (length (to_article <$> rows)) <= limit /\
  Forall (fun r => r ∈ data_news db /\ bias r = None) rows /\
  StronglySorted newer_first rows /\
  exists rest,
    rows ++ rest ≡ₚ List.filter unprocessed (data_news db) /\
    StronglySorted newer_first (rows ++ rest) /\
    length rows = Nat.min (Z.to_nat limit) (length (rows ++ rest)).
Proof.
  intros Hlimit rows.
  set (sorted := order_by_created_at_desc (List.filter unprocessed (data_news db))).
  assert (Hrows : rows = take (Z.to_nat limit) sorted).
  { subst rows sorted. unfold selected_rows, sql_limit.
    by replace (limit <? 0) with false by lia. }
  assert (Hdef : selected_rows limit true db = rows) by done.
  assert (Hperm : sorted ≡ₚ List.filter unprocessed (data_news db))
    by apply order_by_perm.
  assert (Hsorted : StronglySorted newer_first sorted) by apply order_by_sorted.
  assert (Hsplit : rows ++ drop (Z.to_nat limit) sorted = sorted)
    by (rewrite Hrows; apply take_drop).
  clearbody rows sorted. split_and!.
  - unfold prepare_data_for_llm, fits_int64.
    replace (- 2 ^ 63 <=? limit) with true by lia.
    replace (limit <? 2 ^ 63) with true by lia.
    by rewrite Hdef.
  - rewrite length_fmap, Hrows, length_take. lia.
  - apply Forall_forall. intros r Hr.
    assert (Hin : r ∈ sorted) by (rewrite <- Hsplit; apply elem_of_app; by left).
    rewrite Hperm in Hin. apply list_elem_of_In, filter_In in Hin as [Hin Hun].
    split; [by apply list_elem_of_In |].
    unfold unprocessed in Hun. by destruct (bias r).
  - rewrite <- Hsplit in Hsorted. by apply StronglySorted_app_1_l in Hsorted.
  - exists (drop (Z.to_nat limit) sorted). rewrite Hsplit. split_and!; try done.
    by rewrite Hrows, length_take.
Qed.

(** *** Insertion *)

(** Two states of the loop of [add_news] are equal: the same database
    and the same two counters. *)
Ltac loop_state :=
  cbn [length];
  repeat match goal with
         | |- (_, _) = (_, _) => apply pair_equal_spec; split
         end;
  try done; try lia.

(** The content hashes stored. *)
Definition hashes (db : Database) : list pystr := content_hash <$> data_news db.

Lemma select_none_iff (db : Database) (h : pystr) :
  select_id_by_hash db h = None <-> h ∉ hashes db.
Proof.
  unfold select_id_by_hash, hashes.
  induction (data_news db) as [| r rows IH]; simpl.
  - split; [intros _; apply not_elem_of_nil | done].
  - rewrite not_elem_of_cons.
    destruct (PyStr.eqb (content_hash r) h) eqn:Heq; simpl.
    + apply eqb_eq in Heq. split; [done | intros [Hne _]; congruence].
    + apply eqb_neq in Heq. rewrite IH. split; [by split | by intros [_ ?]].
Qed.

Lemma existsb_hash_iff (db : Database) (h : pystr) :
  existsb (fun r => PyStr.eqb (content_hash r) h) (data_news db) = false
  <-> h ∉ hashes db.
Proof.
  unfold hashes. induction (data_news db) as [| r rows IH]; simpl.
  - split; [intros _; apply not_elem_of_nil | done].
  - rewrite not_elem_of_cons, orb_false_iff, IH, eqb_neq. split.
    + intros [Hne ?]. split; [congruence | done].
    + intros [Hne ?]. split; [congruence | done].
Qed.

(** The row [insert] appends for an article. *)
Definition new_row (db : Database) (article : TextDict) (h : pystr) (now : Z) : Row :=
  {| id := next_rowid db;
     title := get article "title" [];
     source := get article "source" [];
     date := get article "date" [];
     url := get article "url" [];
     body := get article "body" [];
     category := get article "category" [];
     bias := None;
     rewritten_article := None;
     content_hash := h;
     created_at := now |}.

Lemma insert_fresh (db : Database) (article : TextDict) (h : pystr) (now : Z) :
  h ∉ hashes db ->
  insert db article h now =
  Returned {| data_news := data_news db ++ [new_row db article h now];
              sqlite_sequence := next_rowid db |}.
Proof.
  intros Hfresh. unfold insert.
  by rewrite (proj2 (existsb_hash_iff db h) Hfresh).
Qed.

Section Upsert.
Variable md5_hexdigest : pystr -> pystr.

Local Abbreviation digest := (_generate_content_hash md5_hexdigest).

(** A row inserted for one of the articles of a batch, on top of the
    hashes [old]: its hash is the digest of the article and is not among
    [old], and its analysis fields are empty. *)
Definition inserted_from (data : list TextDict) (old : list pystr) (r : Row) : Prop :=
  (content_hash r ∉ old) /\
  bias r = None /\ rewritten_article r = None /\
  exists article,
    article ∈ data /\
    content_hash r = digest article /\
    title r = get article "title" [] /\
    body r = get article "body" [].

Lemma add_news_loop_spec (clock : nat -> Z) (data : list TextDict) :
  forall (k : nat) (db : Database) (added dups : Z),
  exists new_rows seq,
    add_news_loop md5_hexdigest clock k data db added dups
      = ({| data_news := data_news db ++ new_rows; sqlite_sequence := seq |},
         added + Z.of_nat (length new_rows),
         dups + Z.of_nat (length data) - Z.of_nat (length new_rows)) /\
    Forall (inserted_from data (hashes db)) new_rows /\
    NoDup (content_hash <$> new_rows) /\
    (forall article, article ∈ data ->
       digest article ∈ hashes db ++ (content_hash <$> new_rows)).
Proof.
  induction data as [| article rest IH]; intros k db added dups.
  - exists [], (sqlite_sequence db). simpl. rewrite app_nil_r. split_and!.
    + destruct db. simpl. loop_state.
    + constructor.
    + constructor.
    + intros a Ha. by apply elem_of_nil in Ha.
  - cbn [add_news_loop].
    destruct (select_id_by_hash db (digest article)) as [existing |] eqn:Hsel.
    + (* a duplicate *)
      assert (Hold : digest article ∈ hashes db).
      { destruct (decide (digest article ∈ hashes db)) as [? | Hn]; [done |].
        apply select_none_iff in Hn. congruence. }
      destruct (IH (S k) db added (dups + 1)) as (new_rows & seq & Hrun & Hnew & Hnd & Hall).
      exists new_rows, seq. rewrite Hrun. split_and!.
      * loop_state.
      * eapply Forall_impl; [exact Hnew |].
        intros r (? & ? & ? & a & Ha & ?). split_and!; try done.
        exists a. split; [by right | done].
      * done.
      * intros a [-> | Ha]%elem_of_cons; [| by apply Hall].
        apply elem_of_app. by left.
    + (* a new article *)
      apply select_none_iff in Hsel.
      rewrite (insert_fresh _ _ _ _ Hsel).
      set (row := new_row db article (digest article) (clock k)).
      set (db1 := {| data_news := data_news db ++ [row];
                     sqlite_sequence := next_rowid db |}).
      destruct (IH (S k) db1 (added + 1) dups) as (new_rows & seq & Hrun & Hnew & Hnd & Hall).
      assert (Hh1 : hashes db1 = hashes db ++ [digest article]).
      { unfold hashes, db1. simpl. by rewrite fmap_app. }
      exists (row :: new_rows), seq. rewrite Hrun. split_and!.
      * subst db1. cbn [data_news]. rewrite <- app_assoc. cbn [app].
        loop_state.
      * constructor.
        -- split_and!; try done. exists article. split; [by left | done].
        -- eapply Forall_impl; [exact Hnew |].
           intros r (Hr & ? & ? & a & Ha & ?). split_and!; try done.
           ++ intros Hin. apply Hr. rewrite Hh1. apply elem_of_app. by left.
           ++ exists a. split; [by right | done].
      * rewrite fmap_cons. constructor; [| done].
        intros Hin. apply list_elem_of_fmap in Hin as (r & Hr & Hin).
        rewrite Forall_forall in Hnew. destruct (Hnew r Hin) as (Hfresh & _).
        apply Hfresh. rewrite Hh1, <- Hr. apply elem_of_app. right. by left.
      * intros a [-> | Ha]%elem_of_cons.
        -- rewrite fmap_cons. apply elem_of_app. right. by left.
        -- specialize (Hall a Ha). rewrite Hh1, <- app_assoc in Hall. exact Hall.
Qed.

(** A batch all of whose digests are stored adds nothing. *)
Lemma add_news_loop_known (clock : nat -> Z) (data : list TextDict) :
  forall (k : nat) (db : Database) (added dups : Z),
    (forall article, article ∈ data -> digest article ∈ hashes db) ->
    add_news_loop md5_hexdigest clock k data db added dups
    = (db, added, dups + Z.of_nat (length data)).
Proof.
  induction data as [| article rest IH]; intros k db added dups Hknown.
  - simpl. loop_state.
  - cbn [add_news_loop].
    destruct (select_id_by_hash db (digest article)) as [existing |] eqn:Hsel.
    + rewrite IH by (intros; apply Hknown; by right).
      loop_state.
    + apply select_none_iff in Hsel. destruct Hsel. apply Hknown. by left.
Qed.

(** C3.  [add_news] appends rows and counts the rows it appends.  No row
    it appends has a hash that was stored before the call, or the hash
    of another row it appends, and each is the row of an article of the
    batch, with empty analysis fields.  So an article whose digest is
    stored is neither counted nor inserted; a second call with the same
    batch adds nothing and returns 0; an article that is new counts
    once over two calls; and the number of distinct hashes is never
    above the number of rows. *)
Theorem add_news_idempotent (clock clock' : nat -> Z) (db : Database)
    (data : list TextDict) (article : TextDict) :
  let added := fst (add_news md5_hexdigest clock db data) in
  let db1 := snd (add_news md5_hexdigest clock db data) in
  let once := add_news md5_hexdigest clock db [article] in
  let twice := add_news md5_hexdigest clock' (snd once) [article] in
  (exists new_rows,
     data_news db1 = data_news db ++ new_rows /\
     added = Z.of_nat (length new_rows) /\
     Forall (inserted_from data (hashes db)) new_rows /\
     NoDup (content_hash <$> new_rows)) /\
  (digest article ∈ hashes db -> once = (0, db)) /\
  add_news md5_hexdigest clock' db1 data = (0, db1) /\
  (digest article ∉ hashes db ->
     fst once + fst twice = 1 /\ snd twice = snd once /\
     length (data_news (snd once)) = S (length (data_news db))) /\
  (forall store total processed unique_content,
     store = db \/ store = db1 ->
     get_article_stats store = (total, processed, unique_content) ->
     unique_content <= total).
Proof.
  intros added db1 once twice. subst added db1 once twice. unfold add_news.
  destruct (add_news_loop_spec clock data 0 db 0 0)
    as (new_rows & seq & Hrun & Hnew & Hnd & Hall).
  rewrite Hrun. cbn [fst snd]. split_and!.
  - exists new_rows. by split_and!.
  - intros Hold. rewrite add_news_loop_known; [done |].
    intros a [-> | Ha]%elem_of_cons; [done | by apply elem_of_nil in Ha].
  - rewrite add_news_loop_known; [done |].
    intros a Ha. unfold hashes. simpl. rewrite fmap_app. by apply Hall.
  - intros Hfresh.
    destruct (add_news_loop_spec clock [article] 0 db 0 0)
      as (rows1 & seq1 & Hrun1 & Hnew1 & Hnd1 & Hall1).
    rewrite Hrun1. cbn [fst snd].
    rewrite add_news_loop_known.
    2:{ intros a [-> | Ha]%elem_of_cons; [| by apply elem_of_nil in Ha].
        unfold hashes. simpl. rewrite fmap_app. apply Hall1. by left. }
    assert (Hone : length rows1 = 1%nat).
    { destruct rows1 as [| r1 [| r2 rows1]].
      - exfalso. apply Hfresh.
        assert (Hin : article ∈ [article]) by (by left).
        specialize (Hall1 article Hin).
        by rewrite app_nil_r in Hall1.
      - done.
      - exfalso. rewrite Forall_forall in Hnew1.
        destruct (Hnew1 r1) as (_ & _ & _ & a1 & Ha1 & E1 & _); [by left |].
        destruct (Hnew1 r2) as (_ & _ & _ & a2 & Ha2 & E2 & _); [right; by left |].
        apply list_elem_of_singleton in Ha1, Ha2. subst a1 a2.
        apply NoDup_cons in Hnd1 as [Hnot _]. apply Hnot.
        simpl. rewrite E1, <- E2. by left. }
    cbn [fst snd data_news]. rewrite length_app, Hone. split_and!; [lia | done | lia].
  - intros store total processed unique_content _. unfold get_article_stats.
    intros [= <- _ <-].
    apply Nat2Z.inj_le.
    rewrite <- (length_fmap content_hash).
    apply submseteq_length, NoDup_submseteq; [apply NoDup_remove_dups |].
    intros h. by rewrite elem_of_remove_dups.
Qed.
End Upsert.

(** *** A store to run the operations on *)

Import OrchestratorFacts (article).

Definition council : TextDict :=
  article "Council meets" "The council met on Tuesday and it voted.".

Definition rain : TextDict :=
  article "Rain expected" "Rain is expected over the weekend in the north.".

Definition empty : Database := {| data_news := []; sqlite_sequence := 0 |}.

(** The examples take the content for its own digest. *)
Definition plain (content : pystr) : pystr := content.

Definition row (rowid : Z) (a : TextDict) (analysis : option pystr) (time : Z) : Row :=
  {| id := rowid; title := get a "title" []; source := []; date := [];
     url := []; body := get a "body" []; category := [];
     bias := analysis; rewritten_article := analysis;
     content_hash := plain (get a "title" [] ++ get a "body" []);
     created_at := time |}.

(** Three rows: one analysed, two not; two of them share a title. *)
Definition sample : Database :=
  {| data_news :=
       [row 1 council None 100;
        row 2 rain (Some (py "low bias")) 200;
        row 3 (article "Council meets" "The council met again on Friday.") None 300];
     sqlite_sequence := 3 |}.

Definition result (title analysis rewrite : string) : TextDict :=
  <["title" := py title]>
    (<["bias" := py analysis]> (<["rewritten_article" := py rewrite]> ∅)).

Lemma add_bias_frame_witness :
  fst (add_bias [result "Council meets" "some bias" "A rewrite."] sample) = Returned tt /\
  data_news (snd (add_bias [result "Council meets" "some bias" "A rewrite."] sample)) !! 1%nat
    = Some (row 2 rain (Some (py "low bias")) 200).
Proof.
  destruct (add_bias_frame [result "Council meets" "some bias" "A rewrite."] sample)
    as (_ & _ & Hother & Hwritten).
  split.
  - apply Hwritten. repeat constructor; vm_compute; eauto.
  - apply Hother; [reflexivity |].
    intros d Hd. apply list_elem_of_singleton in Hd. subst d.
    vm_compute. discriminate.
Defined.

(** C7 as stated fails.  With the limit -1 the call returns the two rows
    not analysed: more than -1.  And called without [processed_only], as
    its default has it, the function returns an analysed row as well. *)
Lemma prepare_data_for_llm_unbounded :
  prepare_data_for_llm (-1) true sample
    = Returned [article "Council meets" "The council met again on Friday."; council] /\
  ~ Z.of_nat
      (length [article "Council meets" "The council met again on Friday."; council])
    <= -1 /\
  prepare_data_for_llm 5 false sample
    = Returned [article "Council meets" "The council met again on Friday."; rain; council] /\
  (bias <$> data_news sample) !! 1%nat = Some (Some (py "low bias")) /\
  (to_article <$> data_news sample) !! 1%nat = Some rain.
Proof.
  split_and!; try (vm_compute; reflexivity).
  simpl. lia.
Qed.

Lemma prepare_data_for_llm_unprocessed_witness :
  prepare_data_for_llm 1 true sample
  = Returned [article "Council meets" "The council met again on Friday."].
Proof.
  destruct (prepare_data_for_llm_unprocessed 1 sample) as (Hrun & _); [lia |].
  rewrite Hrun. vm_compute. reflexivity.
Defined.

Lemma add_news_idempotent_witness :
  fst (add_news plain (fun _ => 100) empty [council])
  + fst (add_news plain (fun _ => 200)
           (snd (add_news plain (fun _ => 100) empty [council])) [council]) = 1 /\
  add_news plain (fun _ => 300) sample [council] = (0, sample).
Proof.
  split.
  - destruct (add_news_idempotent plain (fun _ => 100) (fun _ => 200) empty [] council)
      as (_ & _ & _ & Hnew & _).
    apply Hnew, not_elem_of_nil.
  - destruct (add_news_idempotent plain (fun _ => 300) (fun _ => 300) sample [] council)
      as (_ & Hknown & _).
    apply Hknown. vm_compute. by left.
Defined.

End NewsDbFacts.

(** ** The text handed to the decoder *)

Module SpanFacts.

Import Detector FindFacts StripFacts.

(** [t] holds [obj] between a prefix without the character [a] and a
    suffix without the character [b]. *)
Definition around (a b : N) (obj t : list N) : Prop :=
  exists p q, t = p ++ obj ++ q /\ (a ∉ p) /\ (b ∉ q).

Lemma around_reverse (a b : N) (obj t : list N) :
  around a b obj t -> around b a (reverse obj) (reverse t).
Proof.
  intros (p & q & -> & Hp & Hq). exists (reverse q), (reverse p).
  rewrite !reverse_app, <- app_assoc, !elem_of_reverse. done.
Qed.

Lemma around_rev (a b : N) (obj t : list N) :
  around b a (reverse obj) (reverse t) -> around a b obj t.
Proof.
  intros H. apply around_reverse in H. by rewrite !reverse_involutive in H.
Qed.

(** Stripping on the left stops at the object or before it. *)
Lemma lstrip_around (a b : N) (obj t : list N) :
  head obj = Some a -> is_space a = false ->
  around a b obj t -> around a b obj (lstrip t).
Proof.
  intros Hhead Ha (p & q & -> & Hp & Hq).
  induction p as [| c p IH]; simpl.
  - destruct obj as [| x obj]; [done |]. injection Hhead as ->.
    simpl. rewrite Ha. by exists [], q.
  - apply not_elem_of_cons in Hp as [Hc Hp].
    destruct (is_space c); [by apply IH |].
    exists (c :: p), q. split_and!; [done | | done].
    rewrite not_elem_of_cons. done.
Qed.

Lemma rstrip_around (a b : N) (obj t : list N) :
  last obj = Some b -> is_space b = false ->
  around a b obj t -> around a b obj (rstrip t).
Proof.
  intros Hlast Hb H. unfold rstrip. rewrite !rev_reverse.
  apply around_rev. rewrite reverse_involutive.
  apply lstrip_around; [by rewrite head_reverse | done |].
  by apply around_reverse.
Qed.

Lemma strip_around (a b : N) (obj t : list N) :
  head obj = Some a -> last obj = Some b ->
  is_space a = false -> is_space b = false ->
  around a b obj t -> around a b obj (strip t).
Proof.
  intros. unfold strip. apply rstrip_around; [done .. |].
  by apply lstrip_around.
Qed.

(** A prefix that lacks the first character of the object ends before
    the object begins. *)
Lemma startswith_before (pre p : list N) (a : N) (rest : list N) :
  startswith pre (p ++ a :: rest) = true -> a ∉ pre ->
  (length pre <= length p)%nat.
Proof.
  revert p. induction pre as [| x pre IH]; intros p; simpl; [lia |].
  intros Hs Hpre. apply not_elem_of_cons in Hpre as [Hx Hpre].
  destruct p as [| c p]; simpl in *.
  - apply andb_true_iff in Hs as [Hs _]. apply N.eqb_eq in Hs. congruence.
  - apply andb_true_iff in Hs as [_ Hs]. specialize (IH p Hs Hpre). lia.
Qed.

(** Dropping such a prefix leaves the object where it is. *)
Lemma drop_prefix_around (a b : N) (obj t pre : list N) :
  head obj = Some a -> a ∉ pre ->
  around a b obj t ->
  around a b obj (if startswith pre t then drop (length pre) t else t).
Proof.
  intros Hhead Hpre (p & q & -> & Hp & Hq).
  destruct (startswith pre _) eqn:Hs; [| by exists p, q].
  destruct obj as [| x obj]; [done |]. injection Hhead as ->.
  assert (length pre <= length p)%nat as Hlen
    by (by apply (startswith_before pre p a (obj ++ q))).
  exists (drop (length pre) p), q. split_and!; [| | done].
  - by rewrite drop_app_le.
  - intros Hin. apply Hp. by apply (subseteq_drop (length pre) p).
Qed.

Lemma take_as_drop (t : list N) (n : nat) :
  take (length t - n) t = reverse (drop n (reverse t)).
Proof. by rewrite drop_reverse, reverse_involutive. Qed.

Lemma drop_suffix_around (a b : N) (obj t suf : list N) :
  last obj = Some b -> b ∉ suf ->
  around a b obj t ->
  around a b obj (if endswith suf t then take (length t - length suf) t else t).
Proof.
  intros Hlast Hsuf H. unfold endswith. rewrite !rev_reverse, take_as_drop.
  apply around_rev.
  pose proof (drop_prefix_around b a (reverse obj) (reverse t) (reverse suf)) as Hd.
  rewrite length_reverse in Hd.
  destruct (startswith (reverse suf) (reverse t)).
  - rewrite reverse_involutive. apply Hd;
      [by rewrite head_reverse | by rewrite elem_of_reverse | by apply around_reverse].
  - by apply around_reverse.
Qed.

(** The cleaning of [_extract_json] leaves an object in braces where it
    is: it only removes text before the first opening brace and after
    the last closing one. *)
Lemma clean_response_around (obj t : list N) :
  head obj = Some 123%N -> last obj = Some 125%N ->
  around 123 125 obj t -> around 123 125 obj (clean_response t).
Proof.
  intros Hhead Hlast H. unfold clean_response.
  apply strip_around; [done .. |].
  apply (drop_suffix_around 123 125 obj _ (py "```")); [done | |].
  { apply (bool_decide_unpack _). vm_compute. exact I. }
  apply (drop_prefix_around 123 125 obj _ (py "```")); [done | |].
  { apply (bool_decide_unpack _). vm_compute. exact I. }
  apply (drop_prefix_around 123 125 obj _ (py "```json")); [done | |].
  { apply (bool_decide_unpack _). vm_compute. exact I. }
  by apply strip_around.
Qed.

Lemma find_app_fresh (c : N) (p rest : list N) :
  c ∉ p -> find c (p ++ c :: rest) = Z.of_nat (length p).
Proof.
  induction p as [| x p IH]; simpl; intros Hp.
  - by rewrite N.eqb_refl.
  - apply not_elem_of_cons in Hp as [Hx Hp].
    destruct (N.eqb_spec x c) as [-> | _]; [done |].
    rewrite (IH Hp).
    destruct (Z.of_nat (length p) =? -1) eqn:E; lia.
Qed.

(** The span between the first opening and the last closing brace of a
    text that holds an object in braces is that object. *)
Lemma json_object_text_around (obj t : list N) :
  head obj = Some 123%N -> last obj = Some 125%N ->
  around 123 125 obj t -> json_object_text t = Some obj.
Proof.
  intros Hhead Hlast (p & q & -> & Hp & Hq).
  destruct obj as [| x obj]; [done |]. injection Hhead as ->.
  unfold json_object_text, rfind.
  change ((123%N :: obj) ++ q) with (123%N :: obj ++ q).
  rewrite (find_app_fresh 123 p (obj ++ q) Hp).
  assert (Hrev : rev (p ++ 123%N :: obj ++ q)
                 = reverse q ++ 125%N :: reverse (p ++ removelast (123%N :: obj))).
  { rewrite rev_reverse.
    assert (123%N :: obj = removelast (123%N :: obj) ++ [125%N]) as Hobj.
    { apply last_Some in Hlast as (l' & Hl'). rewrite Hl'.
      by rewrite removelast_last. }
    change (p ++ 123%N :: obj ++ q) with (p ++ (123%N :: obj) ++ q).
    rewrite Hobj at 1.
    rewrite !reverse_app, reverse_singleton. simpl.
    by rewrite <- !app_assoc. }
  rewrite Hrev, find_app_fresh by (by rewrite elem_of_reverse).
  rewrite length_reverse.
  replace (Z.of_nat (length p) =? -1) with false by (symmetry; apply Z.eqb_neq; lia).
  replace (Z.of_nat (length q) =? -1) with false by (symmetry; apply Z.eqb_neq; lia).
  cbn [orb].
  replace (_ =? 0) with false.
  2:{ symmetry. apply Z.eqb_neq.
      rewrite length_app. cbn [length]. rewrite length_app. lia. }
  f_equal. unfold slice.
  rewrite Nat2Z.id, drop_app_length.
  rewrite length_app. cbn [length]. rewrite length_app.
  replace (Z.to_nat _) with (length (123%N :: obj)) by (cbn [length]; lia).
  change (123%N :: obj ++ q) with ((123%N :: obj) ++ q).
  by rewrite take_app_length.
Qed.

Section Normalizer.
Variable json_loads : pystr -> Outcome PyVal.

(** X1.  Take a reply that holds an object in braces, after text
    without an opening brace and before text without a closing one:
    prose, white space, a Markdown fence.  The text [_extract_json]
    hands to [json.loads] is the object, and what it returns is what
    it returns on the object alone. *)
Theorem extract_json_ignores_surroundings (p obj q : pystr) :
  head obj = Some 123%N -> last obj = Some 125%N ->
  123%N ∉ p -> 125%N ∉ q ->
  json_object_text (clean_response (p ++ obj ++ q)) = Some obj /\
  _extract_json json_loads (Some (p ++ obj ++ q))
    = _extract_json json_loads (Some obj).
Proof.
  intros Hhead Hlast Hp Hq.
  assert (Hin : json_object_text (clean_response (p ++ obj ++ q)) = Some obj).
  { apply json_object_text_around; [done .. |].
    apply clean_response_around; [done .. |]. by exists p, q. }
  assert (Halone : json_object_text (clean_response obj) = Some obj).
  { apply json_object_text_around; [done .. |].
    apply clean_response_around; [done .. |].
    exists [], []. rewrite app_nil_r. split_and!; [done | |]; apply not_elem_of_nil. }
  split; [done |].
  rewrite !DetectorFacts.extract_json_cases. by rewrite Hin, Halone.
Qed.
End Normalizer.

(** A reply of a chat model: a sentence, a fenced object, a blank line. *)
Definition fenced_reply_lead : pystr :=
  py "Here is the analysis:" ++ [10%N] ++ py "```json" ++ [10%N].
Definition fenced_reply_object : pystr :=
  dq "{'emotional_bias_score': 70, 'framing_bias_score': 40, 'overall_bias_score': 55}".
Definition fenced_reply_tail : pystr :=
  [10%N] ++ py "```" ++ [10%N; 10%N].

Lemma extract_json_ignores_surroundings_witness :
  json_object_text
    (clean_response (fenced_reply_lead ++ fenced_reply_object ++ fenced_reply_tail))
    = Some fenced_reply_object /\
  exists d,
    _extract_json JsonLite.json_loads
      (Some (fenced_reply_lead ++ fenced_reply_object ++ fenced_reply_tail))
      = Returned (PyDict d) /\
    d !! overall_bias_score = Some (PyInt 55).
Proof.
  destruct (extract_json_ignores_surroundings JsonLite.json_loads
              fenced_reply_lead fenced_reply_object fenced_reply_tail)
    as [Hspan Hsame].
  - reflexivity.
  - reflexivity.
  - apply (bool_decide_unpack _). vm_compute. exact I.
  - apply (bool_decide_unpack _). vm_compute. exact I.
  - split; [exact Hspan |].
    rewrite Hsame. eexists. split; [vm_compute; reflexivity |].
    vm_compute. reflexivity.
Defined.

End SpanFacts.

(** ** The agents when the provider fails or answers badly *)

Module AgentFacts.

Import Detector Rewriter Explainer Orchestrator Quality EffFacts.

(** The request an agent sends with a prompt. *)
Definition sent (h : Handle) (prompt : Prompt) : Call :=
  {| call_provider := provider h;
     call_model := model_name h;
     call_prompt := prompt |}.

(** What the backend of a handle answers to a prompt, as the agents read
    it: a text, no content (Groq only), or an exception. *)
Definition answer (B : Backends) (h : Handle) (prompt : Prompt)
    : Outcome (option pystr) :=
  match provider h with
  | GROQ => groq_chat B (model_name h) prompt
  | GEMINI => obind (gemini_generate B (model_name h) prompt) (fun t => Returned (Some t))
  | CLAUDE => obind (claude_messages B (model_name h) prompt) (fun t => Returned (Some t))
  end.

(** The text an agent takes from an answer: the answer itself; [empty]
    when Groq answers without content or with the empty text; [failed]
    when the request raises. *)
Definition text_of (h : Handle) (a : Outcome (option pystr)) (empty failed : pystr)
    : pystr :=
  match a with
  | Returned (Some t) =>
      match provider h, t with
      | GROQ, [] => empty
      | _, _ => t
      end
  | Returned None => empty
  | Raised _ => failed
  end.

Definition is_dict (v : PyVal) : bool :=
  match v with PyDict _ => true | _ => false end.

(** The analyses [_create_rewrite_prompt] can read: a dict whose
    [biased_phrases] is missing, or false as a condition, or a list with
    dicts in its first ten places. *)
Definition readable (a : PyVal) : bool :=
  match a with
  | PyDict d =>
      match d !! biased_phrases with
      | None => true
      | Some (PyList l) => forallb is_dict (take 10 l)
      | Some v => negb (truthy v)
      end
  | _ => false
  end.

(** The analyses whose overall score compares with a number. *)
Definition numeric_score (a : PyVal) : bool :=
  match a with
  | PyDict d =>
      match as_number (default (PyInt 0) (d !! overall_bias_score)) with
      | Some _ => true
      | None => false
      end
  | _ => false
  end.

(** The analyses the pipeline gets through for an article with this
    title: the score is only read when there is a title. *)
Definition wellshaped (title : pystr) (a : PyVal) : bool :=
  readable a && match title with [] => true | _ => numeric_score a end.

Lemma ebind_returned {A R} (m : Eff A) (k : A -> Eff R) (cs : list Call) (a : A) :
  m = (cs, Returned a) -> ebind m k = (cs ++ calls (k a), outcome (k a)).
Proof. intros ->. unfold ebind, calls, outcome. by destruct (k a). Qed.

Lemma ebind_raised {A R} (m : Eff A) (k : A -> Eff R) (cs : list Call) (e : exn) :
  m = (cs, Raised e) -> ebind m k = (cs, Raised e).
Proof. by intros ->. Qed.

Lemma phrase_hints_dicts (l : list PyVal) :
  phrase_hints l
  = if forallb is_dict l then Returned tt else Raised AttributeError.
Proof.
  induction l as [| v l IH]; [done |].
  destruct v; cbn [phrase_hints py_get obind forallb is_dict andb]; try done.
Qed.

Lemma create_rewrite_prompt_readable (text : pystr) (a : PyVal) :
  (readable a = true -> _create_rewrite_prompt text a = Returned (RewritePrompt text a)) /\
  (readable a = false -> exists e,
     _create_rewrite_prompt text a = Raised e /\ (e = AttributeError \/ e = TypeError)).
Proof.
  unfold _create_rewrite_prompt, readable.
  destruct a as [| b | z | q | s | l | d]; cbn [py_get obind];
    try (split; [done | intros _; exists AttributeError; by split; [| left]]).
  destruct (d !! biased_phrases) as [v |]; [| by split].
  destruct v as [| b | z | q | s | l | d'];
    cbn [truthy first_ten obind negb].
  - by split.
  - destruct b; cbn [obind]; split; try done.
    intros _. exists TypeError. by split; [| right].
  - destruct (z =? 0); cbn [negb obind]; split; try done.
    intros _. exists TypeError. by split; [| right].
  - destruct (Qeq_bool q 0); cbn [negb obind]; split; try done.
    intros _. exists TypeError. by split; [| right].
  - destruct s as [| c s]; cbn [obind negb]; [by split |].
    split; [done |]. intros _. exists AttributeError. by split; [| left].
  - rewrite phrase_hints_dicts.
    destruct l as [| v l]; [by split |].
    destruct (forallb is_dict (take 10 (v :: l))); cbn [obind]; split; try done.
    intros _. exists AttributeError. by split; [| left].
  - destruct (bool_decide (d' = ∅)); cbn [negb obind]; split; try done.
    intros _. exists TypeError. by split; [| right].
Qed.

Section WithBackends.
Variable json_loads : pystr -> Outcome PyVal.
Variable B : Backends.

Local Open Scope eff_scope.

(** One request behind a handler: what the three request blocks of the
    agents come to. *)
Lemma request_block (h : Handle) (prompt : Prompt) (empty failed : pystr) :
  etry (match provider h with
        | GROQ =>
            content <~ ask_groq B h prompt ;;
            eret (content_or content empty)
        | GEMINI => ask_gemini B h prompt
        | CLAUDE => ask_claude B h prompt
        end)
       (fun _ => eret failed)
  = ([sent h prompt], Returned (text_of h (answer B h prompt) empty failed)).
Proof.
  unfold sent, answer, text_of, ask_groq, ask_gemini, ask_claude, request.
  destruct h as [model [ | | ]]; cbn [provider model_name].
  - destruct (gemini_generate B model prompt) as [t | e]; reflexivity.
  - destruct (groq_chat B model prompt) as [[[| c t] |] | e]; reflexivity.
  - destruct (claude_messages B model prompt) as [t | e]; reflexivity.
Qed.

(** The value [_extract_json] returns on a text. *)
Definition normalized (t : pystr) : PyVal :=
  match _extract_json json_loads (Some t) with
  | Returned v => v
  | Raised _ => _get_fallback_response
  end.

Lemma extract_json_normalized (t : pystr) :
  _extract_json json_loads (Some t) = Returned (normalized t).
Proof. unfold normalized. by rewrite DetectorFacts.extract_json_cases. Qed.

Lemma normalized_required (t : pystr) :
  py_all_in required (normalized t) = Returned true.
Proof.
  unfold normalized. rewrite DetectorFacts.extract_json_cases.
  destruct (json_object_text _) as [s |]; [| by vm_compute].
  destruct (json_loads s) as [result | e]; [| by vm_compute].
  destruct (py_all_in required result) as [[|] | e] eqn:Hall;
    [done | by vm_compute | by vm_compute].
Qed.

(** The analysis [detect_biases] makes of an answer. *)
Definition detected (a : Outcome (option pystr)) : PyVal :=
  match a with
  | Returned (Some t) => normalized t
  | _ => _get_fallback_response
  end.

Lemma detect_biases_shape (self : Handle) (article_text : pystr) :
  detect_biases json_loads B self article_text
  = if match article_text with [] => true | _ => false end
       || (Z.of_nat (length (strip article_text)) <? 10)
    then ([], Returned _get_fallback_response)
    else ([sent self (BiasAnalysisPrompt article_text)],
          Returned (detected (answer B self (BiasAnalysisPrompt article_text)))).
Proof.
  unfold detect_biases. destruct (_ || _); [done |].
  unfold _analyze_chat_completion, _analyze_gemini, _analyze_claude,
    _create_bias_analysis_prompt, sent, answer, detected,
    ask_groq, ask_gemini, ask_claude, request.
  destruct self as [model [ | | ]]; cbn [provider model_name].
  - destruct (gemini_generate B model _) as [t | e]; [| reflexivity].
    cbn [ebind lift obind]. by rewrite extract_json_normalized.
  - destruct (groq_chat B model _) as [[t |] | e]; try reflexivity.
    cbn [ebind lift obind]. by rewrite extract_json_normalized.
  - destruct (claude_messages B model _) as [t | e]; [| reflexivity].
    cbn [ebind lift obind]. by rewrite extract_json_normalized.
Qed.

(** X2.  [detect_biases] raises nothing, whatever the provider does.
    It sends at most one request, and exactly one when the stripped
    article has 10 characters or more.  What it returns holds the
    three required fields.  It is the fallback when the request
    raises and when Groq answers without content, and what
    [_extract_json] makes of the answer otherwise. *)
Theorem detect_biases_never_raises (self : Handle) (article_text : pystr) :
  let run := detect_biases json_loads B self article_text in
  let prompt := BiasAnalysisPrompt article_text in
  (exists v, outcome run = Returned v /\ py_all_in required v = Returned true) /\
  (calls run = [] \/ calls run = [sent self prompt]) /\
  ((10 <= length (strip article_text))%nat ->
     calls run = [sent self prompt] /\
     (forall e, answer B self prompt = Raised e ->
        outcome run = Returned _get_fallback_response) /\
     (answer B self prompt = Returned None ->
        outcome run = Returned _get_fallback_response) /\
     (forall t, answer B self prompt = Returned (Some t) ->
        outcome run = _extract_json json_loads (Some t))).
Proof.
  intros run prompt. subst run prompt. rewrite detect_biases_shape.
  destruct (_ || _) eqn:Hguard; cbn [calls outcome fst snd].
  - split_and!.
    + eexists. split; [done |]. by vm_compute.
    + by left.
    + intros Hlen. apply orb_true_iff in Hguard as [Hempty | Hshort].
      * destruct article_text; [| done]. vm_compute in Hlen. lia.
      * apply Z.ltb_lt in Hshort. lia.
  - split_and!.
    + eexists. split; [done |].
      destruct (answer B self _) as [[t |] | e]; cbn [detected];
        [apply normalized_required | by vm_compute | by vm_compute].
    + by right.
    + intros _. split_and!; [done | | |].
      * by intros e ->.
      * by intros ->.
      * intros t ->. cbn [detected]. by rewrite extract_json_normalized.
Qed.

Lemma rewrite_neutral_shape (self : Handle) (text : pystr) (a : PyVal) :
  readable a = true ->
  rewrite_neutral B self text a
  = ([sent self (RewritePrompt text a)],
     Returned (text_of self (answer B self (RewritePrompt text a)) text text)).
Proof.
  intros Hr. unfold rewrite_neutral.
  rewrite (proj1 (create_rewrite_prompt_readable text a) Hr).
  rewrite ebind_lift_returned. apply request_block.
Qed.

(** X3.  [rewrite_neutral] reads the analysis before it asks.  On an
    analysis it can read, it sends one request and returns the answer,
    or the original text when the request raises or Groq answers
    without content: it raises nothing.  On any other analysis (not a
    dict, or with something else than a dict among the first ten
    biased phrases) it raises [AttributeError] or [TypeError] and
    sends nothing. *)
Theorem rewrite_neutral_outcome (self : Handle) (original_text : pystr)
    (bias_analysis : PyVal) :
  let run := rewrite_neutral B self original_text bias_analysis in
  let prompt := RewritePrompt original_text bias_analysis in
  (readable bias_analysis = true ->
     calls run = [sent self prompt] /\
     outcome run
       = Returned (text_of self (answer B self prompt) original_text original_text)) /\
  (readable bias_analysis = false ->
     calls run = [] /\
     exists e, outcome run = Raised e /\ (e = AttributeError \/ e = TypeError)).
Proof.
  intros run prompt. subst run prompt. split; intros Hr.
  - by rewrite rewrite_neutral_shape.
  - unfold rewrite_neutral.
    destruct (proj2 (create_rewrite_prompt_readable original_text bias_analysis) Hr)
      as (e & -> & He).
    cbn [lift ebind calls outcome fst snd]. split; [done |]. by exists e.
Qed.

Lemma explain_biases_shape (self : Handle) (d : gmap pystr PyVal) :
  explain_biases B self (PyDict d)
  = ([sent self (ExplainPrompt (PyDict d))],
     Returned (text_of self (answer B self (ExplainPrompt (PyDict d)))
                 (py "Unable to generate explanation.")
                 (py "Unable to generate explanation at this time."))).
Proof.
  unfold explain_biases. cbn [py_get]. rewrite ebind_lift_returned.
  apply request_block.
Qed.

(** X4.  [explain_biases] on a dict sends one request and raises
    nothing: it returns the answer, the sentence "Unable to generate
    explanation." when Groq answers without content, and the
    sentence "Unable to generate explanation at this time." when the
    request raises.  On anything else than a dict it raises
    [AttributeError] and sends nothing. *)
Theorem explain_biases_outcome (self : Handle) (bias_analysis : PyVal) :
  let run := explain_biases B self bias_analysis in
  let prompt := ExplainPrompt bias_analysis in
  (is_dict bias_analysis = true ->
     calls run = [sent self prompt] /\
     outcome run
       = Returned (text_of self (answer B self prompt)
                     (py "Unable to generate explanation.")
                     (py "Unable to generate explanation at this time."))) /\
  (is_dict bias_analysis = false -> run = ([], Raised AttributeError)).
Proof.
  intros run prompt. subst run prompt. split; intros Hd.
  - destruct bias_analysis; try done. by rewrite explain_biases_shape.
  - by destruct bias_analysis.
Qed.

(** The title a rewrite keeps of an answer. *)
Definition titled (h : Handle) (a : Outcome (option pystr)) (title : pystr) : pystr :=
  match a with
  | Raised _ => title
  | _ => checked_title (text_of h a title title) title
  end.

Lemma title_block (h : Handle) (title : pystr) (prompt : Prompt) :
  etry (neutral_title <~
          match provider h with
          | GROQ =>
              content <~ ask_groq B h prompt ;;
              eret (content_or content title)
          | GEMINI => ask_gemini B h prompt
          | CLAUDE => ask_claude B h prompt
          end ;;
        eret (checked_title neutral_title title))
       (fun _ => eret title)
  = ([sent h prompt], Returned (titled h (answer B h prompt) title)).
Proof.
  unfold sent, answer, titled, text_of, ask_groq, ask_gemini, ask_claude, request.
  destruct h as [model [ | | ]]; cbn [provider model_name].
  - destruct (gemini_generate B model prompt) as [t | e]; reflexivity.
  - destruct (groq_chat B model prompt) as [[[| c t] |] | e]; reflexivity.
  - destruct (claude_messages B model prompt) as [t | e]; reflexivity.
Qed.

(** The title stage on an analysis whose score is a number [q]: one
    request above 20, none otherwise. *)
Lemma title_stage_shape (self : Agents) (title : pystr) (d : gmap pystr PyVal) (q : Q) :
  title <> [] ->
  as_number (default (PyInt 0) (d !! overall_bias_score)) = Some q ->
  title_stage B self title (PyDict d)
  = match (q ?= inject_Z 20)%Q with
    | Gt => ([sent (rewriter self) (TitlePrompt title (PyDict d))],
             Returned (titled (rewriter self)
                         (answer B (rewriter self) (TitlePrompt title (PyDict d)))
                         title))
    | _ => ([], Returned title)
    end.
Proof.
  intros Hne Hq. unfold title_stage.
  destruct title as [| c title]; [done |].
  cbn [py_get]. rewrite ebind_lift_returned.
  change (match d !! overall_bias_score with Some x => x | None => PyInt 0 end)
    with (default (PyInt 0) (d !! overall_bias_score)).
  unfold py_gt. rewrite Hq, ebind_lift_returned.
  destruct (q ?= inject_Z 20)%Q eqn:Hcmp; try reflexivity.
  unfold rewrite_title_neutral. cbn [py_get]. rewrite ebind_lift_returned.
  change (match d !! overall_bias_score with Some x => x | None => PyInt 0 end)
    with (default (PyInt 0) (d !! overall_bias_score)).
  unfold py_lt. rewrite Hq, ebind_lift_returned, Hcmp.
  apply title_block.
Qed.

Lemma title_stage_unscored (self : Agents) (title : pystr) (d : gmap pystr PyVal) :
  title <> [] -> numeric_score (PyDict d) = false ->
  title_stage B self title (PyDict d) = ([], Raised TypeError).
Proof.
  intros Hne Hs. unfold title_stage.
  destruct title as [| c title]; [done |].
  cbn [py_get]. rewrite ebind_lift_returned.
  change (match d !! overall_bias_score with Some x => x | None => PyInt 0 end)
    with (default (PyInt 0) (d !! overall_bias_score)).
  unfold py_gt. unfold numeric_score in Hs.
  by destruct (as_number _).
Qed.

Lemma title_stage_returns (self : Agents) (title : pystr) (a : PyVal) :
  is_dict a = true -> match title with [] => true | _ => numeric_score a end = true ->
  exists cs t,
    title_stage B self title a = (cs, Returned t) /\ (length cs <= 1)%nat.
Proof.
  intros Hd Hs. destruct a as [| | | | | | d]; try done.
  destruct title as [| c title].
  { exists [], []. split; [done | simpl; lia]. }
  unfold numeric_score in Hs.
  destruct (as_number _) as [q |] eqn:Hq; [| done].
  rewrite (title_stage_shape self (c :: title) d q) by done.
  destruct (q ?= inject_Z 20)%Q; eexists _, _; split; try reflexivity; simpl; lia.
Qed.

Lemma readable_dict (a : PyVal) : readable a = true -> is_dict a = true.
Proof. by destruct a. Qed.

(** A run of the pipeline, stage by stage, on an analysis that the
    rewriter can read and the title stage gets through. *)
Lemma analyze_article_shape (self : Agents) (text title src : pystr)
    (c0 cs : list Call) (a : PyVal) (t : pystr) :
  detect_biases json_loads B (detector self) text = (c0, Returned a) ->
  readable a = true ->
  title_stage B self title a = (cs, Returned t) ->
  analyze_article json_loads B self text title src
  = (c0 ++ sent (rewriter self) (RewritePrompt text a) :: cs
        ++ [sent (explainer self) (ExplainPrompt a)],
     Returned
       {| original_text := text;
          original_title := title;
          neutral_version :=
            text_of (rewriter self)
              (answer B (rewriter self) (RewritePrompt text a)) text text;
          neutral_title := t;
          analysis := a;
          explanation :=
            text_of (explainer self)
              (answer B (explainer self) (ExplainPrompt a))
              (py "Unable to generate explanation.")
              (py "Unable to generate explanation at this time.");
          source := src;
          rewrite_quality :=
            _assess_rewrite_quality text
              (text_of (rewriter self)
                 (answer B (rewriter self) (RewritePrompt text a)) text text) |}).
Proof.
  intros Hdet Hr Ht. unfold analyze_article.
  rewrite (ebind_returned _ _ _ _ Hdet).
  rewrite (ebind_returned _ _ _ _ (rewrite_neutral_shape _ _ _ Hr)).
  rewrite (ebind_returned _ _ _ _ Ht).
  destruct a as [| | | | | | d]; try done.
  rewrite (ebind_returned _ _ _ _ (explain_biases_shape _ _)).
  reflexivity.
Qed.

(** How a run of the pipeline ends, by the analysis of the detector. *)
Lemma analyze_article_cases (self : Agents) (article_text title src : pystr) :
  let run := analyze_article json_loads B self article_text title src in
  exists a,
    outcome (detect_biases json_loads B (detector self) article_text) = Returned a /\
    (length (calls run) <= 4)%nat /\
    (wellshaped title a = true ->
       exists r,
         outcome run = Returned r /\ analysis r = a /\
         original_text r = article_text /\ original_title r = title /\
         source r = src) /\
    (wellshaped title a = false ->
       exists e, outcome run = Raised e /\ (e = AttributeError \/ e = TypeError)).
Proof.
  intros run. subst run.
  destruct (detect_biases json_loads B (detector self) article_text)
    as [c0 o] eqn:Hdet.
  assert (exists a, o = Returned a /\ (length c0 <= 1)%nat) as (a & -> & Hc0).
  { rewrite detect_biases_shape in Hdet.
    destruct (_ || _); injection Hdet as <- <-; eexists; split; try done; simpl; lia. }
  exists a. cbn [outcome snd]. split; [done |].
  unfold wellshaped.
  destruct (readable a) eqn:Hr; cbn [andb].
  - pose proof (readable_dict a Hr) as Hd.
    destruct (match title with [] => true | _ => numeric_score a end) eqn:Hs.
    + destruct (title_stage_returns self title a Hd Hs) as (cs & t & Ht & Hcs).
      rewrite (analyze_article_shape self article_text title src c0 cs a t Hdet Hr Ht).
      cbn [calls outcome fst snd]. split_and!.
      * rewrite length_app. cbn [length]. rewrite length_app. simpl. lia.
      * intros _. eexists. by split_and!.
      * done.
    + destruct title as [| c title]; [done |].
      destruct a as [| | | | | | d]; try done.
      unfold analyze_article.
      rewrite (ebind_returned _ _ _ _ Hdet).
      rewrite (ebind_returned _ _ _ _ (rewrite_neutral_shape _ _ _ Hr)).
      rewrite (ebind_raised _ _ _ _ (title_stage_unscored self (c :: title) d
                                       ltac:(done) Hs)).
      cbn [calls outcome fst snd]. split_and!.
      * rewrite length_app. simpl. lia.
      * done.
      * intros _. exists TypeError. split; [done | by right].
  - unfold analyze_article.
    rewrite (ebind_returned _ _ _ _ Hdet).
    destruct (proj2 (create_rewrite_prompt_readable article_text a) Hr)
      as (e & Hp & He).
    assert (Hrw : rewrite_neutral B (rewriter self) article_text a = ([], Raised e)).
    { unfold rewrite_neutral. by rewrite Hp. }
    rewrite (ebind_raised _ _ _ _ Hrw).
    cbn [calls outcome fst snd]. rewrite app_nil_r. split_and!.
    + lia.
    + done.
    + intros _. by exists e.
Qed.

(** X5.  A run of [analyze_article] ends by what the detector
    returned.  It returns, with that analysis and the text, title and
    source it was given, when the rewriter can read the analysis and,
    for an article with a title, the overall score is a number.  It
    raises [AttributeError] or [TypeError] otherwise: no exception of a
    provider leaves it.  It sends four requests at most. *)
Theorem analyze_article_raises_iff_malformed (self : Agents)
    (article_text title src : pystr) :
  let run := analyze_article json_loads B self article_text title src in
  exists a,
    outcome (detect_biases json_loads B (detector self) article_text) = Returned a /\
    (length (calls run) <= 4)%nat /\
    (wellshaped title a = true ->
       exists r,
         outcome run = Returned r /\ analysis r = a /\
         original_text r = article_text /\ original_title r = title /\
         source r = src) /\
    (wellshaped title a = false ->
       exists e, outcome run = Raised e /\ (e = AttributeError \/ e = TypeError)).
Proof. apply analyze_article_cases. Qed.

(** The analysis of a run that returned is one the rewriter could
    read. *)
Lemma analyze_article_returned (self : Agents) (article_text title src : pystr)
    (r : AnalysisResult) :
  outcome (analyze_article json_loads B self article_text title src) = Returned r ->
  readable (analysis r) = true.
Proof.
  intros Hrun.
  destruct (analyze_article_cases self article_text title src)
    as (a & _ & _ & Hgood & Hbad).
  destruct (wellshaped title a) eqn:Hw.
  - destruct (Hgood eq_refl) as (r' & Hr' & Ha & _).
    rewrite Hrun in Hr'. injection Hr' as <-. rewrite Ha.
    unfold wellshaped in Hw. by apply andb_true_iff in Hw as [? _].
  - destruct (Hbad eq_refl) as (e & He & _). congruence.
Qed.

(** Every request to every backend raises. *)
Definition down : Prop :=
  forall model prompt,
    (exists e, groq_chat B model prompt = Raised e) /\
    (exists e, gemini_generate B model prompt = Raised e) /\
    (exists e, claude_messages B model prompt = Raised e).

Lemma down_answer (h : Handle) (prompt : Prompt) :
  down -> exists e, answer B h prompt = Raised e.
Proof.
  intros Hdown. destruct (Hdown (model_name h) prompt) as ((e1 & H1) & (e2 & H2) & (e3 & H3)).
  unfold answer. destruct (provider h).
  - exists e2. by rewrite H2.
  - by exists e1.
  - exists e3. by rewrite H3.
Qed.

(** The requests of a run on the fallback analysis, after detection. *)
Definition fallback_requests (self : Agents) (text title : pystr) : list Call :=
  sent (rewriter self) (RewritePrompt text _get_fallback_response)
  :: match title with
     | [] => []
     | _ => [sent (rewriter self) (TitlePrompt title _get_fallback_response)]
     end
  ++ [sent (explainer self) (ExplainPrompt _get_fallback_response)].

Lemma title_stage_fallback (self : Agents) (title : pystr) :
  title_stage B self title _get_fallback_response
  = match title with
    | [] => ([], Returned title)
    | _ => ([sent (rewriter self) (TitlePrompt title _get_fallback_response)],
            Returned (titled (rewriter self)
                        (answer B (rewriter self)
                           (TitlePrompt title _get_fallback_response)) title))
    end.
Proof.
  destruct title as [| c title]; [done |].
  unfold _get_fallback_response at 1.
  rewrite (title_stage_shape self (c :: title) _ (inject_Z 50)); [done | done |].
  by vm_compute.
Qed.

Lemma analyze_article_on_fallback (self : Agents) (text title src : pystr)
    (c0 : list Call) :
  detect_biases json_loads B (detector self) text
    = (c0, Returned _get_fallback_response) ->
  analyze_article json_loads B self text title src
  = (c0 ++ fallback_requests self text title,
     Returned
       {| original_text := text;
          original_title := title;
          neutral_version :=
            text_of (rewriter self)
              (answer B (rewriter self) (RewritePrompt text _get_fallback_response))
              text text;
          neutral_title :=
            match title with
            | [] => title
            | _ => titled (rewriter self)
                     (answer B (rewriter self)
                        (TitlePrompt title _get_fallback_response)) title
            end;
          analysis := _get_fallback_response;
          explanation :=
            text_of (explainer self)
              (answer B (explainer self) (ExplainPrompt _get_fallback_response))
              (py "Unable to generate explanation.")
              (py "Unable to generate explanation at this time.");
          source := src;
          rewrite_quality :=
            _assess_rewrite_quality text
              (text_of (rewriter self)
                 (answer B (rewriter self)
                    (RewritePrompt text _get_fallback_response)) text text) |}).
Proof.
  intros Hdet.
  pose proof (title_stage_fallback self title) as Ht.
  destruct title as [| c title];
    by rewrite (analyze_article_shape self text _ src c0 _ _ _ Hdet
                  ltac:(by vm_compute) Ht).
Qed.

(** A run with every backend failing. *)
Lemma analyze_article_outage (self : Agents)
    (article_text title src : pystr) :
  down ->
  let run := analyze_article json_loads B self article_text title src in
  outcome run
    = Returned
        {| original_text := article_text;
           original_title := title;
           neutral_version := article_text;
           neutral_title := title;
           analysis := _get_fallback_response;
           explanation := py "Unable to generate explanation at this time.";
           source := src;
           rewrite_quality := no_change |} /\
  calls run
    = calls (detect_biases json_loads B (detector self) article_text)
      ++ fallback_requests self article_text title /\
  (length (calls run) <= 4)%nat.
Proof.
  intros Hdown run. subst run.
  assert (exists c0,
            detect_biases json_loads B (detector self) article_text
              = (c0, Returned _get_fallback_response) /\ (length c0 <= 1)%nat)
    as (c0 & Hdet & Hc0).
  { rewrite detect_biases_shape. destruct (_ || _).
    - exists []. split; [done | simpl; lia].
    - destruct (down_answer (detector self) (BiasAnalysisPrompt article_text) Hdown)
        as (e & ->).
      eexists. split; [done | simpl; lia]. }
  rewrite (analyze_article_on_fallback self article_text title src c0 Hdet), Hdet.
  cbn [calls outcome fst snd].
  destruct (down_answer (rewriter self)
              (RewritePrompt article_text _get_fallback_response) Hdown) as (e1 & ->).
  destruct (down_answer (explainer self)
              (ExplainPrompt _get_fallback_response) Hdown) as (e2 & ->).
  destruct (down_answer (rewriter self)
              (TitlePrompt title _get_fallback_response) Hdown) as (e3 & ->).
  cbn [text_of titled]. split_and!.
  - unfold _assess_rewrite_quality.
    rewrite (proj2 (PyStrFacts.eqb_eq article_text article_text) eq_refl).
    by destruct title.
  - done.
  - rewrite length_app. unfold fallback_requests.
    destruct title; simpl; lia.
Qed.

(** X6.  With every backend failing, [analyze_article] still returns:
    the fallback analysis, the article and its title as they were, the
    sentence that no explanation could be generated, and the quality
    [no_change].  It has sent the detection request (unless the
    article is too short), the rewrite request, the title request
    (when there is a title) and the explanation request. *)
Theorem analyze_article_survives_outage (self : Agents)
    (article_text title src : pystr) :
  down ->
  let run := analyze_article json_loads B self article_text title src in
  outcome run
    = Returned
        {| original_text := article_text;
           original_title := title;
           neutral_version := article_text;
           neutral_title := title;
           analysis := _get_fallback_response;
           explanation := py "Unable to generate explanation at this time.";
           source := src;
           rewrite_quality := no_change |} /\
  calls run
    = calls (detect_biases json_loads B (detector self) article_text)
      ++ fallback_requests self article_text title /\
  (length (calls run) <= 4)%nat.
Proof. apply analyze_article_outage. Qed.

(** X7.  An article too short to be analysed is still sent to be
    rewritten and explained: [analyze_article] skips the detection
    request only, and runs the other stages on the fallback analysis,
    whose score of 50 also has the title rewritten. *)
Theorem analyze_article_short_text (self : Agents)
    (article_text title src : pystr) :
  article_text = [] \/ (length (strip article_text) < 10)%nat ->
  let run := analyze_article json_loads B self article_text title src in
  calls run = fallback_requests self article_text title /\
  exists r,
    outcome run = Returned r /\
    analysis r = _get_fallback_response /\
    neutral_version r
      = text_of (rewriter self)
          (answer B (rewriter self)
             (RewritePrompt article_text _get_fallback_response))
          article_text article_text /\
    (title <> [] ->
       neutral_title r
         = titled (rewriter self)
             (answer B (rewriter self) (TitlePrompt title _get_fallback_response))
             title).
Proof.
  intros Hshort run. subst run.
  assert (Hdet : detect_biases json_loads B (detector self) article_text
                 = ([], Returned _get_fallback_response)).
  { rewrite detect_biases_shape.
    destruct Hshort as [-> | Hlen]; [done |].
    replace (Z.of_nat (length (strip article_text)) <? 10) with true
      by (symmetry; apply Z.ltb_lt; lia).
    by rewrite orb_true_r. }
  rewrite (analyze_article_on_fallback self article_text title src [] Hdet).
  cbn [calls outcome fst snd app]. split; [done |].
  eexists. split_and!; try done.
  cbn [neutral_title]. by destruct title.
Qed.

End WithBackends.

(** Backends that are all unreachable, and agents on three of them. *)
Definition outage : Backends :=
  {| groq_chat := fun _ _ => Raised (ProviderError 503);
     gemini_generate := fun _ _ => Raised (ProviderError 503);
     claude_messages := fun _ _ => Raised (ProviderError 529) |}.

Definition mixed_agents : Agents :=
  {| detector := {| model_name := py "llama-3.1-8b-instant"; provider := GROQ |};
     rewriter := {| model_name := py "models/gemini-2.0-flash"; provider := GEMINI |};
     explainer := {| model_name := py "claude-3-opus-20240229"; provider := CLAUDE |} |}.

Definition storm_report : pystr :=
  py "A monster storm is about to flatten the helpless coast.".

Lemma analyze_article_survives_outage_witness :
  exists r,
    outcome (analyze_article JsonLite.json_loads outage mixed_agents
               storm_report (py "Monster storm") (py "wire")) = Returned r /\
    neutral_version r = storm_report /\
    rewrite_quality r = no_change /\
    length (calls (analyze_article JsonLite.json_loads outage mixed_agents
                     storm_report (py "Monster storm") (py "wire"))) = 4%nat.
Proof.
  destruct (analyze_article_survives_outage JsonLite.json_loads outage mixed_agents
              storm_report (py "Monster storm") (py "wire"))
    as (Hout & Hcalls & _).
  - intros model prompt. split_and!; eexists; reflexivity.
  - eexists. split; [exact Hout |]. split_and!; [done | done |].
    rewrite Hcalls. vm_compute. reflexivity.
Defined.

(** A backend that answers every request. *)
Definition talkative : Backends :=
  {| groq_chat := fun _ _ => Returned (Some (py "Nothing was reported today."));
     gemini_generate := fun _ _ => Returned (py "Nothing was reported today.");
     claude_messages := fun _ _ => Returned (py "No bias to explain.") |}.

Lemma analyze_article_short_text_witness :
  calls (analyze_article JsonLite.json_loads talkative mixed_agents
           (py "Breaking") (py "Breaking news") (py "wire"))
    = fallback_requests mixed_agents (py "Breaking") (py "Breaking news") /\
  exists r,
    outcome (analyze_article JsonLite.json_loads talkative mixed_agents
               (py "Breaking") (py "Breaking news") (py "wire")) = Returned r /\
    analysis r = _get_fallback_response /\
    neutral_version r = py "Nothing was reported today." /\
    neutral_title r = py "Nothing was reported today.".
Proof.
  destruct (analyze_article_short_text JsonLite.json_loads talkative mixed_agents
              (py "Breaking") (py "Breaking news") (py "wire"))
    as (Hcalls & r & Hout & Ha & Hn & Ht).
  - right. vm_compute. lia.
  - split; [exact Hcalls |]. exists r. split_and!; [exact Hout | exact Ha | |].
    + rewrite Hn. vm_compute. reflexivity.
    + rewrite Ht by done. vm_compute. reflexivity.
Defined.

End AgentFacts.

(** ** Which provider a selection ends with *)

Module PriorityFacts.

Import ModelFactory.

Definition models_of (p : ProviderType) : list pystr :=
  match p with
  | GEMINI => GEMINI_MODELS
  | GROQ => GROQ_MODELS
  | CLAUDE => CLAUDE_MODELS
  end.

Definition key_of (p : ProviderType) : string :=
  match p with
  | GEMINI => "GEMINI_API_KEY"
  | GROQ => "GROQ_API_KEY"
  | CLAUDE => "ANTHROPIC_API_KEY"
  end.

(** The environment holds a key for the provider: the variable is set
    and is not empty. *)
Definition has_key (env : Environment) (p : ProviderType) : bool :=
  match getenv env (key_of p) with
  | None | Some [] => false
  | Some _ => true
  end.

(** The provider cannot be used by a selection whose trial requests to it
    would start as the [n]-th of the process: it has no key, or none of
    its models answers its trial request. *)
Definition unusable (env : Environment) (p : ProviderType) (n : nat) : Prop :=
  has_key env p = false \/
  forall i model, models_of p !! i = Some model -> probe env (n + i) p model = false.

(** The trial requests an attempt on a provider sends when it fails. *)
Definition spent (env : Environment) (p : ProviderType) : nat :=
  if has_key env p then length (models_of p) else 0.

Definition attempt (env : Environment) (p : ProviderType) : Sel Handle :=
  match p with
  | GEMINI => get_gemini_model env
  | GROQ => get_groq_client env
  | CLAUDE => get_claude_client env
  end.

Section Selection.
Variable env : Environment.

Definition after (w : World) (n : nat) : World :=
  {| trials := trials w + n; selections := selections w |}.

(** The loop over the models returns the first one that answers. *)
Lemma first_live_hit p models failure w i model :
  models !! i = Some model ->
  probe env (trials w + i) p model = true ->
  (forall j m, (j < i)%nat -> models !! j = Some m ->
               probe env (trials w + j) p m = false) ->
  first_live env p models failure w
  = (Returned {| model_name := model; provider := p |}, after w (S i)).
Proof.
  revert w i. induction models as [| m models IH]; intros w i Hi Hlive Hdead.
  - done.
  - cbn [first_live trial]. destruct i as [| i].
    + injection Hi as ->. rewrite Nat.add_0_r in Hlive. rewrite Hlive.
      unfold after. do 2 f_equal. lia.
    + rewrite <- (Nat.add_0_r (trials w)), (Hdead 0%nat m) by (done || lia).
      rewrite (IH {| trials := S (trials w + 0); selections := selections w |} i).
      * unfold after. cbn [trials selections]. do 2 f_equal. lia.
      * done.
      * cbn [trials]. by replace (S (trials w + 0) + i)%nat with (trials w + S i)%nat by lia.
      * intros j m' Hj Hm'. cbn [trials].
        replace (S (trials w + 0) + j)%nat with (trials w + S j)%nat by lia.
        apply Hdead; [lia | done].
Qed.

Lemma first_live_miss p models failure w :
  (forall i m, models !! i = Some m -> probe env (trials w + i) p m = false) ->
  first_live env p models failure w
  = (Raised (RuntimeError failure), after w (length models)).
Proof.
  revert w. induction models as [| m models IH]; intros w Hdead.
  - cbn [first_live length]. unfold after. rewrite Nat.add_0_r. by destruct w.
  - cbn [first_live trial].
    rewrite <- (Nat.add_0_r (trials w)), (Hdead 0%nat m) by done.
    rewrite IH.
    + unfold after. cbn [trials selections length]. do 2 f_equal. lia.
    + intros i m' Hm'. cbn [trials].
      replace (S (trials w + 0) + i)%nat with (trials w + S i)%nat by lia.
      by apply Hdead.
Qed.

(** How the loop ends: on the first model of the list that answers its
    trial request, or after a trial request to each model. *)
Lemma first_live_cases p models failure w :
  (exists i model,
     models !! i = Some model /\
     probe env (trials w + i) p model = true /\
     (forall j m, (j < i)%nat -> models !! j = Some m ->
                  probe env (trials w + j) p m = false) /\
     first_live env p models failure w
     = (Returned {| model_name := model; provider := p |}, after w (S i))) \/
  ((forall i m, models !! i = Some m -> probe env (trials w + i) p m = false) /\
   first_live env p models failure w
   = (Raised (RuntimeError failure), after w (length models))).
Proof.
  revert w. induction models as [| m models IH]; intros w.
  - right. split; [done |]. by apply first_live_miss.
  - destruct (probe env (trials w + 0) p m) eqn:Hm.
    + left. exists 0%nat, m. split_and!; [done | done | intros; lia |].
      apply first_live_hit; [done | done | intros; lia].
    + destruct (IH {| trials := S (trials w); selections := selections w |})
        as [(i & model & Hi & Hlive & Hmin & _) | [Hdead _]]; cbn [trials] in *.
      * left. exists (S i), model.
        assert (Hmin' : forall j m0, (j < S i)%nat -> (m :: models) !! j = Some m0 ->
                          probe env (trials w + j) p m0 = false).
        { intros [| j] m0 Hj Hm0; [by injection Hm0 as <- |].
          replace (trials w + S j)%nat with (S (trials w) + j)%nat by lia.
          apply Hmin; [lia | done]. }
        split_and!; [done | | done |].
        -- by replace (trials w + S i)%nat with (S (trials w) + i)%nat by lia.
        -- apply first_live_hit; [done | | done].
           by replace (trials w + S i)%nat with (S (trials w) + i)%nat by lia.
      * right.
        assert (Hall : forall i m0, (m :: models) !! i = Some m0 ->
                         probe env (trials w + i) p m0 = false).
        { intros [| i] m0 Hm0; [by injection Hm0 as <- |].
          replace (trials w + S i)%nat with (S (trials w) + i)%nat by lia.
          by apply Hdead. }
        split; [done |]. by apply first_live_miss.
Qed.

Lemma after_0 (w : World) : after w 0 = w.
Proof. unfold after. rewrite Nat.add_0_r. by destruct w. Qed.

(** An attempt on a provider: the check of the key, then the loop. *)
Lemma attempt_cases (p : ProviderType) (w : World) :
  (has_key env p = true /\
   exists i model,
     models_of p !! i = Some model /\
     probe env (trials w + i) p model = true /\
     (forall j m, (j < i)%nat -> models_of p !! j = Some m ->
                  probe env (trials w + j) p m = false) /\
     attempt env p w
     = (Returned {| model_name := model; provider := p |}, after w (S i))) \/
  (unusable env p (trials w) /\
   exists e, attempt env p w = (Raised e, after w (spent env p))).
Proof.
  assert (Hgen : forall missing failure,
    (has_key env p = true /\
     exists i model,
       models_of p !! i = Some model /\
       probe env (trials w + i) p model = true /\
       (forall j m, (j < i)%nat -> models_of p !! j = Some m ->
                    probe env (trials w + j) p m = false) /\
       with_key env (key_of p) missing (first_live env p (models_of p) failure) w
       = (Returned {| model_name := model; provider := p |}, after w (S i))) \/
    (unusable env p (trials w) /\
     exists e,
       with_key env (key_of p) missing (first_live env p (models_of p) failure) w
       = (Raised e, after w (spent env p)))).
  { intros missing failure. unfold with_key, unusable, spent, has_key.
    destruct (getenv env (key_of p)) as [[| c key] |].
    - right. split; [by left |]. eexists. by rewrite after_0.
    - destruct (first_live_cases p (models_of p) failure w)
        as [(i & model & Hi & Hlive & Hmin & Hrun) | [Hdead Hrun]].
      + left. split; [done |]. by exists i, model.
      + right. split; [by right |]. by eexists.
    - right. split; [by left |]. eexists. by rewrite after_0. }
  destruct p; apply Hgen.
Qed.

(** The world in which the attempts of a selection run. *)
Definition started (w : World) : World :=
  {| trials := trials w; selections := S (selections w) |}.

(** The providers [get_model] tries before a provider. *)
Definition before (p : ProviderType) : list ProviderType :=
  match p with
  | GROQ => []
  | GEMINI => [GROQ]
  | CLAUDE => [GROQ; GEMINI]
  end.

(** The number of the first trial request to a provider, in a
    selection that gets to it. *)
Definition start (w : World) (p : ProviderType) : nat :=
  trials w + sum_list (spent env <$> before p).

Lemma get_model_attempts (w : World) :
  get_model env w
  = or_else (attempt env GROQ)
      (or_else (attempt env GEMINI)
         (or_else (attempt env CLAUDE)
            (fun w => (Raised (RuntimeError "No AI models available"), w))))
      (started w).
Proof. reflexivity. Qed.

Lemma unusable_not_hit (p : ProviderType) (n i : nat) (model : pystr) :
  unusable env p n -> has_key env p = true ->
  models_of p !! i = Some model -> probe env (n + i) p model = true -> False.
Proof.
  intros [Hkey | Hdead] Hk Hi Hlive; [congruence |].
  rewrite (Hdead i model Hi) in Hlive. done.
Qed.

(** How a selection ends, attempt by attempt. *)
Lemma get_model_cases (w : World) :
  (exists p i model,
     has_key env p = true /\
     Forall (fun p' => unusable env p' (start w p')) (before p) /\
     models_of p !! i = Some model /\
     probe env (start w p + i) p model = true /\
     (forall j m, (j < i)%nat -> models_of p !! j = Some m ->
                  probe env (start w p + j) p m = false) /\
     get_model env w
     = (Returned {| model_name := model; provider := p |},
        {| trials := start w p + S i; selections := S (selections w) |})) \/
  (Forall (fun p => unusable env p (start w p)) [GROQ; GEMINI; CLAUDE] /\
   get_model env w
   = (Raised (RuntimeError "No AI models available"),
      {| trials := trials w + spent env GROQ + spent env GEMINI + spent env CLAUDE;
         selections := S (selections w) |})).
Proof.
  rewrite get_model_attempts. unfold or_else.
  assert (S0 : trials (started w) = start w GROQ)
    by (unfold start; simpl; lia).
  destruct (attempt_cases GROQ (started w))
    as [(Hk & i & model & Hi & Hlive & Hmin & ->) | (Hu1 & e1 & ->)];
    rewrite S0 in *.
  { left. exists GROQ, i, model.
    split_and!; [done | by constructor | done | done | done |].
    unfold after. by rewrite S0. }
  set (w1 := after (started w) (spent env GROQ)).
  assert (S1 : trials w1 = start w GEMINI)
    by (unfold start; simpl; lia).
  destruct (attempt_cases GEMINI w1)
    as [(Hk & i & model & Hi & Hlive & Hmin & ->) | (Hu2 & e2 & ->)];
    rewrite S1 in *.
  { left. exists GEMINI, i, model.
    split_and!; [done | by constructor; [| constructor] | done | done | done |].
    unfold after. by rewrite S1. }
  set (w2 := after w1 (spent env GEMINI)).
  assert (S2 : trials w2 = start w CLAUDE)
    by (unfold start; simpl; lia).
  destruct (attempt_cases CLAUDE w2)
    as [(Hk & i & model & Hi & Hlive & Hmin & ->) | (Hu3 & e3 & ->)];
    rewrite S2 in *.
  { left. exists CLAUDE, i, model.
    split_and!;
      [done | by constructor; [| constructor; [| constructor]] | done | done | done |].
    unfold after. by rewrite S2. }
  right. split; [by constructor; [| constructor; [| constructor; [| constructor]]] |].
  unfold after. rewrite S2. unfold start. simpl. do 2 f_equal. lia.
Qed.

(** X8.  The handle [get_model] returns names a provider with a key
    and the first model of its list to answer its trial request; that
    request is the last one the selection sent.  Every provider that
    comes before it in the order Groq, Gemini, Claude had no key, or
    got a trial request for each of its models and answered none. *)
Theorem get_model_returns_first_usable (w : World) (h : Handle) (w' : World) :
  get_model env w = (Returned h, w') ->
  has_key env (provider h) = true /\
  Forall (fun p => unusable env p (start w p)) (before (provider h)) /\
  exists i,
    models_of (provider h) !! i = Some (model_name h) /\
    probe env (start w (provider h) + i) (provider h) (model_name h) = true /\
    (forall j m, (j < i)%nat -> models_of (provider h) !! j = Some m ->
       probe env (start w (provider h) + j) (provider h) m = false) /\
    w' = {| trials := start w (provider h) + S i; selections := S (selections w) |}.
Proof.
  destruct (get_model_cases w)
    as [(p & i & model & Hk & Hbefore & Hi & Hlive & Hmin & ->) | [_ ->]];
    [| discriminate].
  intros [= <- <-]. cbn [provider model_name].
  split_and!; [done | done |]. by exists i.
Qed.

(** X9.  [get_model] raises exactly when no provider can be used: each
    of the three has no key, or none of its models answers.  What it
    raises is the [RuntimeError] "No AI models available", never the
    error of an attempt, and by then it has sent a trial request to
    each model of each provider that has a key, and to no other. *)
Theorem get_model_raises_iff_none_usable (w : World) :
  (Forall (fun p => unusable env p (start w p)) [GROQ; GEMINI; CLAUDE] <->
   exists e w', get_model env w = (Raised e, w')) /\
  (forall e w', get_model env w = (Raised e, w') ->
     e = RuntimeError "No AI models available" /\
     w' = {| trials := trials w + spent env GROQ + spent env GEMINI
                       + spent env CLAUDE;
             selections := S (selections w) |}).
Proof.
  destruct (get_model_cases w)
    as [(p & i & model & Hk & Hbefore & Hi & Hlive & Hmin & Hrun) | [Hall Hrun]];
    rewrite Hrun.
  - split.
    + split.
      * intros Hall. exfalso.
        assert (unusable env p (start w p)) as Hu.
        { rewrite Forall_forall in Hall. apply Hall.
          destruct p; rewrite !elem_of_cons; auto. }
        by apply (unusable_not_hit p (start w p) i model).
      * by intros (e & w' & ?).
    + by intros e w' ?.
  - split.
    + split; [by eexists _, _ | done].
    + by intros e w' [= <- <-].
Qed.

(** X10.  Groq comes first: when it has a key and one of its models
    answers its trial request, [get_model] returns Groq with the first
    such model of the list, and sends no request to Gemini or
    Claude. *)
Theorem get_model_prefers_groq (w : World) (i : nat) (model : pystr) :
  has_key env GROQ = true ->
  GROQ_MODELS !! i = Some model ->
  probe env (trials w + i) GROQ model = true ->
  (forall j m, (j < i)%nat -> GROQ_MODELS !! j = Some m ->
               probe env (trials w + j) GROQ m = false) ->
  get_model env w
  = (Returned {| model_name := model; provider := GROQ |},
     {| trials := trials w + S i; selections := S (selections w) |}).
Proof.
  intros Hk Hi Hlive Hmin.
  rewrite get_model_attempts. unfold or_else, attempt, get_groq_client, with_key.
  unfold has_key, key_of in Hk.
  destruct (getenv env "GROQ_API_KEY") as [[| c key] |]; try done.
  by rewrite (first_live_hit GROQ GROQ_MODELS _ (started w) i model).
Qed.

End Selection.

(** Only Claude has a key, and only its second model answers. *)
Definition claude_only : Environment :=
  {| getenv := fun name =>
       if String.eqb name "ANTHROPIC_API_KEY" then Some (py "sk-ant-1") else None;
     probe := fun _ _ model => PyStr.eqb model (py "claude-3-opus-20240229") |}.

Definition boot : World := {| trials := 0; selections := 0 |}.

Lemma get_model_returns_first_usable_witness :
  exists h w',
    get_model claude_only boot = (Returned h, w') /\
    provider h = CLAUDE /\
    has_key claude_only CLAUDE = true /\
    unusable claude_only GROQ 0 /\
    unusable claude_only GEMINI 0 /\
    trials w' = 2%nat.
Proof.
  eexists _, _. split; [vm_compute; reflexivity |].
  match goal with
  | |- provider ?h = _ /\ _ /\ _ /\ _ /\ trials ?w' = _ =>
      destruct (get_model_returns_first_usable claude_only boot h w' eq_refl)
        as (Hk & Hbefore & i & _ & _ & _ & Hw)
  end.
  cbn [provider] in *.
  apply Forall_cons in Hbefore as [Hgroq Hbefore].
  apply Forall_cons in Hbefore as [Hgemini _].
  split_and!; [done | exact Hk | exact Hgroq | exact Hgemini | done].
Defined.

(** Groq has a key; its first model is gone, its second one answers. *)
Definition groq_second : Environment :=
  {| getenv := fun name =>
       if String.eqb name "GROQ_API_KEY" then Some (py "gsk-1") else None;
     probe := fun _ p model =>
       match p with
       | GROQ => PyStr.eqb model (py "llama-3.1-8b-instant")
       | _ => true
       end |}.

Lemma get_model_prefers_groq_witness :
  get_model groq_second boot
  = (Returned {| model_name := py "llama-3.1-8b-instant"; provider := GROQ |},
     {| trials := 2; selections := 1 |}).
Proof.
  apply (get_model_prefers_groq groq_second boot 1 (py "llama-3.1-8b-instant")).
  - reflexivity.
  - reflexivity.
  - vm_compute. reflexivity.
  - intros [| j] m Hj Hm; [| lia]. injection Hm as <-. vm_compute. reflexivity.
Defined.

End PriorityFacts.

(** ** The article store over a sequence of calls *)

Module StoreFacts.

Import NewsDb PyStrFacts NewsDbFacts.

(** A row that is analysed: [bias IS NOT NULL]. *)
Definition processed (r : Row) : bool :=
  match bias r with Some _ => true | None => false end.

Definition total_of (db : Database) : Z := fst (fst (get_article_stats db)).
Definition processed_of (db : Database) : Z := snd (fst (get_article_stats db)).
Definition unique_of (db : Database) : Z := snd (get_article_stats db).

Lemma filter_sublist {A} (f : A -> bool) (l : list A) :
  List.filter f l `sublist_of` l.
Proof.
  induction l as [| x l IH]; simpl; [constructor |].
  destruct (f x); by constructor.
Qed.

Lemma filter_elem_of {A} (f : A -> bool) (l : list A) (x : A) :
  x ∈ List.filter f l <-> x ∈ l /\ f x = true.
Proof. rewrite !list_elem_of_In. apply filter_In. Qed.

Lemma filter_all {A} (f : A -> bool) (l : list A) :
  Forall (fun x => f x = true) l -> List.filter f l = l.
Proof.
  induction 1 as [| x l Hx _ IH]; simpl; [done |]. by rewrite Hx, IH.
Qed.

Lemma filter_none {A} (f : A -> bool) (l : list A) :
  Forall (fun x => f x = false) l -> List.filter f l = [].
Proof.
  induction 1 as [| x l Hx _ IH]; simpl; [done |]. by rewrite Hx, IH.
Qed.

Lemma remove_dups_NoDup `{EqDecision A} (l : list A) :
  NoDup l -> remove_dups l = l.
Proof.
  induction 1 as [| x l Hx _ IH]; simpl; [done |].
  destruct (decide_rel elem_of x l); [done |]. by rewrite IH.
Qed.

Lemma NoDup_fmap_eq {A B} (f : A -> B) (l : list A) (x y : A) :
  NoDup (f <$> l) -> x ∈ l -> y ∈ l -> f x = f y -> x = y.
Proof.
  induction l as [| a l IH]; intros Hnd Hx Hy Hf; [by apply elem_of_nil in Hx |].
  rewrite fmap_cons in Hnd. apply NoDup_cons in Hnd as [Ha Hnd].
  apply elem_of_cons in Hx as [-> | Hx]; apply elem_of_cons in Hy as [-> | Hy].
  - done.
  - destruct Ha. rewrite Hf. by apply list_elem_of_fmap_2.
  - destruct Ha. rewrite <- Hf. by apply list_elem_of_fmap_2.
  - by apply IH.
Qed.

Lemma processed_split (rows : list Row) :
  (length (List.filter processed rows) + length (List.filter unprocessed rows)
   = length rows)%nat.
Proof.
  rewrite <- (filter_length processed rows). do 2 f_equal.
  apply filter_ext_in. intros r _. unfold processed, unprocessed.
  by destruct (bias r).
Qed.

(** The rows a selection can return. *)
Lemma selected_rows_elem (limit : Z) (flag : bool) (db : Database) (r : Row) :
  r ∈ selected_rows limit flag db ->
  r ∈ data_news db /\ (flag = true -> bias r = None).
Proof.
  unfold selected_rows, sql_limit. intros Hr.
  assert (Hin : r ∈ order_by_created_at_desc
                      (if flag then List.filter unprocessed (data_news db)
                       else data_news db)).
  { destruct (limit <? 0); [done |]. by apply (subseteq_take (Z.to_nat limit)). }
  rewrite order_by_perm in Hin. destruct flag.
  - apply filter_elem_of in Hin as [Hin Hun]. split; [done |].
    intros _. unfold unprocessed in Hun. by destruct (bias r).
  - by split.
Qed.

(** Without a limit that bites, a selection returns every candidate. *)
Lemma selected_rows_all (limit : Z) (flag : bool) (db : Database) :
  limit < 0 \/ Z.of_nat (length (data_news db)) <= limit ->
  selected_rows limit flag db
  ≡ₚ (if flag then List.filter unprocessed (data_news db) else data_news db).
Proof.
  intros Hlimit. unfold selected_rows, sql_limit.
  change (fun r : Row => match bias r with None => true | Some _ => false end)
    with unprocessed.
  destruct (limit <? 0) eqn:Hneg; [apply order_by_perm |].
  apply Z.ltb_ge in Hneg.
  rewrite take_ge; [apply order_by_perm |].
  rewrite order_by_perm.
  destruct flag; [pose proof (filter_length_le unprocessed (data_news db)) |]; lia.
Qed.

(** *** Clearing *)

(** X11.  [clear_processed_articles] deletes the analysed rows and
    returns their number, the count of processed articles of
    [get_article_stats].  It keeps the rows not analysed, in their
    order, and the counter of row ids.  After it no article counts as
    processed, the articles pending are those pending before, clearing
    again deletes nothing, and both modes of [prepare_data_for_llm]
    select the same rows. *)
Theorem clear_processed_articles_spec (db : Database) :
  let deleted := fst (clear_processed_articles db) in
  let db' := snd (clear_processed_articles db) in
  deleted = processed_of db /\
  data_news db' = List.filter unprocessed (data_news db) /\
  Forall (fun r => r ∈ data_news db /\ bias r = None) (data_news db') /\
  sqlite_sequence db' = sqlite_sequence db /\
  total_of db' = total_of db - deleted /\
  processed_of db' = 0 /\
  clear_processed_articles db' = (0, db') /\
  (forall limit,
     prepare_data_for_llm limit true db' = prepare_data_for_llm limit true db /\
     prepare_data_for_llm limit false db' = prepare_data_for_llm limit true db').
Proof.
  intros deleted db'. subst deleted db'.
  unfold clear_processed_articles, total_of, processed_of, get_article_stats.
  cbn [fst snd data_news sqlite_sequence].
  change (fun r : Row => match bias r with Some _ => true | None => false end)
    with processed.
  change (fun r : Row => match bias r with Some _ => false | None => true end)
    with unprocessed.
  assert (Hkept : Forall (fun r => unprocessed r = true)
                    (List.filter unprocessed (data_news db))).
  { apply Forall_forall. intros r Hr. by apply filter_elem_of in Hr as [_ ?]. }
  assert (Hnone : List.filter processed (List.filter unprocessed (data_news db)) = []).
  { apply filter_none. eapply Forall_impl; [exact Hkept |].
    intros r. unfold processed, unprocessed. by destruct (bias r). }
  split_and!.
  - done.
  - done.
  - apply Forall_forall. intros r Hr. apply filter_elem_of in Hr as [Hin Hun].
    split; [done |]. unfold unprocessed in Hun. by destruct (bias r).
  - done.
  - pose proof (processed_split (data_news db)). lia.
  - by rewrite Hnone.
  - rewrite Hnone. by rewrite (filter_all _ _ Hkept).
  - intros limit. unfold prepare_data_for_llm, selected_rows. cbn [data_news].
    change (fun r : Row => match bias r with None => true | Some _ => false end)
      with unprocessed.
    by rewrite (filter_all _ _ Hkept).
Qed.

(** *** Keys *)

(** The keys of the table are in order: no two rows share an id or a
    content hash, and no id is above the counter. *)
Definition consistent (db : Database) : Prop :=
  NoDup (id <$> data_news db) /\
  NoDup (content_hash <$> data_news db) /\
  Forall (fun i => 0 < i <= sqlite_sequence db) (id <$> data_news db) /\
  0 <= sqlite_sequence db.

Lemma next_rowid_consistent (db : Database) :
  consistent db -> next_rowid db = sqlite_sequence db + 1.
Proof.
  intros (_ & _ & Hids & _). unfold next_rowid.
  induction Hids as [| i ids Hi _ IH]; simpl; lia.
Qed.

Lemma insert_consistent (db db' : Database) (article : TextDict) (h : pystr) (now : Z) :
  consistent db -> insert db article h now = Returned db' -> consistent db'.
Proof.
  intros Hc. pose proof (next_rowid_consistent db Hc) as Hnext.
  destruct Hc as (Hid & Hhash & Hids & Hseq).
  unfold insert.
  destruct (existsb _ _) eqn:Hex; [done |].
  apply existsb_hash_iff in Hex. intros [= <-].
  unfold consistent. cbn [data_news sqlite_sequence].
  rewrite !fmap_app. cbn [fmap list_fmap id content_hash]. rewrite Hnext.
  split_and!.
  - apply NoDup_app. split_and!; [done | | apply NoDup_singleton].
    intros i Hi. rewrite list_elem_of_singleton. intros ->.
    rewrite Forall_forall in Hids. specialize (Hids _ Hi). lia.
  - apply NoDup_app. split_and!; [done | | apply NoDup_singleton].
    intros x Hx. rewrite list_elem_of_singleton. intros ->. by apply Hex.
  - apply Forall_app. split.
    + eapply Forall_impl; [exact Hids |]. intros i Hi. simpl in Hi. lia.
    + apply Forall_singleton. lia.
  - lia.
Qed.

Section WithDigest.
Variable md5_hexdigest : pystr -> pystr.

Local Abbreviation digest := (_generate_content_hash md5_hexdigest).

Lemma add_news_loop_consistent (clock : nat -> Z) (data : list TextDict) :
  forall (k : nat) (db : Database) (added dups : Z),
    consistent db ->
    consistent (fst (fst (add_news_loop md5_hexdigest clock k data db added dups))).
Proof.
  induction data as [| article rest IH]; intros k db added dups Hc; [done |].
  cbn [add_news_loop].
  destruct (select_id_by_hash db (digest article)); [by apply IH |].
  destruct (insert db article (digest article) (clock k)) as [db' | e] eqn:Hins.
  - apply IH. by eapply insert_consistent.
  - by apply IH.
Qed.

Lemma add_news_consistent (clock : nat -> Z) (db : Database) (data : list TextDict) :
  consistent db -> consistent (snd (add_news md5_hexdigest clock db data)).
Proof.
  intros Hc. unfold add_news.
  pose proof (add_news_loop_consistent clock data 0 db 0 0 Hc) as H.
  by destruct (add_news_loop md5_hexdigest clock 0 data db 0 0) as [[db' a] d].
Qed.

Lemma add_bias_consistent (llm_data : list TextDict) (db : Database) :
  consistent db -> consistent (snd (add_bias llm_data db)).
Proof.
  intros Hc. unfold add_bias.
  destruct (add_bias_loop llm_data (data_news db)) as [rows | e] eqn:Hloop;
    [| by destruct e].
  apply add_bias_loop_frame in Hloop.
  assert (Hid : id <$> rows = id <$> data_news db).
  { change id with ((fun t => t.1.1.1.1.1.1.1.1) ∘ frame).
    by rewrite !list_fmap_compose, Hloop. }
  assert (Hhash : content_hash <$> rows = content_hash <$> data_news db).
  { change content_hash with ((fun t => t.1.2) ∘ frame).
    by rewrite !list_fmap_compose, Hloop. }
  unfold consistent. cbn [snd data_news sqlite_sequence].
  by rewrite Hid, Hhash.
Qed.

Lemma clear_consistent (db : Database) :
  consistent db -> consistent (snd (clear_processed_articles db)).
Proof.
  intros (Hid & Hhash & Hids & Hseq).
  unfold consistent, clear_processed_articles. cbn [snd data_news sqlite_sequence].
  pose proof (filter_sublist
                (fun r => match bias r with Some _ => false | None => true end)
                (data_news db)) as Hsub.
  split_and!.
  - eapply sublist_NoDup; [exact Hid |]. by apply fmap_sublist.
  - eapply sublist_NoDup; [exact Hhash |]. by apply fmap_sublist.
  - apply Forall_forall. intros i Hi. rewrite Forall_forall in Hids. apply Hids.
    eapply sublist_subseteq; [| exact Hi]. by apply fmap_sublist.
  - done.
Qed.

(** The databases reached from the empty table that
    [get_connection_to_news_db] creates, by calls of [add_news],
    [add_bias] and [clear_processed_articles]. *)
Inductive reachable : Database -> Prop :=
| reachable_created :
    reachable (get_connection_to_news_db None)
| reachable_add_news clock db data :
    reachable db -> reachable (snd (add_news md5_hexdigest clock db data))
| reachable_add_bias llm_data db :
    reachable db -> reachable (snd (add_bias llm_data db))
| reachable_clear db :
    reachable db -> reachable (snd (clear_processed_articles db)).

(** The rows [add_news] adds get ids above the counter. *)
Lemma add_news_loop_new_ids (clock : nat -> Z) (data : list TextDict) :
  forall (k : nat) (db : Database) (added dups : Z),
    consistent db ->
    let db' := fst (fst (add_news_loop md5_hexdigest clock k data db added dups)) in
    sqlite_sequence db <= sqlite_sequence db' /\
    forall r, r ∈ data_news db' -> r ∈ data_news db \/ sqlite_sequence db < id r.
Proof.
  induction data as [| article rest IH]; intros k db added dups Hc.
  - simpl. split; [lia | by left].
  - cbn [add_news_loop].
    destruct (select_id_by_hash db (digest article)); [by apply IH |].
    destruct (insert db article (digest article) (clock k)) as [db1 | e] eqn:Hins;
      [| by apply IH].
    pose proof (insert_consistent _ _ _ _ _ Hc Hins) as Hc1.
    pose proof (next_rowid_consistent db Hc) as Hnext.
    destruct (IH (S k) db1 (added + 1) dups Hc1) as [Hseq Hrows].
    unfold insert in Hins. destruct (existsb _ _); [done |].
    injection Hins as <-. cbn [sqlite_sequence data_news] in *.
    split; [lia |].
    intros r Hr. destruct (Hrows r Hr) as [Hold | Hnew]; [| right; lia].
    apply elem_of_app in Hold as [Hold | Hone]; [by left |].
    apply list_elem_of_singleton in Hone as ->. right. cbn [id]. lia.
Qed.

Lemma reachable_consistent (db : Database) : reachable db -> consistent db.
Proof.
  induction 1.
  - unfold consistent. simpl. split_and!; [constructor .. | lia].
  - by apply add_news_consistent.
  - by apply add_bias_consistent.
  - by apply clear_consistent.
Qed.

(** X12.  In every database reached from the empty table by calls of
    [add_news], [add_bias] and [clear_processed_articles], no two rows
    share an id or a content hash, and every id is positive and at
    most the counter of row ids.  [get_article_stats] finds as many distinct
    contents as rows, and no more processed articles than rows.
    [add_news] never lowers the counter and gives the rows it adds
    ids above it: with the counter kept by a deletion, an id deleted
    is not given out again. *)
Theorem reachable_keys_unique (db : Database) :
  reachable db ->
  consistent db /\
  unique_of db = total_of db /\
  0 <= processed_of db <= total_of db /\
  (forall clock data,
     let db' := snd (add_news md5_hexdigest clock db data) in
     sqlite_sequence db <= sqlite_sequence db' /\
     forall r, r ∈ data_news db' -> r ∈ data_news db \/ sqlite_sequence db < id r).
Proof.
  intros Hreach.
  pose proof (reachable_consistent db Hreach) as Hc.
  split; [done |].
  unfold unique_of, total_of, processed_of, get_article_stats. cbn [fst snd].
  split_and!.
  - destruct Hc as (_ & Hhash & _).
    by rewrite (remove_dups_NoDup _ Hhash), length_fmap.
  - lia.
  - pose proof (filter_length_le
                  (fun r => match bias r with Some _ => true | None => false end)
                  (data_news db)). lia.
  - intros clock data. unfold add_news.
    pose proof (add_news_loop_new_ids clock data 0 db 0 0 Hc) as H.
    by destruct (add_news_loop md5_hexdigest clock 0 data db 0 0) as [[db' a] d].
Qed.

(** *** Counting and selecting *)

(** X13.  With no limit, or a limit of at least the number of rows,
    [prepare_data_for_llm] returns as many articles as
    [get_article_stats] counts: the total less the processed ones
    when asked for the articles not analysed, the total otherwise. *)
Theorem prepare_data_for_llm_counts (limit : Z) (db : Database) :
  fits_int64 limit = true ->
  limit < 0 \/ total_of db <= limit ->
  exists pending every,
    prepare_data_for_llm limit true db = Returned pending /\
    prepare_data_for_llm limit false db = Returned every /\
    Z.of_nat (length pending) = total_of db - processed_of db /\
    Z.of_nat (length every) = total_of db.
Proof.
  intros Hfits Hlimit. unfold prepare_data_for_llm. rewrite Hfits.
  eexists _, _. split_and!; [done | done | |].
  - rewrite length_fmap, (selected_rows_all limit true db Hlimit).
    unfold total_of, processed_of, get_article_stats. cbn [fst snd].
    pose proof (processed_split (data_news db)).
    change (fun r : Row => match bias r with Some _ => true | None => false end)
      with processed.
    lia.
  - by rewrite length_fmap, (selected_rows_all limit false db Hlimit).
Qed.

Lemma row_after_title (llm_data : list TextDict) (r : Row) :
  title (row_after llm_data r) = title r.
Proof. unfold row_after. by destruct (written _ _) as [[? ?] |]. Qed.

(** X14.  What [add_bias] has written is no longer pending: after it
    has stored results that hold their three keys, no article that
    [prepare_data_for_llm] returns as not analysed has the title of
    one of the results. *)
Theorem add_bias_clears_pending (limit : Z) (llm_data : list TextDict)
    (db : Database) :
  Forall well_formed llm_data ->
  fits_int64 limit = true ->
  exists articles,
    prepare_data_for_llm limit true (snd (add_bias llm_data db)) = Returned articles /\
    forall a d, a ∈ articles -> d ∈ llm_data -> a !! "title" <> d !! "title".
Proof.
  intros Hwf Hfits. unfold prepare_data_for_llm. rewrite Hfits.
  eexists. split; [done |].
  intros a d Ha Hd Heq.
  apply list_elem_of_fmap in Ha as (r' & -> & Hr').
  apply selected_rows_elem in Hr' as [Hin Hbias]. specialize (Hbias eq_refl).
  unfold add_bias in Hin. rewrite (add_bias_loop_written _ _ Hwf) in Hin.
  cbn [snd data_news] in Hin.
  apply list_elem_of_fmap in Hin as (r & -> & Hr).
  unfold to_article in Heq. rewrite lookup_insert in Heq.
  rewrite row_after_title in Heq.
  destruct (written_some llm_data (title r) d Hd (eq_sym Heq)) as [[b rw] Hw].
  unfold row_after in Hbias. by rewrite Hw in Hbias.
Qed.

(** The row of a new content is the row of the first article of the
    batch that has this content: the articles after it are
    duplicates. *)
Lemma add_news_loop_first (clock : nat -> Z) (data : list TextDict)
    (article : TextDict) :
  article ∈ data ->
  forall (k : nat) (db : Database) (added dups : Z),
    digest article ∉ hashes db ->
    exists (i : nat) (first : TextDict) (r : Row),
      data !! i = Some first /\
      digest first = digest article /\
      (forall j a, (j < i)%nat -> data !! j = Some a -> digest a <> digest article) /\
      r ∈ data_news (add_news_loop md5_hexdigest clock k data db added dups).1.1 /\
      bias r = None /\
      content_hash r = digest article /\
      title r = get first "title" [] /\
      body r = get first "body" [].
Proof.
  induction data as [| head rest IH]; intros Hin k db added dups Hfresh.
  - by apply elem_of_nil in Hin.
  - cbn [add_news_loop].
    destruct (decide (digest head = digest article)) as [Hsame | Hother].
    + (* the first article with this content: it is inserted *)
      assert (Hnone : select_id_by_hash db (digest head) = None)
        by (apply select_none_iff; by rewrite Hsame).
      rewrite Hnone.
      rewrite (insert_fresh db head (digest head) (clock k))
        by (by rewrite Hsame).
      set (row := new_row db head (digest head) (clock k)).
      set (db1 := {| data_news := data_news db ++ [row];
                     sqlite_sequence := next_rowid db |}).
      destruct (add_news_loop_spec md5_hexdigest clock rest (S k) db1 (added + 1) dups)
        as (new_rows & seq & -> & _).
      exists 0%nat, head, row. cbn [fst data_news]. split_and!; try done.
      * intros j a Hj. lia.
      * subst db1. cbn [data_news]. rewrite !elem_of_app.
        left. right. by left.
    + (* another content: the article is further on *)
      apply elem_of_cons in Hin as [-> | Hin]; [done |].
      assert (Hnext : forall db1 added1 dups1,
                digest article ∉ hashes db1 ->
                exists (i : nat) (first : TextDict) (r : Row),
                  (head :: rest) !! i = Some first /\
                  digest first = digest article /\
                  (forall j a, (j < i)%nat -> (head :: rest) !! j = Some a ->
                               digest a <> digest article) /\
                  r ∈ data_news
                        (add_news_loop md5_hexdigest clock (S k) rest db1
                           added1 dups1).1.1 /\
                  bias r = None /\
                  content_hash r = digest article /\
                  title r = get first "title" [] /\
                  body r = get first "body" []).
      { intros db1 added1 dups1 Hfresh1.
        destruct (IH Hin (S k) db1 added1 dups1 Hfresh1)
          as (i & first & r & Hi & Hd & Hbefore & Hr & Hb & Hh & Ht & Hbo).
        exists (S i), first, r. split_and!; try done.
        intros [| j] a Hj Ha.
        - cbn in Ha. by injection Ha as <-.
        - apply (Hbefore j a); [lia | done]. }
      destruct (select_id_by_hash db (digest head)) as [existing |] eqn:Hsel.
      * by apply Hnext.
      * apply select_none_iff in Hsel.
        rewrite (insert_fresh db head (digest head) (clock k) Hsel).
        apply Hnext. unfold hashes. cbn [data_news].
        rewrite fmap_app, elem_of_app. intros [Hold | Hnew]; [done |].
        apply list_elem_of_singleton in Hnew. cbn in Hnew. congruence.
Qed.

(** X15.  What [add_news] has stored is pending: an article of the
    batch whose digest was not stored is, after the call, among the
    articles [prepare_data_for_llm] returns as not analysed when the
    limit does not bite, with the title and the body of the first
    article of the batch with that digest: no article before that one
    in the batch has the digest. *)
Theorem add_news_makes_pending (clock : nat -> Z) (db : Database)
    (data : list TextDict) (article : TextDict) (limit : Z) :
  article ∈ data ->
  digest article ∉ hashes db ->
  fits_int64 limit = true ->
  limit < 0 \/ total_of (snd (add_news md5_hexdigest clock db data)) <= limit ->
  exists (articles : list TextDict) (i : nat) (stored : TextDict),
    prepare_data_for_llm limit true (snd (add_news md5_hexdigest clock db data))
      = Returned articles /\
    data !! i = Some stored /\
    digest stored = digest article /\
    (forall j earlier, (j < i)%nat -> data !! j = Some earlier ->
       digest earlier <> digest article) /\
    <["title" := get stored "title" []]> (<["body" := get stored "body" []]> ∅)
      ∈ articles.
Proof.
  intros Hin Hfresh Hfits Hlimit.
  unfold prepare_data_for_llm. rewrite Hfits.
  pose proof (selected_rows_all limit true _ Hlimit) as Hall.
  destruct (add_news_loop_first clock data article Hin 0 db 0 0 Hfresh)
    as (i & stored & r & Hi & Hd & Hbefore & Hr & Hbias & _ & Htitle & Hbody).
  revert Hall Hr. unfold add_news.
  destruct (add_news_loop md5_hexdigest clock 0 data db 0 0) as [[db' n] m].
  cbn [snd fst]. intros Hall Hr.
  eexists _, i, stored. split_and!; [done | done | done | done |].
  apply list_elem_of_fmap. exists r. split.
  - unfold to_article. by rewrite Htitle, Hbody.
  - rewrite Hall. apply filter_elem_of. split; [done |].
    unfold unprocessed. by rewrite Hbias.
Qed.

Lemma add_news_one (clock : nat -> Z) (db : Database) (article : TextDict) :
  fst (add_news md5_hexdigest clock db [article])
  = if bool_decide (digest article ∈ hashes db) then 0 else 1.
Proof.
  unfold add_news. cbn [add_news_loop].
  destruct (select_id_by_hash db (digest article)) as [existing |] eqn:Hsel.
  - rewrite bool_decide_eq_true_2; [done |].
    destruct (decide (digest article ∈ hashes db)) as [| Hno]; [done |].
    apply select_none_iff in Hno. congruence.
  - apply select_none_iff in Hsel.
    rewrite bool_decide_eq_false_2 by done.
    by rewrite (insert_fresh db article _ (clock 0%nat) Hsel).
Qed.

(** X16.  Clearing forgets what was analysed: an article whose row is
    stored and analysed is a duplicate for [add_news], and is new
    again once [clear_processed_articles] has run, so that the
    pipeline, which clears before it fetches, stores it and has it
    analysed once more. *)
Theorem clear_forgets_analysed (clock : nat -> Z) (db : Database)
    (article : TextDict) (r : Row) :
  reachable db ->
  r ∈ data_news db -> content_hash r = digest article -> processed r = true ->
  fst (add_news md5_hexdigest clock db [article]) = 0 /\
  fst (add_news md5_hexdigest clock (snd (clear_processed_articles db)) [article]) = 1.
Proof.
  intros Hreach Hr Hhash Hproc.
  destruct (reachable_consistent db Hreach) as (_ & Hnodup & _).
  rewrite !add_news_one. split.
  - rewrite bool_decide_eq_true_2; [done |].
    unfold hashes. apply list_elem_of_fmap. by exists r.
  - rewrite bool_decide_eq_false_2; [done |].
    unfold hashes, clear_processed_articles. cbn [snd data_news].
    intros Hin. apply list_elem_of_fmap in Hin as (r' & Hh' & Hr').
    apply filter_elem_of in Hr' as [Hr' Hun].
    assert (r' = r) as ->.
    { apply (NoDup_fmap_eq content_hash (data_news db)); try done. congruence. }
    unfold processed in Hproc. by destruct (bias r).
Qed.

(** X17.  The digest is taken of the title followed by the body, with
    nothing between them.  Two articles that differ only in where the
    title ends and the body begins are one content: of the two,
    [add_news] stores the first at most, and counts the second as a
    duplicate. *)
Theorem add_news_title_body_boundary (clock : nat -> Z) (db : Database)
    (first second : TextDict) :
  get first "title" [] ++ get first "body" []
    = get second "title" [] ++ get second "body" [] ->
  fst (add_news md5_hexdigest clock db [first; second])
    = fst (add_news md5_hexdigest clock db [first]) /\
  data_news (snd (add_news md5_hexdigest clock db [first; second]))
    = data_news (snd (add_news md5_hexdigest clock db [first])).
Proof.
  intros Hsame.
  assert (Hd : digest second = digest first).
  { unfold _generate_content_hash. by rewrite Hsame. }
  unfold add_news. cbn [add_news_loop]. rewrite Hd.
  destruct (select_id_by_hash db (digest first)) as [existing |] eqn:Hsel.
  - done.
  - apply select_none_iff in Hsel.
    rewrite (insert_fresh db first _ (clock 0%nat) Hsel).
    set (db1 := {| data_news := _; sqlite_sequence := _ |}).
    assert (Hin : digest first ∈ hashes db1).
    { unfold hashes, db1. cbn [data_news]. rewrite fmap_app.
      apply elem_of_app. right. cbn. by left. }
    destruct (select_id_by_hash db1 (digest first)) as [existing |] eqn:Hsel1;
      [done |].
    apply select_none_iff in Hsel1. done.
Qed.

End WithDigest.

(** A store with one analysed article and one that is pending. *)
Definition flood : TextDict :=
  <["title" := py "Flood warning"]> (<["body" := py "The river rose overnight."]> ∅).
Definition strike : TextDict :=
  <["title" := py "Strike ends"]> (<["body" := py "The drivers went back to work."]> ∅).
Definition flood_result : TextDict :=
  <["title" := py "Flood warning"]>
    (<["bias" := py "{'overall_bias_score': 10}"]>
       (<["rewritten_article" := py "The river rose overnight."]> ∅)).

(** The content itself stands for its digest. *)
Definition content_as_digest (content : pystr) : pystr := content.

Definition seconds (k : nat) : Z := 1000 + Z.of_nat k.

Definition stored : Database :=
  snd (add_news content_as_digest seconds (get_connection_to_news_db None)
         [flood; strike]).

Definition analysed : Database := snd (add_bias [flood_result] stored).

Lemma reachable_analysed : reachable content_as_digest analysed.
Proof. apply reachable_add_bias, reachable_add_news, reachable_created. Qed.

Lemma reachable_keys_unique_witness :
  consistent analysed /\
  unique_of analysed = 2 /\ total_of analysed = 2 /\ processed_of analysed = 1.
Proof.
  destruct (reachable_keys_unique content_as_digest analysed)
    as (Hc & Hu & _).
  - apply reachable_analysed.
  - split; [exact Hc |]. split; [| by vm_compute].
    rewrite Hu. by vm_compute.
Defined.

Lemma prepare_data_for_llm_counts_witness :
  exists pending every,
    prepare_data_for_llm 5 true analysed = Returned pending /\
    prepare_data_for_llm 5 false analysed = Returned every /\
    length pending = 1%nat /\ length every = 2%nat.
Proof.
  destruct (prepare_data_for_llm_counts 5 analysed) as (p & e & Hp & He & Hlp & Hle).
  - reflexivity.
  - right. vm_compute. discriminate.
  - exists p, e. split_and!; [exact Hp | exact He | |].
    + apply Nat2Z.inj. rewrite Hlp. by vm_compute.
    + apply Nat2Z.inj. rewrite Hle. by vm_compute.
Defined.

Lemma add_bias_clears_pending_witness :
  exists articles,
    prepare_data_for_llm 5 true (snd (add_bias [flood_result] stored))
      = Returned articles /\
    forall a, a ∈ articles -> a !! "title" <> Some (py "Flood warning").
Proof.
  destruct (add_bias_clears_pending 5 [flood_result] stored) as (articles & Hrun & Hno).
  - repeat constructor; by eexists.
  - reflexivity.
  - exists articles. split; [exact Hrun |].
    intros a Ha. apply (Hno a flood_result Ha). by left.
Defined.

Lemma add_news_makes_pending_witness :
  exists articles,
    prepare_data_for_llm 5 true stored = Returned articles /\
    strike ∈ articles.
Proof.
  destruct (add_news_makes_pending content_as_digest seconds
              (get_connection_to_news_db None) [flood; strike] strike 5)
    as (articles & i & first & Hrun & Hi & Hd & _ & Hthere).
  - right. by left.
  - apply not_elem_of_nil.
  - reflexivity.
  - right. vm_compute. discriminate.
  - exists articles. split; [exact Hrun |].
    destruct i as [| [| i]]; cbn in Hi; [| | done].
    + injection Hi as <-. vm_compute in Hd. discriminate.
    + injection Hi as <-. exact Hthere.
Defined.

Definition flood_row : Row :=
  {| id := 1; title := py "Flood warning"; source := []; date := []; url := [];
     body := py "The river rose overnight."; category := [];
     bias := Some (py "{'overall_bias_score': 10}");
     rewritten_article := Some (py "The river rose overnight.");
     content_hash := py "Flood warningThe river rose overnight.";
     created_at := 1000 |}.

Lemma clear_forgets_analysed_witness :
  fst (add_news content_as_digest seconds analysed [flood]) = 0 /\
  fst (add_news content_as_digest seconds
         (snd (clear_processed_articles analysed)) [flood]) = 1.
Proof.
  apply (clear_forgets_analysed content_as_digest seconds analysed flood flood_row).
  - apply reachable_analysed.
  - vm_compute. by left.
  - reflexivity.
  - reflexivity.
Defined.

(** Two articles with one content, cut at different places. *)
Definition cut_early : TextDict :=
  <["title" := py "Storm"]> (<["body" := py " hits the coast"]> ∅).
Definition cut_late : TextDict :=
  <["title" := py "Storm hits"]> (<["body" := py " the coast"]> ∅).

Lemma add_news_title_body_boundary_witness :
  fst (add_news content_as_digest seconds (get_connection_to_news_db None)
         [cut_early; cut_late]) = 1 /\
  length (data_news (snd (add_news content_as_digest seconds
                            (get_connection_to_news_db None)
                            [cut_early; cut_late]))) = 1%nat.
Proof.
  destruct (add_news_title_body_boundary content_as_digest seconds
              (get_connection_to_news_db None) cut_early cut_late) as [Hcount Hrows].
  - reflexivity.
  - rewrite Hcount, Hrows. split; by vm_compute.
Defined.

End StoreFacts.

(** ** From the results of a batch to the store *)

Module PipelineFacts.

Import Detector Orchestrator NewsDb Main.
Import PyStrFacts NewsDbFacts StoreFacts AgentFacts.

(** A result [_format_results_for_db] stores: its analysis is true as a
    condition and its rewrite is not empty. *)
Definition storable (r : AnalysisResult) : bool :=
  truthy (analysis r)
  && match neutral_version r with [] => false | _ => true end.

Section WithStr.
Variable py_str : PyVal -> pystr.

(** The record stored for a result under a title. *)
Definition record (original_title : pystr) (r : AnalysisResult) : TextDict :=
  <["title" := original_title]>
    (<["bias" := py_str (analysis r)]>
       (<["rewritten_article" := neutral_version r]> ∅)).

(** The records come from the results that are storable, each under
    the title at its position. *)
Definition from_results (i : nat) (results : list Slot) (articles : list TextDict)
    (d : TextDict) : Prop :=
  exists j r t,
    results !! j = Some (Result r) /\ storable r = true /\
    title_at articles (i + j) = Returned t /\ d = record t r.

Lemma record_well_formed (t : pystr) (r : AnalysisResult) : well_formed (record t r).
Proof. unfold well_formed, record. split_and!; by eexists. Qed.

Lemma format_loop_returned (results : list Slot) (articles : list TextDict) :
  forall (i : nat) (acc out : list TextDict),
    format_loop py_str i results articles acc = Returned out ->
    exists new,
      out = acc ++ new /\ (length new <= length results)%nat /\
      forall d, d ∈ new <-> from_results i results articles d.
Proof.
  induction results as [| [r | err] results IH]; intros i acc out; cbn [format_loop].
  - intros [= <-]. exists []. rewrite app_nil_r. split_and!; [done | done |].
    intros d. split; [by intros ?%elem_of_nil | by intros (j & r & t & ? & _)].
  - destruct (title_at articles i) as [t |] eqn:Ht; [| done]. cbn [obind].
    destruct (truthy (analysis r)) eqn:Htruthy; cbn [negb orb].
    + destruct (neutral_version r) as [| c text] eqn:Htext.
      * intros Hloop. destruct (IH _ _ _ Hloop) as (new & -> & Hlen & Hnew).
        exists new. split_and!; [done | simpl; lia |].
        intros d. rewrite Hnew. split.
        -- intros (j & r' & t' & Hj & Hs & Ht' & ->).
           exists (S j), r', t'. rewrite Nat.add_succ_r. by split_and!.
        -- intros ([| j] & r' & t' & Hj & Hs & Ht' & ->).
           ++ injection Hj as <-. unfold storable in Hs.
              rewrite Htext, andb_false_r in Hs. done.
           ++ exists j, r', t'. rewrite Nat.add_succ_r in Ht'. by split_and!.
      * intros Hloop. destruct (IH _ _ _ Hloop) as (new & -> & Hlen & Hnew).
        exists (record t r :: new). split_and!.
        -- rewrite <- app_assoc. f_equal. simpl. f_equal.
           unfold record. by rewrite Htext.
        -- simpl. lia.
        -- intros d. rewrite elem_of_cons, Hnew. split.
           ++ intros [-> | (j & r' & t' & Hj & Hs & Ht' & ->)].
              ** exists 0%nat, r, t. rewrite Nat.add_0_r. split_and!; try done.
                 unfold storable. by rewrite Htruthy, Htext.
              ** exists (S j), r', t'. rewrite Nat.add_succ_r. by split_and!.
           ++ intros ([| j] & r' & t' & Hj & Hs & Ht' & ->).
              ** injection Hj as <-. rewrite Nat.add_0_r in Ht'.
                 left. congruence.
              ** right. exists j, r', t'. rewrite Nat.add_succ_r in Ht'.
                 by split_and!.
    + intros Hloop. destruct (IH _ _ _ Hloop) as (new & -> & Hlen & Hnew).
      exists new. split_and!; [done | simpl; lia |].
      intros d. rewrite Hnew. split.
      * intros (j & r' & t' & Hj & Hs & Ht' & ->).
        exists (S j), r', t'. rewrite Nat.add_succ_r. by split_and!.
      * intros ([| j] & r' & t' & Hj & Hs & Ht' & ->).
        -- injection Hj as <-. unfold storable in Hs.
           rewrite Htruthy in Hs. done.
        -- exists j, r', t'. rewrite Nat.add_succ_r in Ht'. by split_and!.
  - intros Hloop. destruct (IH _ _ _ Hloop) as (new & -> & Hlen & Hnew).
    exists new. split_and!; [done | simpl; lia |].
    intros d. rewrite Hnew. split.
    + intros (j & r' & t' & Hj & Hs & Ht' & ->).
      exists (S j), r', t'. rewrite Nat.add_succ_r. by split_and!.
    + intros ([| j] & r' & t' & Hj & Hs & Ht' & ->); [done |].
      exists j, r', t'. rewrite Nat.add_succ_r in Ht'. by split_and!.
Qed.

Lemma title_at_cases (articles : list TextDict) (i : nat) :
  (exists t, title_at articles i = Returned t) \/
  title_at articles i = Raised KeyError.
Proof.
  unfold title_at, item.
  destruct (articles !! i) as [a |]; [| by left; eexists].
  destruct (a !! "title"); [by left; eexists | by right].
Qed.

Lemma format_loop_raised (results : list Slot) (articles : list TextDict) :
  forall (i : nat) (acc : list TextDict) (e : exn),
    format_loop py_str i results articles acc = Raised e -> e = KeyError.
Proof.
  induction results as [| [r | err] results IH]; intros i acc e; cbn [format_loop].
  - done.
  - destruct (title_at_cases articles i) as [[t ->] | ->]; cbn [obind].
    + destruct (_ || _); apply IH.
    + by intros [= <-].
  - apply IH.
Qed.

Lemma format_loop_total (results : list Slot) (articles : list TextDict) :
  Forall (fun a => is_Some (a !! "title")) articles ->
  forall (i : nat) (acc : list TextDict),
    exists out, format_loop py_str i results articles acc = Returned out.
Proof.
  intros Htitles.
  induction results as [| [r | err] results IH]; intros i acc; cbn [format_loop].
  - by eexists.
  - assert (exists t, title_at articles i = Returned t) as [t ->].
    { unfold title_at, item. destruct (articles !! i) as [a |] eqn:Ha; [| by eexists].
      rewrite Forall_forall in Htitles.
      destruct (Htitles a) as [t ->]; [by eapply list_elem_of_lookup_2 | by eexists]. }
    cbn [obind]. destruct (_ || _); apply IH.
  - apply IH.
Qed.

Lemma add_bias_well_formed (records : list TextDict) (db : Database) :
  Forall well_formed records ->
  add_bias records db
  = (Returned tt, {| data_news := row_after records <$> data_news db;
                     sqlite_sequence := sqlite_sequence db |}).
Proof. intros Hwf. unfold add_bias. by rewrite (add_bias_loop_written _ _ Hwf). Qed.

(** X18.  [_format_results_for_db] pairs the results with the articles
    by position.  It makes one record for each result that is no error
    record and has an analysis that is not empty and a rewrite that is
    not empty, under the title of the article at the position of the
    result, and no other record; the analysis is stored as the text
    [str] gives for it.  Every record has the three keys [add_bias]
    reads, so that [add_bias] takes the list without raising.  The
    function returns when every article has a title, and raises
    nothing but [KeyError]. *)
Theorem format_results_for_db_sound (results : list Slot) (articles : list TextDict) :
  (Forall (fun a => is_Some (a !! "title")) articles ->
     exists records, _format_results_for_db py_str results articles = Returned records) /\
  (forall records,
     _format_results_for_db py_str results articles = Returned records ->
     (length records <= length results)%nat /\
     (forall d, d ∈ records <->
        exists i r t,
          results !! i = Some (Result r) /\ storable r = true /\
          title_at articles i = Returned t /\ d = record t r) /\
     Forall well_formed records /\
     (forall db, fst (add_bias records db) = Returned tt)) /\
  (forall e, _format_results_for_db py_str results articles = Raised e -> e = KeyError).
Proof.
  unfold _format_results_for_db. split_and!.
  - intros Htitles. by apply format_loop_total.
  - intros records Hrun.
    destruct (format_loop_returned _ _ _ _ _ Hrun) as (new & -> & Hlen & Hnew).
    cbn [app] in *.
    assert (Hwf : Forall well_formed new).
    { apply Forall_forall. intros d Hd. apply Hnew in Hd as (j & r & t & _ & _ & _ & ->).
      apply record_well_formed. }
    split_and!; [done | exact Hnew | done |].
    intros db. by rewrite add_bias_well_formed.
  - apply format_loop_raised.
Qed.

(** *** A run of the pipeline *)

(** No row of the table is analysed. *)
Definition unanalysed (db : Database) : Prop :=
  Forall (fun row => bias row = None) (data_news db).

Lemma clear_unanalysed (db : Database) :
  unanalysed (snd (clear_processed_articles db)).
Proof.
  unfold unanalysed, clear_processed_articles. cbn [snd data_news].
  apply Forall_forall. intros row Hrow.
  apply filter_elem_of in Hrow as [_ Hun]. by destruct (bias row).
Qed.

Lemma add_news_unanalysed md5_hexdigest clock (db : Database) (data : list TextDict) :
  unanalysed db -> unanalysed (snd (add_news md5_hexdigest clock db data)).
Proof.
  unfold unanalysed, add_news. intros Hdb.
  destruct (add_news_loop_spec md5_hexdigest clock data 0 db 0 0)
    as (new_rows & seq & -> & Hnew & _).
  cbn [snd data_news]. apply Forall_app. split; [done |].
  eapply Forall_impl; [exact Hnew |]. by intros row (_ & ? & _).
Qed.

Lemma written_elem (llm_data : list TextDict) (key b rw : pystr) :
  written llm_data key = Some (b, rw) ->
  exists d, d ∈ llm_data /\ d !! "title" = Some key /\
            b = get d "bias" [] /\ rw = get d "rewritten_article" [].
Proof.
  induction llm_data as [| d rest IH]; cbn [written]; [done |].
  destruct (written rest key) as [w |] eqn:Hw.
  - intros [= ->]. destruct (IH eq_refl) as (d' & Hin & Hd').
    exists d'. split; [by right | done].
  - case_bool_decide as Ht; [| done].
    intros [= <- <-]. exists d. split; [by left | done].
Qed.

(** The slots that hold a result hold one the rewriter could read. *)
Definition slots_readable (slots : list Slot) : Prop :=
  Forall (fun slot => match slot with
                      | Result r => readable (analysis r) = true
                      | ErrorRecord _ => True
                      end) slots.

Lemma display_loop_readable (slots : list Slot) :
  slots_readable slots -> display_loop slots = Returned tt.
Proof.
  induction 1 as [| [r | err] slots Hr _ IH]; cbn [display_loop]; [done | | done].
  unfold readable in Hr.
  destruct (analysis r) as [| | | | | | d]; try done. cbn [py_get obind].
  destruct (d !! biased_phrases) as [[| b | z | q | s | l | d'] |]; cbn [truthy] in *;
    try done.
  - by destruct b.
  - by destruct (z =? 0).
  - by destruct (Qeq_bool q 0).
  - by destruct s.
  - by destruct l.
  - by destruct (bool_decide (d' = ∅)).
Qed.

Section Pipeline.
Variable md5_hexdigest : pystr -> pystr.
Variable clock : nat -> Z.
Variable json_loads : pystr -> Outcome PyVal.
Variable world : nat -> Backends.
Variable exn_str : exn -> pystr.
Variable orchestrator : Agents.
Variable fetched : Outcome (list TextDict).

Lemma batch_slots_readable (articles : list TextDict) :
  exists slots,
    outcome (analyze_multiple_articles json_loads world exn_str orchestrator articles)
      = Returned slots /\
    length slots = length articles /\
    slots_readable slots.
Proof.
  eexists. split; [apply OrchestratorFacts.analyze_multiple_articles_imap |].
  split; [by rewrite length_imap |].
  apply Forall_forall. intros slot Hslot.
  apply list_elem_of_lookup in Hslot as [i Hi].
  rewrite list_lookup_imap in Hi.
  destruct (articles !! i) as [a |]; [| done].
  injection Hi as <-. unfold OrchestratorFacts.slot_of.
  destruct (outcome _) as [r | e] eqn:Hrun; [| done].
  by eapply analyze_article_returned.
Qed.

(** What a run leaves analysed. *)
Lemma run_full_pipeline_cases (file : option Database)
    (article_count : Z) :
  let run := run_full_pipeline py_str md5_hexdigest clock json_loads world
               exn_str orchestrator fetched file article_count in
  let results := snd (fst run) in
  let db' := snd run in
  (results = None -> unanalysed db') /\
  (forall slots, results = Some slots ->
     forall row b,
       row ∈ data_news db' -> bias row = Some b ->
       exists r,
         Result r ∈ slots /\ storable r = true /\
         b = py_str (analysis r) /\
         rewritten_article row = Some (neutral_version r)).
Proof.
  intros run results db'. subst run results db'.
  assert (Hempty : forall db,
            unanalysed db ->
            (@None (list Slot) = None -> unanalysed db) /\
            (forall slots, @None (list Slot) = Some slots ->
               forall row b,
                 row ∈ data_news db -> bias row = Some b ->
                 exists r,
                   Result r ∈ slots /\ storable r = true /\
                   b = py_str (analysis r) /\
                   rewritten_article row = Some (neutral_version r)))
    by (intros; split; [done | discriminate]).
  unfold run_full_pipeline, run_full_pipeline_try, step_bind, writes, reads,
    pure, asks, step_ret.
  pose proof (clear_unanalysed (get_connection_to_news_db file)) as H1.
  destruct (clear_processed_articles (get_connection_to_news_db file))
    as [deleted db1].
  cbn [snd] in H1.
  destruct fetched as [[| a articles] | e]; cbn [fst snd];
    [by apply (Hempty db1) | | by apply (Hempty db1)].
  destruct (print_titles (a :: articles)) as [[] | e]; cbn [fst snd];
    [| by apply (Hempty db1)].
  pose proof (add_news_unanalysed md5_hexdigest clock db1 (a :: articles) H1) as H2.
  destruct (add_news md5_hexdigest clock db1 (a :: articles)) as [added db2].
  cbn [snd] in H2.
  destruct (added =? 0); cbn [fst snd]; [by apply (Hempty db2) |].
  destruct (prepare_data_for_llm article_count true db2) as [[| l ls] | e];
    cbn [fst snd]; [by apply (Hempty db2) | | by apply (Hempty db2)].
  destruct (batch_slots_readable (l :: ls)) as (slots & -> & _ & Hread).
  unfold _verify_llm_results.
  destruct (verify_loop slots) as [[] | e]; cbn [obind fst snd];
    [| by apply (Hempty db2)].
  destruct (_format_results_for_db py_str slots (l :: ls)) as [records | e] eqn:Hfmt;
    cbn [fst snd]; [| by apply (Hempty db2)].
  unfold _format_results_for_db in Hfmt.
  destruct (format_loop_returned _ _ _ _ _ Hfmt) as (new & -> & _ & Hnew).
  cbn [app] in *.
  assert (Hwf : Forall well_formed new).
  { apply Forall_forall. intros d Hd.
    apply Hnew in Hd as (j & r & t & _ & _ & _ & ->). apply record_well_formed. }
  unfold _display_summary. rewrite (display_loop_readable slots Hread).
  destruct new as [| d ds]; cbn [fst snd app].
  - split; [discriminate |].
    intros slots' _ row b Hrow Hb.
    unfold unanalysed in H2. rewrite Forall_forall in H2.
    rewrite (H2 row Hrow) in Hb. done.
  - rewrite (add_bias_well_formed (d :: ds) db2 Hwf). cbn [fst snd app data_news].
    split; [discriminate |].
    intros slots' [= <-] row b Hrow Hb.
    apply list_elem_of_fmap in Hrow as (row0 & -> & Hrow0).
    unfold unanalysed in H2. rewrite Forall_forall in H2.
    specialize (H2 row0 Hrow0).
    unfold row_after in Hb |- *.
    destruct (written (d :: ds) (title row0)) as [[b' rw] |] eqn:Hw;
      [| congruence].
    cbn [bias rewritten_article] in *. injection Hb as ->.
    destruct (written_elem _ _ _ _ Hw) as (d0 & Hd0 & _ & Hb0 & Hrw0).
    apply Hnew in Hd0 as (j & r & t & Hj & Hs & _ & ->).
    exists r. split_and!.
    + by eapply list_elem_of_lookup_2.
    + done.
    + by rewrite Hb0.
    + by rewrite Hrw0.
Qed.

(** X19.  A run of [run_full_pipeline] first deletes what was
    analysed, so what is analysed after it was analysed by it.
    When it returns [None] (nothing fetched, nothing new, an
    exception) no row of the table is analysed.  When it returns
    its results, every row that is analysed holds the analysis
    and the rewrite of one of these results. *)
Theorem run_full_pipeline_fresh_analyses (file : option Database)
    (article_count : Z) :
  let run := run_full_pipeline py_str md5_hexdigest clock json_loads world
               exn_str orchestrator fetched file article_count in
  let results := snd (fst run) in
  let db' := snd run in
  (results = None -> unanalysed db') /\
  (forall slots, results = Some slots ->
     forall row b,
       row ∈ data_news db' -> bias row = Some b ->
       exists r,
         Result r ∈ slots /\ storable r = true /\
         b = py_str (analysis r) /\
         rewritten_article row = Some (neutral_version r)).
Proof. apply run_full_pipeline_cases. Qed.

Lemma print_titles_total (articles : list TextDict) :
  Forall (fun a => is_Some (a !! "title")) articles ->
  print_titles articles = Returned tt.
Proof.
  induction 1 as [| a articles [t Ht] _ IH]; cbn [print_titles]; [done |].
  unfold item. by rewrite Ht.
Qed.

Lemma verify_loop_readable (slots : list Slot) :
  slots_readable slots -> verify_loop slots = Returned tt.
Proof.
  induction 1 as [| [r | err] slots Hr _ IH]; cbn [verify_loop]; [done | | done].
  apply readable_dict in Hr. by destruct (analysis r).
Qed.

(** With something to select and a limit that is positive, the
    selection is not empty, and is within the limit. *)
Lemma prepare_data_for_llm_some (limit : Z) (db : Database) :
  0 < limit < 2 ^ 63 -> unanalysed db -> data_news db <> [] ->
  exists l ls,
    prepare_data_for_llm limit true db = Returned (l :: ls) /\
    Z.of_nat (length (l :: ls)) <= limit /\
    Forall (fun a => is_Some (a !! "title")) (l :: ls).
Proof.
  intros Hlimit Hun Hrows. unfold prepare_data_for_llm, fits_int64.
  replace (- 2 ^ 63 <=? limit) with true by lia.
  replace (limit <? 2 ^ 63) with true by lia. cbn [andb].
  unfold selected_rows, sql_limit.
  replace (limit <? 0) with false by lia.
  change (fun r : Row => match bias r with None => true | Some _ => false end)
    with unprocessed.
  rewrite filter_all.
  2:{ eapply Forall_impl; [exact Hun |]. intros row Hrow. unfold unprocessed.
      by rewrite Hrow. }
  pose proof (order_by_perm (data_news db)) as Hperm.
  destruct (order_by_created_at_desc (data_news db)) as [| row sorted] eqn:Hsorted.
  { apply Permutation_nil_l in Hperm. congruence. }
  destruct (Z.to_nat limit) as [| n] eqn:Hn; [lia |].
  cbn [take fmap list_fmap]. eexists _, _. split_and!; [done | |].
  - cbn [length]. rewrite length_fmap, length_take. lia.
  - apply Forall_forall. intros a Ha.
    change (to_article row :: (to_article <$> take n sorted))
      with (to_article <$> (row :: take n sorted)) in Ha.
    apply list_elem_of_fmap in Ha as (row' & -> & _).
    unfold to_article. by eexists.
Qed.

(** What the agents make of an article when every backend fails. *)
Definition fallback_result (slot : Slot) : Prop :=
  exists r,
    slot = Result r /\ analysis r = _get_fallback_response /\
    neutral_version r = original_text r /\
    rewrite_quality r = Quality.no_change.

Lemma batch_outage (articles : list TextDict) (slots : list Slot) :
  (forall i, down (world i)) ->
  outcome (analyze_multiple_articles json_loads world exn_str orchestrator articles)
    = Returned slots ->
  Forall fallback_result slots.
Proof.
  intros Hdown. rewrite OrchestratorFacts.analyze_multiple_articles_imap.
  intros [= <-]. apply Forall_forall. intros slot Hslot.
  apply list_elem_of_lookup in Hslot as [i Hi].
  rewrite list_lookup_imap in Hi.
  destruct (articles !! i) as [a |]; [| done].
  injection Hi as <-. unfold OrchestratorFacts.slot_of, OrchestratorFacts.pipeline.
  destruct (analyze_article_outage json_loads (world i) orchestrator
              (get a "body" []) (get a "title" []) (get a "source" (py "unknown"))
              (Hdown i)) as (-> & _).
  eexists. by split_and!.
Qed.

(** X20.  When the fetch brings articles with titles of which one
    at least is new, and the count asked for is positive,
    [run_full_pipeline] returns results, not [None]: between one and
    [article_count] of them.  With every backend failing it does so
    just the same: each result is the fallback analysis with the
    article as its own rewrite, and the rows the run marks as
    analysed hold the fallback analysis. *)
Theorem run_full_pipeline_returns_results (file : option Database)
    (article_count : Z) (articles : list TextDict) :
  fetched = Returned articles ->
  Forall (fun a => is_Some (a !! "title")) articles ->
  0 < article_count < 2 ^ 63 ->
  fst (add_news md5_hexdigest clock
         (snd (clear_processed_articles (get_connection_to_news_db file)))
         articles) <> 0 ->
  let run := run_full_pipeline py_str md5_hexdigest clock json_loads world
               exn_str orchestrator fetched file article_count in
  exists slots,
    snd (fst run) = Some slots /\
    0 < Z.of_nat (length slots) <= article_count /\
    ((forall i, down (world i)) ->
       Forall fallback_result slots /\
       Forall (fun row => bias row = None \/
                          bias row = Some (py_str _get_fallback_response))
         (data_news (snd run))).
Proof.
  intros Hfetched Htitles Hcount Hadded run.
  pose proof (run_full_pipeline_cases file article_count) as [_ Hfresh].
  fold run in Hfresh. cbv zeta in Hfresh.
  assert (Hrun : exists slots llm_articles,
            snd (fst run) = Some slots /\
            0 < Z.of_nat (length slots) <= article_count /\
            outcome (analyze_multiple_articles json_loads world exn_str
                       orchestrator llm_articles) = Returned slots).
  { subst run.
    unfold run_full_pipeline, run_full_pipeline_try, step_bind, writes, reads,
      pure, asks, step_ret.
    pose proof (clear_unanalysed (get_connection_to_news_db file)) as H1.
    revert Hadded.
    destruct (clear_processed_articles (get_connection_to_news_db file))
      as [deleted db1].
    cbn [snd] in *. rewrite Hfetched. intros Hadded.
    destruct articles as [| a articles].
    { by destruct Hadded. }
    rewrite (print_titles_total _ Htitles).
    pose proof (add_news_unanalysed md5_hexdigest clock db1 (a :: articles) H1) as H2.
    assert (Hrows : data_news (snd (add_news md5_hexdigest clock db1 (a :: articles)))
                    <> []).
    { revert Hadded. unfold add_news.
      destruct (add_news_loop_spec md5_hexdigest clock (a :: articles) 0 db1 0 0)
        as (new_rows & seq & -> & _).
      cbn [fst snd data_news]. intros Hadded Hnil.
      apply app_eq_nil in Hnil as [_ ->]. by destruct Hadded. }
    destruct (add_news md5_hexdigest clock db1 (a :: articles)) as [added db2].
    cbn [fst snd] in *.
    replace (added =? 0) with false by (symmetry; by apply Z.eqb_neq).
    destruct (prepare_data_for_llm_some article_count db2 Hcount H2 Hrows)
      as (l & ls & -> & Hlen & Hllm).
    destruct (batch_slots_readable (l :: ls)) as (slots & Hbatch & Hslots & Hread).
    rewrite Hbatch. unfold _verify_llm_results.
    rewrite (verify_loop_readable slots Hread). cbn [obind].
    unfold _format_results_for_db.
    destruct (format_loop_total slots (l :: ls) Hllm 0 []) as [records Hfmt].
    rewrite Hfmt.
    destruct (format_loop_returned _ _ _ _ _ Hfmt) as (new & -> & _ & Hnew).
    cbn [app] in *.
    assert (Hwf : Forall well_formed new).
    { apply Forall_forall. intros d Hd.
      apply Hnew in Hd as (j & r & t & _ & _ & _ & ->). apply record_well_formed. }
    unfold _display_summary. rewrite (display_loop_readable slots Hread).
    exists slots, (l :: ls). split_and!.
    - destruct new as [| d ds]; [done |].
      by rewrite (add_bias_well_formed (d :: ds) db2 Hwf).
    - rewrite Hslots. cbn [length]. lia.
    - rewrite Hslots. exact Hlen.
    - done. }
  destruct Hrun as (slots & llm_articles & Hsome & Hlen & Hbatch).
  exists slots. split_and!; [done | lia | lia |].
  intros Hdown.
  pose proof (batch_outage llm_articles slots Hdown Hbatch) as Hfall.
  split; [done |].
  apply Forall_forall. intros row Hrow.
  destruct (bias row) as [b |] eqn:Hb; [right | by left].
  destruct (Hfresh slots Hsome row b Hrow Hb) as (r & Hr & _ & -> & _).
  rewrite Forall_forall in Hfall.
  destruct (Hfall _ Hr) as (r' & [= <-] & -> & _). done.
Qed.

End Pipeline.

End WithStr.

(** A run during an outage, on an empty store, with two articles
    fetched. *)
Definition as_text (v : PyVal) : pystr :=
  match v with
  | PyDict _ => py "{...}"
  | _ => py "?"
  end.

Definition no_text (e : exn) : pystr := [].

Definition outage_run : list Call * option (list Slot) * Database :=
  run_full_pipeline as_text content_as_digest seconds JsonLite.json_loads
    (fun _ => outage) no_text mixed_agents (Returned [flood; strike]) None 3.

Lemma run_full_pipeline_returns_results_witness :
  exists slots,
    snd (fst outage_run) = Some slots /\
    0 < Z.of_nat (length slots) <= 3 /\
    Forall (fallback_result) slots /\
    Forall (fun row => bias row = None \/
                       bias row = Some (as_text _get_fallback_response))
      (data_news (snd outage_run)) /\
    processed_of (snd outage_run) = 2.
Proof.
  destruct (run_full_pipeline_returns_results as_text content_as_digest seconds
              JsonLite.json_loads (fun _ => outage) no_text mixed_agents
              (Returned [flood; strike]) None 3 [flood; strike])
    as (slots & Hsome & Hlen & Houtage).
  - reflexivity.
  - repeat constructor; by eexists.
  - lia.
  - vm_compute. discriminate.
  - destruct Houtage as [Hfall Hrows].
    { intros i model prompt. split_and!; eexists; reflexivity. }
    exists slots. split_and!; [exact Hsome | lia | lia | exact Hfall | exact Hrows |].
    vm_compute. reflexivity.
Defined.

End PipelineFacts.

(** ** Fetching articles *)

Module NewsClientFacts.

Import PyOps NewsClient.

Local Open Scope net_scope.


Lemma nbind_returned {A R} (m : Net A) (k : A -> Net R) (sent : list Request) (a : A) :
  m = (sent, Returned a) -> nbind m k = (sent ++ fst (k a), snd (k a)).
Proof. intros ->. unfold nbind. by destruct (k a). Qed.

Lemma nbind_lift {A R} (o : Outcome A) (k : A -> Net R) :
  nbind (nlift o) k = match o with Returned a => k a | Raised e => ([], Raised e) end.
Proof. unfold nbind, nlift. destruct o as [a | e]; [| done]. by destruct (k a). Qed.

Ltac lift_step :=
  match goal with
  | |- context [nbind (nlift ?o) ?k] => rewrite (nbind_lift o k)
  end.

Lemma ntry_returns {A} (m : Net A) (a : A) :
  exists out, snd (ntry m (nret a)) = Returned out /\
              fst (ntry m (nret a)) = fst m /\
              (forall x, snd m = Returned x -> out = x) /\
              (forall e, snd m = Raised e -> out = a).
Proof.
  destruct m as [sent [x | e]]; simpl.
  - exists x. split_and!; [done | done | by intros ? [= ->] | done].
  - exists a. rewrite app_nil_r. split_and!; [done | done | done | done].
Qed.

Section WithNetwork.
Variable network : Request -> Outcome Response.
Variable highest_score : PyVal -> Outcome PyVal.
Variable today : pystr.
Variable self : Keys.

Local Abbreviation categorize := (_categorize_article network highest_score self).

(** The one request of a categorization. *)
Definition categorize_request (text : pystr) : Request :=
  PostCategorize (take 5000 text) (either_key self).

Lemma categorize_try_sent (text : pystr) :
  fst (categorize_try network highest_score self text) = [categorize_request text].
Proof.
  unfold categorize_try, send, categorize_request.
  destruct (network _) as [response | e]; [| done].
  cbn [nbind]. lift_step.
  destruct (raise_for_status response) as [[] | e]; [| done].
  lift_step. destruct (json response) as [data | e]; [| done].
  lift_step. destruct (py_in (py "categories") data) as [[|] | e];
    try done.
  lift_step. destruct (py_item data (py "categories")) as [cats | e];
    [| done].
  destruct (truthy cats); [| done].
  lift_step. destruct (highest_score cats) as [top | e]; [| done].
  lift_step. destruct (py_item top (py "label")) as [label | e]; [| done].
  by destruct label.
Qed.

Lemma categorize_try_fails (text : pystr) :
  (forall e, network (categorize_request text) = Raised e ->
     exists e', snd (categorize_try network highest_score self text) = Raised e') /\
  (forall response,
     network (categorize_request text) = Returned response ->
     400 <= status_code response < 600 ->
     exists e', snd (categorize_try network highest_score self text) = Raised e').
Proof.
  unfold categorize_try, send, categorize_request. split.
  - intros e ->. by eexists.
  - intros response -> Hstatus. cbn [nbind]. lift_step.
    unfold raise_for_status.
    replace (400 <=? status_code response) with true by lia.
    replace (status_code response <? 600) with true by lia.
    by eexists.
Qed.

(** X21.  [_categorize_article] on a text raises nothing and sends
    one request at most.  A text of fewer than 50 characters once
    stripped is "Uncategorized" without a request.  So is, after its
    request, a text for which the request raises or comes back with
    a status from 400 to 599. *)
Theorem categorize_article_total (text : pystr) :
  let run := categorize (PyStr text) in
  exists label,
    snd run = Returned label /\
    (fst run = [] \/ fst run = [categorize_request text]) /\
    ((length (strip text) < 50)%nat -> run = ([], Returned Uncategorized)) /\
    ((50 <= length (strip text))%nat ->
       fst run = [categorize_request text] /\
       (forall e, network (categorize_request text) = Raised e ->
          label = Uncategorized) /\
       (forall response,
          network (categorize_request text) = Returned response ->
          400 <= status_code response < 600 -> label = Uncategorized)).
Proof.
  intros run. subst run. unfold _categorize_article. cbn [truthy].
  destruct text as [| c text]; cbn [negb].
  { exists Uncategorized. split_and!; [done | by left | done |].
    intros Hlen. vm_compute in Hlen. lia. }
  destruct (Z.of_nat (length (strip (c :: text))) <? 50) eqn:Hshort.
  { apply Z.ltb_lt in Hshort.
    exists Uncategorized. split_and!; [done | by left | done | lia]. }
  apply Z.ltb_ge in Hshort.
  pose proof (categorize_try_sent (c :: text)) as Hsent.
  destruct (categorize_try_fails (c :: text)) as [Hraise Hstatus].
  destruct (categorize_try network highest_score self (c :: text))
    as [sent [[label |] | e]] eqn:Htry; cbn [fst snd] in *; subst sent.
  - exists label. cbn [ntry nbind nret fst snd app].
    split_and!; [done | by right | lia |].
    intros _. split_and!; [done | |].
    + intros e He. by destruct (Hraise e He).
    + intros response Hr Hs. by destruct (Hstatus response Hr Hs).
  - exists Uncategorized. cbn [ntry nbind nret fst snd app].
    split_and!; [done | by right | lia | done].
  - exists Uncategorized. cbn [ntry nbind nret fst snd app].
    split_and!; [done | by right | lia | done].
Qed.

Lemma categorize_cases (v : PyVal) :
  (exists sent label, categorize v = (sent, Returned label)) \/
  ((forall s, v <> PyStr s) /\ truthy v = true /\
   categorize v = ([], Raised AttributeError)).
Proof.
  destruct v as [| b | z | q | s | l | d];
    unfold _categorize_article; cbn [truthy negb].
  - left. by eexists _, _.
  - destruct b; [right; by split_and! | left; by eexists _, _].
  - destruct (z =? 0); [left; by eexists _, _ | right; by split_and!].
  - destruct (Qeq_bool q 0); [left; by eexists _, _ | right; by split_and!].
  - left. destruct s as [| c s]; [by eexists _, _ |]. cbn [negb].
    destruct (_ <? 50); [by eexists _, _ |].
    destruct (categorize_try network highest_score self (c :: s))
      as [sent [[label |] | e]]; cbn; by eexists _, _.
  - destruct l; [left; by eexists _, _ | right; by split_and!].
  - destruct (bool_decide (d = ∅)); [left; by eexists _, _ | right; by split_and!].
Qed.


















(** A step of the loop of [_fetch_newsapi]: it raises, or goes on with
    the rest. *)
Lemma newsapi_loop_step (article : PyVal) (rest articles : list PyVal) :
  (exists sent e,
     newsapi_loop network highest_score self (article :: rest) articles
     = (sent, Raised e)) \/
  (exists sent articles',
     newsapi_loop network highest_score self (article :: rest) articles
     = (sent ++ fst (newsapi_loop network highest_score self rest articles'),
        snd (newsapi_loop network highest_score self rest articles'))).
Proof.
  cbn [newsapi_loop].
  lift_step. destruct (py_get article (py "content") _) as [first | e];
    [| left; by eexists _, _].
  lift_step. destruct (py_or first _) as [content | e]; [| left; by eexists _, _].
  lift_step. destruct (py_len content) as [n | e]; [| left; by eexists _, _].
  destruct (n <? 100).
  { right. exists [], articles. by destruct (newsapi_loop _ _ _ rest articles). }
  destruct (categorize_cases content) as [(s1 & label & Hcat) | (_ & _ & Hcat)].
  2:{ left. rewrite Hcat. by eexists _, _. }
  rewrite (nbind_returned _ _ _ _ Hcat).
  lift_step. destruct (py_get article (py "title") _) as [title | e];
    [| left; by eexists _, _].
  lift_step. destruct (py_get article (py "source") _) as [source | e];
    [| left; by eexists _, _].
  lift_step. destruct (py_get source (py "name") _) as [source_name | e];
    [| left; by eexists _, _].
  lift_step. destruct (py_get article (py "publishedAt") _) as [date | e];
    [| left; by eexists _, _].
  lift_step. destruct (split_first 84 date) as [day | e]; [| left; by eexists _, _].
  lift_step. destruct (py_get article (py "url") _) as [url | e];
    [| left; by eexists _, _].
  right. by eexists _, _.
Qed.

(** An article without content and without description, both [null]. *)
Definition blank_article (article : PyVal) : Prop :=
  exists a, article = PyDict a /\
            a !! py "content" = Some PyNone /\ a !! py "description" = Some PyNone.

Lemma newsapi_loop_blank (articles_data : list PyVal) :
  Exists blank_article articles_data ->
  forall articles, exists sent e,
    newsapi_loop network highest_score self articles_data articles = (sent, Raised e).
Proof.
  induction 1 as [article rest (a & -> & Hc & Hd) | article rest _ IH];
    intros articles.
  - cbn [newsapi_loop py_get]. rewrite Hc, Hd.
    lift_step. cbn [py_or truthy]. lift_step. lift_step. by eexists _, _.
  - destruct (newsapi_loop_step article rest articles)
      as [Hraised | (sent & articles' & ->)]; [done |].
    destruct (IH articles') as (s & e & ->). by eexists _, _.
Qed.

(** X23.  One article without content spoils the lot: when the answer
    of NewsAPI holds an article whose content and description are
    both [null], [_fetch_newsapi] returns no article at all, whatever
    the other articles of the answer are. *)
Theorem fetch_newsapi_blank_article (query : pystr) (count : Z)
    (response : Response) (d : gmap pystr PyVal) (items : list PyVal) :
  missing (newsapi_key self) = false ->
  network (GetEverything query count (newsapi_key self)) = Returned response ->
  status_code response = 200 ->
  json response = Returned (PyDict d) ->
  d !! py "articles" = Some (PyList items) ->
  Exists blank_article items ->
  snd (_fetch_newsapi network highest_score self query count) = Returned [].
Proof.
  intros Hkey Hnet Hstatus Hjson Hitems Hblank.
  unfold _fetch_newsapi, send. rewrite Hkey, Hnet. cbn [nbind].
  rewrite Hstatus. cbn [Z.eqb Pos.eqb]. rewrite Hjson.
  lift_step. cbn [py_get]. rewrite Hitems. lift_step. cbn [py_iter]. lift_step.
  destruct (newsapi_loop_blank items Hblank []) as (sent & e & ->).
  reflexivity.
Qed.

End WithNetwork.

(** NewsAPI answers with two articles, of which the first has neither
    content nor description. *)
Definition long_text : pystr :=
  py "The city council voted on Tuesday to approve the new budget after a debate that lasted for most of the evening.".

Definition answer_items : list PyVal :=
  [PyDict (<[py "title" := PyStr (py "Budget vote")]>
           (<[py "content" := PyNone]> (<[py "description" := PyNone]> ∅)));
   PyDict (<[py "title" := PyStr (py "Council approves budget")]>
           (<[py "content" := PyStr long_text]> ∅))].

Definition newsapi_only : Keys :=
  {| newsapi_ai_key := None; newsapi_key := Some (py "key-1") |}.

Definition newsapi_answers (items : list PyVal) (r : Request) : Outcome Response :=
  match r with
  | GetEverything _ _ _ =>
      Returned {| status_code := 200;
                  json := Returned (PyDict (<[py "articles" := PyList items]> ∅)) |}
  | _ => Raised (ProviderError 503)
  end.

Definition no_sorting (v : PyVal) : Outcome PyVal := Raised TypeError.

Lemma fetch_newsapi_blank_article_witness :
  snd (_fetch_newsapi (newsapi_answers answer_items) no_sorting newsapi_only (py "budget") 5)
    = Returned [] /\
  length (match snd (_fetch_newsapi (newsapi_answers (drop 1 answer_items)) no_sorting
                       newsapi_only (py "budget") 5) with
          | Returned articles => articles
          | Raised _ => []
          end) = 1%nat.
Proof.
  split; [| by vm_compute].
  eapply (fetch_newsapi_blank_article (newsapi_answers answer_items) no_sorting newsapi_only
            (py "budget") 5).
  - reflexivity.
  - reflexivity.
  - reflexivity.
  - reflexivity.
  - by vm_compute.
  - left. eexists. split; [reflexivity |]. split; by vm_compute.
Defined.




End NewsClientFacts.

(** ** The clients of the first version *)

Module ClientsFacts.

Import Clients.

(** The three attributes of an instance, and no other. *)
Lemma getattr_assigned (h : Handle) :
  getattr (assign h) "client" = Returned (Client h) /\
  getattr (assign h) "model_name" = Returned (ModelName (model_name h)) /\
  getattr (assign h) "provider" = Returned (Provider (provider h)) /\
  getattr (assign h) "model" = Raised AttributeError.
Proof. split_and!; vm_compute; reflexivity. Qed.

Section WithDecoder.
Variable json_loads : pystr -> Outcome PyVal.
Variable B : Backends.
Variable env : ModelFactory.Environment.

(** X24.  [__init__] gives an instance of [GeminiClient] or of
    [ClaudeClient] the attributes [client], [model_name] and
    [provider], and [analyze_bias] reads [self.model], which none of
    them is.  So on an instance as its constructor leaves it,
    [analyze_bias] of either class sends no request, whatever the
    article, and returns the fallback response, whose summary is
    "Analysis unavailable". *)
Theorem analyze_bias_always_falls_back (w w' : ModelFactory.World)
    (self : Instance) (article_text : pystr) :
  __init__ env w = (Returned self, w') ->
  getattr self "model" = Raised AttributeError /\
  gemini_analyze_bias json_loads B self article_text
    = ([], Returned _get_fallback_response) /\
  claude_analyze_bias json_loads B self article_text
    = ([], Returned _get_fallback_response).
Proof.
  unfold __init__, ModelFactory.sbind, ModelFactory.sret.
  destruct (ModelFactory.get_model env w) as [[h | e] w1]; [| done].
  intros [= <- <-].
  destruct (getattr_assigned h) as (Hclient & _ & _ & Hmodel).
  split; [done |]. unfold gemini_analyze_bias, claude_analyze_bias.
  destruct (too_short article_text); [done |].
  rewrite Hmodel, Hclient. split; [done |].
  cbn [lift ebind].
  destruct (messages_create (Client h)) as [create | e]; reflexivity.
Qed.
End WithDecoder.

Definition groq_alive : ModelFactory.Environment :=
  {| ModelFactory.getenv := fun name =>
       if String.eqb name "GROQ_API_KEY" then Some (py "gsk-1") else None;
     ModelFactory.probe := fun _ _ _ => true |}.

Definition eager : Backends :=
  {| groq_chat := fun _ _ => Returned (Some (py "{}"));
     gemini_generate := fun _ _ => Returned (py "{}");
     claude_messages := fun _ _ => Returned (py "{}") |}.

Definition on_first_groq : Handle :=
  {| model_name := py "llama-3.1-70b-versatile"; provider := GROQ |}.

Lemma analyze_bias_always_falls_back_witness :
  __init__ groq_alive {| ModelFactory.trials := 0; ModelFactory.selections := 0 |}
    = (Returned (assign on_first_groq),
       {| ModelFactory.trials := 1; ModelFactory.selections := 1 |}) /\
  gemini_analyze_bias JsonLite.json_loads eager (assign on_first_groq)
    (py "A monster storm is about to flatten the helpless coast.")
    = ([], Returned _get_fallback_response).
Proof.
  assert (Hinit :
    __init__ groq_alive {| ModelFactory.trials := 0; ModelFactory.selections := 0 |}
    = (Returned (assign on_first_groq),
       {| ModelFactory.trials := 1; ModelFactory.selections := 1 |}))
    by (vm_compute; reflexivity).
  split; [exact Hinit |].
  destruct (analyze_bias_always_falls_back JsonLite.json_loads eager groq_alive _ _ _
              (py "A monster storm is about to flatten the helpless coast.") Hinit)
    as (_ & Hgemini & _).
  exact Hgemini.
Defined.

End ClientsFacts.
